(** * Parametric-Design-Tool: mesh builders, geometry cache and display throttle

    A shallow embedding of
      - [src/geometry/table/geometry.py]  ([tableGeometry]),
      - [src/geometry/vase/geometry.py]   ([vaseGeometry]),
      - [src/core/app.py]                 (geometry providers, display
        manager, object creation service),
    and the properties the specification states about them.

    Modelling conventions.
      - A Python [float] is a real number ([R]); [math.cos], [math.sin] and
        [math.pi] are [cos], [sin] and [PI].  Rounding error is not modelled
        there; where a property depends on rounding, the code is given a
        second time over binary64 floats (module [VaseFloat]).
      - A Python [int] is a [Z]; [int / int] is real division, [%] is
        [Z.modulo].
      - A [list] that is indexed raises [IndexError] out of range: the
        builders run in a state monad with failure.
      - A [dict] whose iteration order is observed (the caches) is an
        association list in insertion order; a [dict] that is only looked
        up (the parameter map) is a [gmap].
      - [time.time()] is an input: every call site that reads the clock gets
        its reading as an argument. *)

From Stdlib Require Import ZArith List String Reals RList Lra Lia Bool.
From Stdlib Require Floats.
From stdpp Require Import gmap strings.
Import ListNotations.

Open Scope Z_scope.

(** ** Mesh data shared by both builders *)

(** One row of a [GeomVertexData] in the V3n3 format. *)
Record Vertex : Type := mkVertex
  { vx : R; vy : R; vz : R; vnx : R; vny : R; vnz : R }.

Definition Triangle : Type := (Z * Z * Z)%type.

(** A [Geom]: the vertex rows in row order and one [GeomTriangles]
    primitive. *)
Record Geom : Type := mkGeom
  { geom_vdata : list Vertex; geom_triangles : list Triangle }.

(** ** The builder monad: local state and [IndexError] *)

Definition Build (S A : Type) : Type := S -> option (A * S).

Definition ret {S A : Type} (a : A) : Build S A := fun s => Some (a, s).

Definition bind {S A B : Type} (m : Build S A) (k : A -> Build S B) : Build S B :=
  fun s => match m s with
           | Some (a, s') => k a s'
           | None => None
           end.

Definition raise_IndexError {S A : Type} : Build S A := fun _ => None.

Declare Scope build_scope.
Delimit Scope build_scope with build.
Notation "x <- m ;; k" := (bind m (fun x => k))
  (at level 100, m at next level, right associativity) : build_scope.
Notation "m ;; k" := (bind m (fun _ => k))
  (at level 100, right associativity) : build_scope.

(** [range(n)] *)
Definition range (n : Z) : list Z := map Z.of_nat (seq 0 (Z.to_nat n)).

(** [l[i]] on a Python list: a negative index counts from the end, anything
    outside the list raises [IndexError]. *)
Definition getitem {S : Type} (l : list Z) (i : Z) : Build S Z :=
  let len := Z.of_nat (length l) in
  let j := if i <? 0 then len + i else i in
  if (0 <=? j) && (j <? len)
  then match nth_error l (Z.to_nat j) with
       | Some v => ret v
       | None => raise_IndexError
       end
  else raise_IndexError.

(** [for i in l: acc = body(i, acc)]: the loop's local variables are the
    accumulator. *)
Fixpoint for_loop {S Acc : Type} (l : list Z) (body : Z -> Acc -> Build S Acc)
    (acc : Acc) : Build S Acc :=
  match l with
  | [] => ret acc
  | i :: l' => bind (body i acc) (for_loop l' body)
  end.

(** ** Surface modulation as the specification words it (section 4.1) *)

Definition radius_spec (baseWidth phi lengthRatio segmentCount twistAngle
    grooveDepth waveFreq waveDepth : R) : R :=
  let phi' := (phi + twistAngle * 0.067 * PI * lengthRatio)%R in
  (baseWidth
   + grooveDepth * 0.06 * cos (segmentCount * phi')
   + waveDepth * 0.15 * cos (waveFreq * lengthRatio))%R.

(** ** The solid ("table") builder: [tableGeometry] *)

Module Table.

Definition ObjectType : string := "Table".
Definition radius : R := 1.
Definition height : R := 2.
Definition segments : Z := 100.
Definition height_segments : Z := 50.
Definition half_height : R := (height / 2)%R.

(** [vdata] with its two writers (which advance together) and the local
    list [indices].  Rows are kept newest first. *)
Record State : Type := mkState
  { vdata : list Vertex; write_row : Z; indices : list Triangle }.

Definition initial : State :=
  {| vdata := []; write_row := 0; indices := [] |}.

Definition add_vertex (x y z nx ny nz : R) : Build State Z :=
  fun s =>
    let s' := {| vdata := mkVertex x y z nx ny nz :: vdata s;
                 write_row := write_row s + 1;
                 indices := indices s |} in
    Some (write_row s' - 1, s').

(** [indices.extend(ts)] *)
Definition extend (ts : list Triangle) : Build State unit :=
  fun s => Some (tt, {| vdata := vdata s; write_row := write_row s;
                        indices := indices s ++ ts |}).

(** The statements after the loops: the triangles are copied into the
    primitive and [(ObjectType, geom)] is returned. *)
Definition finish (r : option (unit * State)) : option (string * Geom) :=
  match r with
  | Some (_, s) =>
      Some (ObjectType, {| geom_vdata := rev_append (vdata s) [];
                           geom_triangles := indices s |})
  | None => None
  end.

Section Builder.
Variable segment_count : Z.
Variables object_width twist_angle twist_groove_depth
          vertical_wave_freq vertical_wave_depth : R.

Definition get_surface_modulation (phi length_ratio : R) : R :=
  let phi := (phi + twist_angle * 0.067 * PI * length_ratio)%R in
  let modulated_radius :=
    (object_width
     + (twist_groove_depth * 0.06) * cos (IZR segment_count * phi)
     + (vertical_wave_depth * 0.15) * cos (vertical_wave_freq * length_ratio))%R in
  modulated_radius.

Open Scope build_scope.

(** Rim vertices of the two caps. *)
Definition cap_vertices : Build State (list Z * list Z) :=
  for_loop (range segments)
    (fun i '(top_vertices, bottom_vertices) =>
       let angle := ((2 * PI * IZR i) / IZR segments)%R in
       let top_radius := get_surface_modulation angle 1 in
       let bottom_radius := get_surface_modulation angle 0 in
       top_v <- add_vertex (top_radius * cos angle) (top_radius * sin angle)
                           half_height 0 0 1 ;;
       bottom_v <- add_vertex (bottom_radius * cos angle) (bottom_radius * sin angle)
                              (- half_height) 0 0 (-1) ;;
       ret (top_vertices ++ [top_v], bottom_vertices ++ [bottom_v]))
    ([], []).

Definition top_fan (top_center : Z) (top_vertices : list Z) : Build State unit :=
  for_loop (range segments)
    (fun i _ =>
       let next_i := (i + 1) mod segments in
       a <- getitem top_vertices i ;;
       b <- getitem top_vertices next_i ;;
       extend [(top_center, a, b)])
    tt.

Definition bottom_fan (bottom_center : Z) (bottom_vertices : list Z) : Build State unit :=
  for_loop (range segments)
    (fun i _ =>
       let next_i := (i + 1) mod segments in
       a <- getitem bottom_vertices next_i ;;
       b <- getitem bottom_vertices i ;;
       extend [(bottom_center, a, b)])
    tt.

Definition side_wall : Build State unit :=
  for_loop (range height_segments)
    (fun h _ =>
       let z1 := (half_height - (height * IZR h) / IZR height_segments)%R in
       let z2 := (half_height - (height * IZR (h + 1)) / IZR height_segments)%R in
       let length_ratio1 := (1 - (IZR h / IZR height_segments))%R in
       let length_ratio2 := (1 - (IZR (h + 1) / IZR height_segments))%R in
       for_loop (range segments)
         (fun i _ =>
            let next_i := (i + 1) mod segments in
            let angle1 := ((2 * PI * IZR i) / IZR segments)%R in
            let angle2 := ((2 * PI * IZR next_i) / IZR segments)%R in
            let radius1_lower := get_surface_modulation angle1 length_ratio2 in
            let radius1_upper := get_surface_modulation angle1 length_ratio1 in
            let radius2_lower := get_surface_modulation angle2 length_ratio2 in
            let radius2_upper := get_surface_modulation angle2 length_ratio1 in
            let mid_angle := ((angle1 + angle2) / 2)%R in
            let nx := cos mid_angle in
            let ny := sin mid_angle in
            v1 <- add_vertex (radius1_upper * cos angle1) (radius1_upper * sin angle1) z1 nx ny 0 ;;
            v2 <- add_vertex (radius1_lower * cos angle1) (radius1_lower * sin angle1) z2 nx ny 0 ;;
            v3 <- add_vertex (radius2_lower * cos angle2) (radius2_lower * sin angle2) z2 nx ny 0 ;;
            v4 <- add_vertex (radius2_upper * cos angle2) (radius2_upper * sin angle2) z1 nx ny 0 ;;
            extend [(v1, v2, v3); (v1, v3, v4)])
         tt)
    tt.

Definition build : Build State unit :=
  top_center <- add_vertex 0 0 half_height 0 0 1 ;;
  bottom_center <- add_vertex 0 0 (- half_height) 0 0 (-1) ;;
  rims <- cap_vertices ;;
  let '(top_vertices, bottom_vertices) := rims in
  top_fan top_center top_vertices ;;
  bottom_fan bottom_center bottom_vertices ;;
  side_wall.

(** Returns the pair [(ObjectType, geom)]; [None] is an uncaught
    [IndexError]. *)
Definition tableGeometry : option (string * Geom) :=
  finish (build initial).

End Builder.

End Table.

(** ** The hollow ("vase") builder: [vaseGeometry] *)

(** The bounding-box trackers start from [float('inf')] and
    [float('-inf')], which are not real numbers. *)
Inductive xfloat : Type :=
| Fin (r : R)
| PosInf
| NegInf
| NaN.

(** [min(m, x)] and [max(m, x)] for a tracker [m] and a finite [x]:
    Python keeps [m] unless [x < m] (resp. [x > m]). *)
Definition py_min (m : xfloat) (x : R) : xfloat :=
  match m with
  | Fin a => Fin (Rmin a x)
  | PosInf => Fin x
  | NegInf => NegInf
  | NaN => NaN
  end.

Definition py_max (m : xfloat) (x : R) : xfloat :=
  match m with
  | Fin a => Fin (Rmax a x)
  | NegInf => Fin x
  | PosInf => PosInf
  | NaN => NaN
  end.

(** Float subtraction on the extended values. *)
Definition xsub (a b : xfloat) : xfloat :=
  match a, b with
  | NaN, _ | _, NaN => NaN
  | Fin x, Fin y => Fin (x - y)
  | Fin _, PosInf => NegInf
  | Fin _, NegInf => PosInf
  | PosInf, PosInf => NaN
  | PosInf, _ => PosInf
  | NegInf, NegInf => NaN
  | NegInf, _ => NegInf
  end.

Module Vase.

Definition ObjectType : string := "Vase".
Definition radius : R := 1.
Definition height : R := 7.
Definition segments : Z := 40.
Definition height_segments : Z := 40.
Definition half_height : R := (height / 2)%R.

(** Default of the keyword argument [wall_thickness]. *)
Definition wall_thickness_default : R := 0.5.

(** [vdata] with its writers, the local list [indices] and the six
    [nonlocal] bounding-box trackers.  Rows are kept newest first. *)
Record State : Type := mkState
  { vdata : list Vertex; write_row : Z; indices : list Triangle;
    min_x : xfloat; max_x : xfloat;
    min_y : xfloat; max_y : xfloat;
    min_z : xfloat; max_z : xfloat }.

Definition initial : State :=
  {| vdata := []; write_row := 0; indices := [];
     min_x := PosInf; max_x := NegInf;
     min_y := PosInf; max_y := NegInf;
     min_z := PosInf; max_z := NegInf |}.

Definition add_vertex (x y z nx ny nz : R) : Build State Z :=
  fun s =>
    let s' := {| vdata := mkVertex x y z nx ny nz :: vdata s;
                 write_row := write_row s + 1;
                 indices := indices s;
                 min_x := py_min (min_x s) x; max_x := py_max (max_x s) x;
                 min_y := py_min (min_y s) y; max_y := py_max (max_y s) y;
                 min_z := py_min (min_z s) z; max_z := py_max (max_z s) z |} in
    Some (write_row s' - 1, s').

(** [indices.extend(ts)] *)
Definition extend (ts : list Triangle) : Build State unit :=
  fun s => Some (tt, {| vdata := vdata s; write_row := write_row s;
                        indices := indices s ++ ts;
                        min_x := min_x s; max_x := max_x s;
                        min_y := min_y s; max_y := max_y s;
                        min_z := min_z s; max_z := max_z s |}).

(** The statements after the loops: the triangles are copied into the
    primitive, the extents are taken from the trackers, and the tuple
    [(ObjectType, geom, height, diameter)] is returned.  Its third
    component is the constant [height]; [height_actual] is only printed. *)
Definition finish (r : option (unit * State))
  : option (string * Geom * R * xfloat) :=
  match r with
  | Some (_, s) =>
      let geom := {| geom_vdata := rev_append (vdata s) [];
                     geom_triangles := indices s |} in
      let diameter := xsub (max_x s) (min_x s) in
      let height_actual := xsub (max_z s) (min_z s) in
      Some (ObjectType, geom, height, diameter)
  | None => None
  end.

Section Builder.
Variable segment_count : Z.
Variables object_width twist_angle twist_groove_depth
          vertical_wave_freq vertical_wave_depth wall_thickness : R.

Definition get_surface_modulation (phi length_ratio : R) : R :=
  let phi := (phi + twist_angle * 0.067 * PI * length_ratio)%R in
  let modulated_radius :=
    (object_width
     + (twist_groove_depth * 0.06) * cos (IZR segment_count * phi)
     + (vertical_wave_depth * 0.15) * cos (vertical_wave_freq * length_ratio))%R in
  modulated_radius.

Definition get_inner_surface_modulation (phi length_ratio : R) : R :=
  let phi := (phi + twist_angle * 0.067 * PI * length_ratio)%R in
  let modulated_radius :=
    ((object_width - wall_thickness)
     + (twist_groove_depth * 0.06) * cos (IZR segment_count * phi)
     + (vertical_wave_depth * 0.15) * cos (vertical_wave_freq * length_ratio))%R in
  modulated_radius.

Open Scope build_scope.

(** One ring of cap vertices: the four loops before the cap triangles
    differ in the radius function, the height and the normal only. *)
Definition cap_ring (modulation : R -> R -> R) (length_ratio z nz : R)
  : Build State (list Z) :=
  for_loop (range segments)
    (fun i ring =>
       let angle := ((2 * PI * IZR i) / IZR segments)%R in
       let r := modulation angle length_ratio in
       v <- add_vertex (r * cos angle) (r * sin angle) z 0 0 nz ;;
       ret (ring ++ [v]))
    [].

Definition top_face (top_outer_vertices top_inner_vertices : list Z)
  : Build State unit :=
  for_loop (range segments)
    (fun i _ =>
       let next_i := (i + 1) mod segments in
       o_i <- getitem top_outer_vertices i ;;
       n_i <- getitem top_inner_vertices i ;;
       n_next <- getitem top_inner_vertices next_i ;;
       o_i' <- getitem top_outer_vertices i ;;
       n_next' <- getitem top_inner_vertices next_i ;;
       o_next <- getitem top_outer_vertices next_i ;;
       extend [(o_i, n_i, n_next); (o_i', n_next', o_next)])
    tt.

Definition bottom_face (bottom_outer_vertices bottom_inner_vertices : list Z)
  : Build State unit :=
  for_loop (range segments)
    (fun i _ =>
       let next_i := (i + 1) mod segments in
       o_i <- getitem bottom_outer_vertices i ;;
       n_next <- getitem bottom_inner_vertices next_i ;;
       n_i <- getitem bottom_inner_vertices i ;;
       o_i' <- getitem bottom_outer_vertices i ;;
       o_next <- getitem bottom_outer_vertices next_i ;;
       n_next' <- getitem bottom_inner_vertices next_i ;;
       extend [(o_i, n_next, n_i); (o_i', o_next, n_next')])
    tt.

(** The four vertex lists of one height band. *)
Definition band_vertices (z1 z2 length_ratio1 length_ratio2 : R)
  : Build State (list Z * list Z * list Z * list Z) :=
  for_loop (range segments)
    (fun i lists =>
       let '(outer_upper_vertices, outer_lower_vertices,
             inner_upper_vertices, inner_lower_vertices) := lists in
       let angle := ((2 * PI * IZR i) / IZR segments)%R in
       let outer_radius_upper := get_surface_modulation angle length_ratio1 in
       let outer_radius_lower := get_surface_modulation angle length_ratio2 in
       let inner_radius_upper := get_inner_surface_modulation angle length_ratio1 in
       let inner_radius_lower := get_inner_surface_modulation angle length_ratio2 in
       let nx := cos angle in
       let ny := sin angle in
       outer_upper_v <- add_vertex (outer_radius_upper * cos angle)
                          (outer_radius_upper * sin angle) z1 nx ny 0 ;;
       outer_lower_v <- add_vertex (outer_radius_lower * cos angle)
                          (outer_radius_lower * sin angle) z2 nx ny 0 ;;
       inner_upper_v <- add_vertex (inner_radius_upper * cos angle)
                          (inner_radius_upper * sin angle) z1 (- nx) (- ny) 0 ;;
       inner_lower_v <- add_vertex (inner_radius_lower * cos angle)
                          (inner_radius_lower * sin angle) z2 (- nx) (- ny) 0 ;;
       ret (outer_upper_vertices ++ [outer_upper_v],
            outer_lower_vertices ++ [outer_lower_v],
            inner_upper_vertices ++ [inner_upper_v],
            inner_lower_vertices ++ [inner_lower_v]))
    ([], [], [], []).

Definition outer_quads (outer_upper_vertices outer_lower_vertices : list Z)
  : Build State unit :=
  for_loop (range segments)
    (fun i _ =>
       let next_i := (i + 1) mod segments in
       a1 <- getitem outer_upper_vertices i ;;
       b1 <- getitem outer_lower_vertices i ;;
       c1 <- getitem outer_lower_vertices next_i ;;
       a2 <- getitem outer_upper_vertices i ;;
       b2 <- getitem outer_lower_vertices next_i ;;
       c2 <- getitem outer_upper_vertices next_i ;;
       extend [(a1, b1, c1); (a2, b2, c2)])
    tt.

Definition inner_quads (inner_upper_vertices inner_lower_vertices : list Z)
  : Build State unit :=
  for_loop (range segments)
    (fun i _ =>
       let next_i := (i + 1) mod segments in
       a1 <- getitem inner_upper_vertices i ;;
       b1 <- getitem inner_upper_vertices next_i ;;
       c1 <- getitem inner_lower_vertices i ;;
       a2 <- getitem inner_lower_vertices i ;;
       b2 <- getitem inner_upper_vertices next_i ;;
       c2 <- getitem inner_lower_vertices next_i ;;
       extend [(a1, b1, c1); (a2, b2, c2)])
    tt.

Definition wall_faces (outer_upper_vertices outer_lower_vertices
    inner_upper_vertices inner_lower_vertices : list Z) : Build State unit :=
  for_loop (range segments)
    (fun i _ =>
       let next_i := (i + 1) mod segments in
       let angle := ((2 * PI * IZR i) / IZR segments)%R in
       let wall_nx := cos angle in
       let wall_ny := sin angle in
       a1 <- getitem outer_upper_vertices i ;;
       b1 <- getitem outer_upper_vertices next_i ;;
       c1 <- getitem inner_upper_vertices i ;;
       a2 <- getitem inner_upper_vertices i ;;
       b2 <- getitem outer_upper_vertices next_i ;;
       c2 <- getitem inner_upper_vertices next_i ;;
       extend [(a1, b1, c1); (a2, b2, c2)] ;;
       a3 <- getitem outer_lower_vertices i ;;
       b3 <- getitem inner_lower_vertices i ;;
       c3 <- getitem outer_lower_vertices next_i ;;
       a4 <- getitem inner_lower_vertices i ;;
       b4 <- getitem inner_lower_vertices next_i ;;
       c4 <- getitem outer_lower_vertices next_i ;;
       extend [(a3, b3, c3); (a4, b4, c4)])
    tt.

Definition side_walls : Build State unit :=
  for_loop (range height_segments)
    (fun h _ =>
       let z1 := (half_height - (height * IZR h) / IZR height_segments)%R in
       let z2 := (half_height - (height * IZR (h + 1)) / IZR height_segments)%R in
       let length_ratio1 := (1 - (IZR h / IZR height_segments))%R in
       let length_ratio2 := (1 - (IZR (h + 1) / IZR height_segments))%R in
       lists <- band_vertices z1 z2 length_ratio1 length_ratio2 ;;
       let '(outer_upper_vertices, outer_lower_vertices,
             inner_upper_vertices, inner_lower_vertices) := lists in
       outer_quads outer_upper_vertices outer_lower_vertices ;;
       inner_quads inner_upper_vertices inner_lower_vertices ;;
       wall_faces outer_upper_vertices outer_lower_vertices
                  inner_upper_vertices inner_lower_vertices)
    tt.

Definition build : Build State unit :=
  top_outer_vertices <- cap_ring get_surface_modulation 1 half_height 1 ;;
  top_inner_vertices <- cap_ring get_inner_surface_modulation 1 half_height 1 ;;
  bottom_outer_vertices <- cap_ring get_surface_modulation 0 (- half_height) (-1) ;;
  bottom_inner_vertices <- cap_ring get_inner_surface_modulation 0 (- half_height) (-1) ;;
  top_face top_outer_vertices top_inner_vertices ;;
  bottom_face bottom_outer_vertices bottom_inner_vertices ;;
  side_walls.

(** Returns [(ObjectType, geom, height, diameter)]; [None] is an
    uncaught [IndexError]. *)
Definition vaseGeometry : option (string * Geom * R * xfloat) :=
  finish (build initial).

End Builder.

End Vase.


(** ** Mesh topology *)

(** The three edges of a triangle, in winding order. *)
Definition triangle_edges (t : Triangle) : list (Z * Z) :=
  let '(p, q, r) := t in [(p, q); (q, r); (r, p)].

(** [has_edge a b t]: the unordered pair [{a, b}] is an edge of [t]. *)
Definition has_edge (a b : Z) (t : Triangle) : bool :=
  let '(p, q, r) := t in
  ((a =? p) && ((b =? q) || (b =? r)))
  || ((a =? q) && ((b =? p) || (b =? r)))
  || ((a =? r) && ((b =? p) || (b =? q))).

(** Number of triangles of [ts] that share the edge [{a, b}]. *)
Definition edge_count (a b : Z) (ts : list Triangle) : nat :=
  length (List.filter (has_edge a b) ts).

(** A closed manifold mesh: every edge of every triangle is shared by
    exactly two triangles. *)
Definition closed_mesh (ts : list Triangle) : Prop :=
  forall t a b, In t ts -> In (a, b) (triangle_edges t) ->
    edge_count a b ts = 2%nat.

(** Edge sharing as a table: [{a, b}] is shared by [expected a b]
    triangles. *)
Definition edge_sharing (expected : Z -> Z -> nat) (ts : list Triangle) : Prop :=
  forall t a b, In t ts -> In (a, b) (triangle_edges t) ->
    edge_count a b ts = expected a b.

(** [v] is one of the three corners of [t]. *)
Definition is_vertex (v : Z) (t : Triangle) : Prop :=
  let '(p, q, r) := t in v = p \/ v = q \/ v = r.

(** A checker for [edge_sharing] on a mesh made of consecutive blocks of
    triangles whose vertex indices lie in consecutive ranges: block [k] has
    [n_k] triangles with all indices in [[lo_k, hi_k)], and
    [lo_(k+1) = hi_k]. *)
Definition in_range (lo hi : Z) (t : Triangle) : bool :=
  let '(p, q, r) := t in
  (lo <=? p) && (p <? hi) && (lo <=? q) && (q <? hi) && (lo <=? r) && (r <? hi).

Definition block_ok (expected : Z -> Z -> nat) (block : list Triangle) : bool :=
  forallb (fun t =>
             forallb (fun e => Nat.eqb (edge_count (fst e) (snd e) block)
                                       (expected (fst e) (snd e)))
                     (triangle_edges t))
          block.

Fixpoint check_blocks (expected : Z -> Z -> nat) (lo : Z)
    (blocks : list (Z * nat)) (ts : list Triangle) : bool :=
  match blocks with
  | [] => match ts with [] => true | _ :: _ => false end
  | (hi, n) :: rest =>
      (lo <=? hi)
      && forallb (in_range lo hi) (firstn n ts)
      && block_ok expected (firstn n ts)
      && check_blocks expected hi rest (skipn n ts)
  end.

Module TableTopology.
Import Table.

(** Vertex rows in the order [tableGeometry] writes them. *)
Definition top_center : Z := 0.
Definition bottom_center : Z := 1.
Definition top_vertex (i : Z) : Z := 2 + 2 * i.
Definition bottom_vertex (i : Z) : Z := 3 + 2 * i.
Definition first_side_row : Z := 2 + 2 * segments.
Definition quad_row (h i : Z) : Z := first_side_row + 4 * (h * segments + i).

(** The triangle list of the table mesh by row number. *)
Definition triangles : list Triangle :=
  map (fun i => (top_center, top_vertex i, top_vertex ((i + 1) mod segments)))
      (range segments)
  ++ map (fun i => (bottom_center, bottom_vertex ((i + 1) mod segments), bottom_vertex i))
         (range segments)
  ++ flat_map (fun h =>
       flat_map (fun i =>
         let v1 := quad_row h i in
         [(v1, v1 + 1, v1 + 2); (v1, v1 + 2, v1 + 3)])
         (range segments))
       (range height_segments).

(** Edges shared by two triangles: the spokes of the two cap fans and
    the diagonal of each side-wall quad. *)
Definition is_spoke (a b : Z) : bool :=
  (Z.min a b =? top_center) || (Z.min a b =? bottom_center).

Definition is_quad_diagonal (a b : Z) : bool :=
  let lo := Z.min a b in
  (first_side_row <=? lo) && ((lo - first_side_row) mod 4 =? 0)
  && (Z.max a b =? lo + 2).

Definition sharing (a b : Z) : nat :=
  if is_spoke a b || is_quad_diagonal a b then 2%nat else 1%nat.

(** Blocks for [check_blocks]: the two caps together, then each quad. *)
Definition blocks : list (Z * nat) :=
  (first_side_row, Z.to_nat (2 * segments))
  :: map (fun q => (first_side_row + 4 * (q + 1), 2%nat))
         (range (segments * height_segments)).

End TableTopology.

Module VaseTopology.
Import Vase.

(** Vertex rows in the order [vaseGeometry] writes them. *)
Definition top_outer (i : Z) : Z := i.
Definition top_inner (i : Z) : Z := segments + i.
Definition bottom_outer (i : Z) : Z := 2 * segments + i.
Definition bottom_inner (i : Z) : Z := 3 * segments + i.
Definition first_side_row : Z := 4 * segments.
Definition band_row (h : Z) : Z := first_side_row + 4 * segments * h.
Definition outer_upper (h i : Z) : Z := band_row h + 4 * i.
Definition outer_lower (h i : Z) : Z := band_row h + 4 * i + 1.
Definition inner_upper (h i : Z) : Z := band_row h + 4 * i + 2.
Definition inner_lower (h i : Z) : Z := band_row h + 4 * i + 3.

Definition next (i : Z) : Z := (i + 1) mod segments.

(** The triangle list of the vase mesh by row number. *)
Definition triangles : list Triangle :=
  flat_map (fun i =>
    [(top_outer i, top_inner i, top_inner (next i));
     (top_outer i, top_inner (next i), top_outer (next i))])
    (range segments)
  ++ flat_map (fun i =>
    [(bottom_outer i, bottom_inner (next i), bottom_inner i);
     (bottom_outer i, bottom_outer (next i), bottom_inner (next i))])
    (range segments)
  ++ flat_map (fun h =>
    flat_map (fun i =>
      [(outer_upper h i, outer_lower h i, outer_lower h (next i));
       (outer_upper h i, outer_lower h (next i), outer_upper h (next i))])
      (range segments)
    ++ flat_map (fun i =>
      [(inner_upper h i, inner_upper h (next i), inner_lower h i);
       (inner_lower h i, inner_upper h (next i), inner_lower h (next i))])
      (range segments)
    ++ flat_map (fun i =>
      [(outer_upper h i, outer_upper h (next i), inner_upper h i);
       (inner_upper h i, outer_upper h (next i), inner_upper h (next i));
       (outer_lower h i, inner_lower h i, outer_lower h (next i));
       (inner_lower h i, inner_lower h (next i), outer_lower h (next i))])
      (range segments))
    (range height_segments).

(** Rim edges of the caps: both ends on the same ring of cap vertices.
    They belong to one triangle; every other edge to two. *)
Definition is_cap_rim (a b : Z) : bool :=
  (a <? first_side_row) && (b <? first_side_row)
  && (a / segments =? b / segments).

Definition sharing (a b : Z) : nat :=
  if is_cap_rim a b then 1%nat else 2%nat.

(** Blocks for [check_blocks]: top cap, bottom cap, then each band. *)
Definition blocks : list (Z * nat) :=
  (2 * segments, Z.to_nat (2 * segments))
  :: (4 * segments, Z.to_nat (2 * segments))
  :: map (fun h => (band_row (h + 1), Z.to_nat (8 * segments)))
         (range height_segments).

End VaseTopology.

(** Triangle lists of the builders' results. *)
Definition table_triangles (r : option (string * Geom)) : option (list Triangle) :=
  option_map (fun p => geom_triangles (snd p)) r.

Definition vase_triangles (r : option (string * Geom * R * xfloat))
  : option (list Triangle) :=
  option_map (fun p => geom_triangles (snd (fst (fst p)))) r.

(** Number of triangles and of vertex rows of the table mesh. *)
Definition table_triangle_count (r : option (string * Geom)) : option Z :=
  option_map (fun ts => Z.of_nat (length ts)) (table_triangles r).

Definition table_vertex_count (r : option (string * Geom)) : option Z :=
  option_map (fun p => Z.of_nat (length (geom_vdata (snd p)))) r.

(** ** Invariants of the builder monad and extents of the vase mesh *)

(** [m] keeps the state invariant [I] whenever it returns. *)
Definition preserves {S A : Type} (I : S -> Prop) (m : Build S A) : Prop :=
  forall s a s', I s -> m s = Some (a, s') -> I s'.

(** [m] establishes [Q] from any state whenever it returns. *)
Definition ensures {S A : Type} (Q : S -> Prop) (m : Build S A) : Prop :=
  forall s a s', m s = Some (a, s') -> Q s'.

(** Extent of a non-empty list of coordinates. *)
Definition extent (l : list R) : R := (MaxRlist l - MinRlist l)%R.

(** What a tracker started from [inf] (resp. [-inf]) holds after the
    coordinates [l] (newest first) went through it. *)
Definition track_min (l : list R) : xfloat :=
  fold_right (fun x m => py_min m x) PosInf l.

Definition track_max (l : list R) : xfloat :=
  fold_right (fun x m => py_max m x) NegInf l.

Module VaseInvariant.
Import Vase.

(** The six trackers agree with the rows written so far. *)
Definition tracked (s : State) : Prop :=
  min_x s = track_min (map vx (vdata s))
  /\ max_x s = track_max (map vx (vdata s))
  /\ min_y s = track_min (map vy (vdata s))
  /\ max_y s = track_max (map vy (vdata s))
  /\ min_z s = track_min (map vz (vdata s))
  /\ max_z s = track_max (map vz (vdata s)).

Definition angle_of (i : Z) : R := ((2 * PI * IZR i) / IZR segments)%R.

Section Shape.
Variable segment_count : Z.
Variables object_width twist_angle twist_groove_depth
          vertical_wave_freq vertical_wave_depth wall_thickness : R.

Definition outer_radius : R -> R -> R :=
  get_surface_modulation segment_count object_width twist_angle
    twist_groove_depth vertical_wave_freq vertical_wave_depth.

Definition inner_radius : R -> R -> R :=
  get_inner_surface_modulation segment_count object_width twist_angle
    twist_groove_depth vertical_wave_freq vertical_wave_depth
    wall_thickness.

(** The shape of every row [vaseGeometry] writes: a point of the outer
    or of the inner shell at one of the [segments] angles, at a height
    between the two caps. *)
Definition emitted (v : Vertex) : Prop :=
  exists (i : Z) (length_ratio : R) (inner : bool),
    0 <= i < segments
    /\ (let r := (if inner then inner_radius else outer_radius)
                   (angle_of i) length_ratio in
        vx v = (r * cos (angle_of i))%R
        /\ vy v = (r * sin (angle_of i))%R)
    /\ (- half_height <= vz v <= half_height)%R.

(** The row the first loop writes for angle [i]. *)
Definition top_outer_row (i : Z) : Vertex :=
  let r := outer_radius (angle_of i) 1 in
  mkVertex (r * cos (angle_of i)) (r * sin (angle_of i)) half_height 0 0 1.

(** The row the third loop writes for angle [i]. *)
Definition bottom_outer_row (i : Z) : Vertex :=
  let r := outer_radius (angle_of i) 0 in
  mkVertex (r * cos (angle_of i)) (r * sin (angle_of i)) (- half_height)
           0 0 (-1).
End Shape.

End VaseInvariant.

(** * [src/core/app.py] *)

(** ** Python values, exceptions and ordered dictionaries *)

(** The numbers a parameter map holds. *)
Inductive pyval : Type :=
| PInt (z : Z)
| PFloat (r : R).

Inductive exn : Type :=
| KeyError (key : string)
| IndexError
| AttributeError
| ValueError (message : string).

Inductive Result (A : Type) : Type :=
| Ok (a : A)
| Raise (e : exn).
Arguments Ok {A} a.
Arguments Raise {A} e.

Definition rbind {A B : Type} (r : Result A) (k : A -> Result B) : Result B :=
  match r with
  | Ok a => k a
  | Raise e => Raise e
  end.

Declare Scope result_scope.
Delimit Scope result_scope with result.
Notation "x <- m ;; k" := (rbind m (fun x => k))
  (at level 100, m at next level, right associativity) : result_scope.

#[global] Instance R_eq_dec : EqDecision R := Req_dec_T.
#[global] Instance pyval_eq_dec : EqDecision pyval.
Proof. solve_decision. Defined.
#[global] Instance xfloat_eq_dec : EqDecision xfloat.
Proof. solve_decision. Defined.

(** A number used in float arithmetic. *)
Definition to_float (v : pyval) : R :=
  match v with
  | PInt z => IZR z
  | PFloat r => r
  end.

(** [int(v)]: a float is truncated toward zero. *)
Definition py_int (v : pyval) : Z :=
  match v with
  | PInt z => z
  | PFloat r => if Rle_dec 0 r then Int_part r else - Int_part (- r)
  end.

(** Nearest integer, ties to even. *)
Definition round_half_even (r : R) : Z :=
  let f := Int_part r in
  let d := frac_part r in
  if Rlt_dec d (1 / 2) then f
  else if Rlt_dec (1 / 2) d then f + 1
  else if Z.even f then f else f + 1.

(** [round(v, ndigits)]: an int is returned unchanged (for [ndigits >= 0]),
    a float is rounded to [ndigits] decimal places. *)
Definition py_round (v : pyval) (ndigits : nat) : pyval :=
  match v with
  | PInt z => PInt z
  | PFloat r =>
      PFloat (IZR (round_half_even (r * 10 ^ ndigits)) / 10 ^ ndigits)%R
  end.

(** A [dict] in insertion order. *)
Section Dict.
Context {K V : Type} `{EqDecision K}.

Definition dict : Type := list (K * V).

(** [d.get(k)] *)
Fixpoint dict_get (k : K) (d : dict) : option V :=
  match d with
  | [] => None
  | (k', v) :: d' => if decide (k = k') then Some v else dict_get k d'
  end.

(** [d[k] = v]: an existing key keeps its place, a new key goes last. *)
Fixpoint dict_set (k : K) (v : V) (d : dict) : dict :=
  match d with
  | [] => [(k, v)]
  | (k', v') :: d' =>
      if decide (k = k') then (k, v) :: d' else (k', v') :: dict_set k v d'
  end.

(** [del d[k]] *)
Fixpoint dict_del (k : K) (d : dict) : dict :=
  match d with
  | [] => []
  | (k', v') :: d' =>
      if decide (k = k') then d' else (k', v') :: dict_del k d'
  end.

(** [min(d.keys(), key=lambda k: f(d[k]))]: the scan keeps the first key
    and replaces it only by a strictly smaller one.  [None] is the
    [ValueError] of [min] on an empty dict. *)
Fixpoint min_scan (f : V -> R) (best : K * V) (d : dict) : K :=
  match d with
  | [] => fst best
  | e :: d' =>
      if Rlt_dec (f (snd e)) (f (snd best))
      then min_scan f e d' else min_scan f best d'
  end.

Definition min_key (f : V -> R) (d : dict) : option K :=
  match d with
  | [] => None
  | e :: d' => Some (min_scan f e d')
  end.

(** Keys are unique. *)
Definition dict_wf (d : dict) : Prop := List.NoDup (map fst d).
End Dict.
Arguments dict K V : clear implicits.

(** ** Constants *)

Definition PARAMETER_UPDATE_DEBOUNCE : R := 100.
Definition GEOMETRY_CACHE_SIZE : Z := 128.
Definition DISPLAY_CACHE_SIZE : Z := 64.

(** ** Data structures *)

Record GeometryResult : Type := mkGeometryResult
  { object_type : string;
    geometry : Geom;
    height : R;
    diameter : option xfloat;
    metadata : option unit }.

Record ObjectCreationRequest : Type := mkRequest
  { params : gmap string pyval;
    request_object_type : string;
    position : R * R * R;
    scale : R }.

Record CachedGeometry : Type := mkCachedGeometry
  { geometry_result : GeometryResult;
    timestamp : R;
    access_count : Z }.

(** What a builder returns: a tuple of two, three or four components, or
    anything else. *)
Inductive pyresult : Type :=
| Tuple2 (actual_type : string) (geom : Geom)
| Tuple3 (actual_type : string) (geom : Geom) (height : R)
| Tuple4 (actual_type : string) (geom : Geom) (height : R) (diameter : xfloat)
| NotTuple (geom : Geom).

(** ** Geometry providers *)

(** The normalized cache key: [str(sorted(rounded_params.items()))] is
    taken as the sorted list of items itself. *)
Definition CacheKey : Type := list (string * pyval).

(** [params[k]] *)
Definition getparam (params : gmap string pyval) (k : string) : Result pyval :=
  match params !! k with
  | Some v => Ok v
  | None => Raise (KeyError k)
  end.

Fixpoint insert_item (x : string * pyval) (l : list (string * pyval))
  : list (string * pyval) :=
  match l with
  | [] => [x]
  | y :: l' => if String.leb (fst x) (fst y) then x :: y :: l'
               else y :: insert_item x l'
  end.

(** [sorted(items)] for items with distinct names. *)
Definition sorted_items (l : list (string * pyval)) : list (string * pyval) :=
  fold_right insert_item [] l.

(* String literals; list and integer notations keep precedence. *)
Open Scope string_scope.
Open Scope list_scope.
Open Scope Z_scope.

(** [_create_cache_key], the same in both provider classes. *)
Definition _create_cache_key (params : gmap string pyval) : Result CacheKey :=
  (segment_count <- getparam params "Segment Count" ;;
   object_width <- getparam params "Object Width" ;;
   twist_angle <- getparam params "Twist Angle" ;;
   twist_groove_depth <- getparam params "Twist Groove Depth" ;;
   vertical_wave_freq <- getparam params "Vertical Wave Frequency" ;;
   vertical_wave_depth <- getparam params "Vertical Wave Depth" ;;
   let rounded_params :=
     [ ("Segment Count", PInt (py_int segment_count));
       ("Object Width", py_round object_width 2);
       ("Twist Angle", py_round twist_angle 2);
       ("Twist Groove Depth", py_round twist_groove_depth 3);
       ("Vertical Wave Frequency", py_round vertical_wave_freq 2);
       ("Vertical Wave Depth", py_round vertical_wave_depth 3) ] in
   Ok (sorted_items rounded_params))%result.

(** [_extract_result], the same in both provider classes. *)
Definition _extract_result (result : pyresult) (object_type : string)
  : GeometryResult :=
  match result with
  | Tuple2 actual_type geom =>
      mkGeometryResult actual_type geom 2 None None
  | Tuple3 actual_type geom height =>
      mkGeometryResult actual_type geom height None None
  | Tuple4 actual_type geom height diameter =>
      mkGeometryResult actual_type geom height (Some diameter) None
  | NotTuple geom =>
      mkGeometryResult object_type geom 2 None None
  end.

(** The state of a provider object. *)
Record Provider : Type := mkProvider
  { _geometry_cache : dict CacheKey CachedGeometry;
    _cache_hits : Z;
    _cache_misses : Z }.

(** [__init__] *)
Definition Provider_init : Provider :=
  {| _geometry_cache := []; _cache_hits := 0; _cache_misses := 0 |}.

(** [_cache_geometry], the same in both provider classes; [now] is the
    reading of [time.time()]. *)
Definition _cache_geometry (now : R) (key : CacheKey)
    (geometry_result : GeometryResult) (self : Provider)
  : Result unit * Provider :=
  let evicted :=
    if Z.of_nat (length (_geometry_cache self)) >=? GEOMETRY_CACHE_SIZE
    then match min_key timestamp (_geometry_cache self) with
         | Some oldest_key => Ok (dict_del oldest_key (_geometry_cache self))
         | None => Raise (ValueError "min() arg is an empty sequence")
         end
    else Ok (_geometry_cache self) in
  match evicted with
  | Raise e => (Raise e, self)
  | Ok cache =>
      (Ok tt,
       {| _geometry_cache :=
            dict_set key (mkCachedGeometry geometry_result now 0) cache;
          _cache_hits := _cache_hits self;
          _cache_misses := _cache_misses self |})
  end.

(** The body of a provider class.  The two classes differ in the builder
    they call and in the fall-back type name only. *)
Section ProviderClass.
(** The builder called with the six keyword arguments. *)
Variable builder : Z -> R -> R -> R -> R -> R -> Result pyresult.
Variable fallback_type : string.

Definition call_builder (params : gmap string pyval) : Result pyresult :=
  (segment_count <- getparam params "Segment Count" ;;
   object_width <- getparam params "Object Width" ;;
   twist_angle <- getparam params "Twist Angle" ;;
   twist_groove_depth <- getparam params "Twist Groove Depth" ;;
   vertical_wave_freq <- getparam params "Vertical Wave Frequency" ;;
   vertical_wave_depth <- getparam params "Vertical Wave Depth" ;;
   builder (py_int segment_count) (to_float object_width)
     (to_float twist_angle) (to_float twist_groove_depth)
     (to_float vertical_wave_freq) (to_float vertical_wave_depth))%result.

(** [create_geometry]; [now] is the reading of the one [time.time()]
    call on the path taken. *)
Definition create_geometry (now : R) (params : gmap string pyval)
    (self : Provider) : Result GeometryResult * Provider :=
  match _create_cache_key params with
  | Raise e => (Raise e, self)
  | Ok cache_key =>
      match dict_get cache_key (_geometry_cache self) with
      | Some cached =>
          (* the entry object is updated in place *)
          let cached' :=
            {| geometry_result := geometry_result cached;
               timestamp := now;
               access_count := access_count cached + 1 |} in
          (Ok (geometry_result cached),
           {| _geometry_cache :=
                dict_set cache_key cached' (_geometry_cache self);
              _cache_hits := _cache_hits self + 1;
              _cache_misses := _cache_misses self |})
      | None =>
          let self1 :=
            {| _geometry_cache := _geometry_cache self;
               _cache_hits := _cache_hits self;
               _cache_misses := _cache_misses self + 1 |} in
          match call_builder params with
          | Raise e => (Raise e, self1)
          | Ok result =>
              let geometry_result := _extract_result result fallback_type in
              match _cache_geometry now cache_key geometry_result self1 with
              | (Raise e, self2) => (Raise e, self2)
              | (Ok _, self2) => (Ok geometry_result, self2)
              end
          end
      end
  end.
End ProviderClass.

(** [self._vaseGeometry(...)]: [wall_thickness] is not passed and takes its
    default. *)
Definition vase_builder (segment_count : Z) (object_width twist_angle
    twist_groove_depth vertical_wave_freq vertical_wave_depth : R)
  : Result pyresult :=
  match Vase.vaseGeometry segment_count object_width twist_angle
          twist_groove_depth vertical_wave_freq vertical_wave_depth
          Vase.wall_thickness_default with
  | Some (actual_type, geom, height, diameter) =>
      Ok (Tuple4 actual_type geom height diameter)
  | None => Raise IndexError
  end.

(** [self._tableGeometry(...)] *)
Definition table_builder (segment_count : Z) (object_width twist_angle
    twist_groove_depth vertical_wave_freq vertical_wave_depth : R)
  : Result pyresult :=
  match Table.tableGeometry segment_count object_width twist_angle
          twist_groove_depth vertical_wave_freq vertical_wave_depth with
  | Some (actual_type, geom) => Ok (Tuple2 actual_type geom)
  | None => Raise IndexError
  end.

Module OptimizedVaseGeometryProvider.
Definition create_geometry := create_geometry vase_builder "Vace".
End OptimizedVaseGeometryProvider.

Module OptimizedTableGeometryProvider.
Definition create_geometry := create_geometry table_builder "Table".
End OptimizedTableGeometryProvider.

(** The [GeometryResult] a cache miss of the vase provider builds: the
    builder's tuple passed through [_extract_result]. *)
Definition built_vase_result (segment_count : Z) (object_width twist_angle
    twist_groove_depth vertical_wave_freq vertical_wave_depth : R)
  : Result GeometryResult :=
  (result <- vase_builder segment_count object_width twist_angle
               twist_groove_depth vertical_wave_freq vertical_wave_depth ;;
   Ok (_extract_result result "Vace"))%result.

(** A sequence of [create_geometry] calls on one provider, each with its
    clock reading and its parameter map. *)
Definition run_calls (builder : Z -> R -> R -> R -> R -> R -> Result pyresult)
    (fallback_type : string) (calls : list (R * gmap string pyval))
    (self : Provider) : Provider :=
  fold_left
    (fun s call => snd (create_geometry builder fallback_type
                          (fst call) (snd call) s))
    calls self.

(** [vaseDefaults()] and [tableDefaults()] of the two [config.py]. *)
Definition vaseDefaults : gmap string pyval :=
  <["Segment Count" := PInt 5]>
  (<["Object Width" := PFloat 2.5]>
  (<["Twist Angle" := PFloat 20]>
  (<["Twist Groove Depth" := PFloat 1]>
  (<["Vertical Wave Frequency" := PFloat 3]>
  (<["Vertical Wave Depth" := PFloat 1]> ∅))))).

Definition tableDefaults : gmap string pyval :=
  <["Segment Count" := PInt 9]>
  (<["Object Width" := PFloat 1.2]>
  (<["Twist Angle" := PFloat 10]>
  (<["Twist Groove Depth" := PFloat 1]>
  (<["Vertical Wave Frequency" := PFloat 4]>
  (<["Vertical Wave Depth" := PFloat 1]> ∅))))).

(** The names [_create_cache_key] and [create_geometry] read. *)
Definition parameter_names : list string :=
  [ "Segment Count"; "Object Width"; "Twist Angle"; "Twist Groove Depth";
    "Vertical Wave Frequency"; "Vertical Wave Depth" ].

(** ** Scene objects, at the interface the service uses *)

Record GeomNode : Type := mkGeomNode
  { node_name : string; geoms : list Geom }.

Record NodePath : Type := mkNodePath
  { node : GeomNode; np_pos : R * R * R; np_scale : R }.

(** [render] is the list of node paths attached to the scene root. *)
Record ObjectFactory : Type := mkObjectFactory
  { render : option (list NodePath);
    _node_pool : list GeomNode;
    _pool_size : Z }.

Definition ObjectFactory_init : ObjectFactory :=
  {| render := None; _node_pool := []; _pool_size := 32 |}.

Definition create_scene_object (request : ObjectCreationRequest)
    (geometry_result : GeometryResult) (self : ObjectFactory)
  : Result NodePath * ObjectFactory :=
  (* [self._node_pool.pop()] takes the last node of the pool *)
  let '(cleared, pool) :=
    match rev (_node_pool self) with
    | last :: before =>
        ({| node_name := node_name last; geoms := [] |}, rev before)
    | [] =>
        ({| node_name := ("object_" ++ request_object_type request)%string;
            geoms := [] |}, _node_pool self)
    end in
  let node :=
    {| node_name := node_name cleared;
       geoms := (geoms cleared ++ [geometry geometry_result])%list |} in
  match render self with
  | None =>
      (Raise AttributeError,
       {| render := None; _node_pool := pool; _pool_size := _pool_size self |})
  | Some children =>
      let object_np :=
        {| node := node; np_pos := position request;
           np_scale := scale request |} in
      (Ok object_np,
       {| render := Some (children ++ [object_np])%list;
          _node_pool := pool; _pool_size := _pool_size self |})
  end.

Definition recycle_node (n : GeomNode) (self : ObjectFactory) : ObjectFactory :=
  if Z.of_nat (length (_node_pool self)) <? _pool_size self
  then {| render := render self; _node_pool := (_node_pool self ++ [n])%list;
          _pool_size := _pool_size self |}
  else self.

(** ** The display manager *)

(** [display_data['ui_metrics']] *)
Inductive UIMetricsData : Type :=
| DiameterHeight (diameter : xfloat) (height : R)
| Bounds (width height depth : R).

Record DisplayData : Type := mkDisplayData
  { dd_ui_metrics : option UIMetricsData;
    dd_camera_distance : option R;
    dd_timestamp : option R }.

(** The collaborators are seen through the calls they receive. *)
Inductive UICall : Type :=
| show_bounding_box_diameter (diameter : xfloat) (height : R)
| show_bounding_box_bounds (width height depth : R).

Inductive CameraCall : Type :=
| set_optimal_view (object_height : R) (object_diameter : option xfloat).

(** [f"{object_type}_{height}_{diameter}"], taken as the triple. *)
Definition DisplayKey : Type := (string * R * option xfloat)%type.

Record DisplayManager : Type := mkDisplayManager
  { ui_metrics : option (list UICall);
    camera_controller : option (list CameraCall);
    _last_update_time : R;
    _pending_updates : Z;
    _display_cache : dict DisplayKey DisplayData }.

Definition DisplayManager_init (ui : option (list UICall))
    (camera : option (list CameraCall)) : DisplayManager :=
  {| ui_metrics := ui; camera_controller := camera;
     _last_update_time := 0; _pending_updates := 0; _display_cache := [] |}.

(** Truth value of a float: zero is false. *)
Definition float_truthy (r : R) : bool := if decide (r = 0%R) then false else true.

Definition xfloat_truthy (x : xfloat) : bool :=
  match x with
  | Fin r => float_truthy r
  | _ => true
  end.

Section Display.
(** [object_np.getBounds()]: [None] when the bounds are empty, else the
    minimum and maximum points. *)
Variable getBounds : NodePath -> option ((R * R * R) * (R * R * R)).

Definition _create_display_cache_key (geometry_result : GeometryResult)
  : DisplayKey :=
  (object_type geometry_result, height geometry_result,
   diameter geometry_result).

Definition _calculate_display_data (object_np : NodePath)
    (geometry_result : GeometryResult) (self : DisplayManager) : DisplayData :=
  let ui :=
    match ui_metrics self with
    | Some _ =>
        match diameter geometry_result with
        | Some d => Some (DiameterHeight d (height geometry_result))
        | None =>
            match getBounds object_np with
            | Some ((min_x, min_y, min_z), (max_x, max_y, max_z)) =>
                Some (Bounds (max_x - min_x) (max_z - min_z) (max_y - min_y))%R
            | None => None
            end
        end
    | None => None
    end in
  let camera_distance :=
    match camera_controller self with
    | Some _ => Some (height geometry_result)
    | None => None
    end in
  {| dd_ui_metrics := ui; dd_camera_distance := camera_distance;
     dd_timestamp := None |}.

(** [data.get('timestamp', 0)] *)
Definition timestamp_or_0 (data : DisplayData) : R :=
  match dd_timestamp data with
  | Some t => t
  | None => 0
  end.

(** [_cache_display_data]; returns the stamped data and the new cache. *)
Definition _cache_display_data (now : R) (key : DisplayKey)
    (data : DisplayData) (cache : dict DisplayKey DisplayData)
  : Result (DisplayData * dict DisplayKey DisplayData) :=
  (kept <-
     (if Z.of_nat (length cache) >=? DISPLAY_CACHE_SIZE
      then match min_key timestamp_or_0 cache with
           | Some oldest_key => Ok (dict_del oldest_key cache)
           | None => Raise (ValueError "min() arg is an empty sequence")
           end
      else Ok cache) ;;
   let stamped :=
     {| dd_ui_metrics := dd_ui_metrics data;
        dd_camera_distance := dd_camera_distance data;
        dd_timestamp := Some now |} in
   Ok (stamped, dict_set key stamped kept))%result.

Definition _apply_display_data (display_data : DisplayData)
    (self : DisplayManager) : DisplayManager :=
  let ui :=
    match ui_metrics self, dd_ui_metrics display_data with
    | Some calls, Some (DiameterHeight d h) =>
        Some (calls ++ [show_bounding_box_diameter d h])%list
    | Some calls, Some (Bounds w h d) =>
        Some (calls ++ [show_bounding_box_bounds w h d])%list
    | ui, _ => ui
    end in
  let camera :=
    match camera_controller self, dd_camera_distance display_data with
    | Some calls, Some distance =>
        if float_truthy distance
        then match dd_ui_metrics display_data with
             | Some (DiameterHeight d _) =>
                 if xfloat_truthy d
                 then Some (calls ++ [set_optimal_view distance (Some d)])%list
                 else Some (calls ++ [set_optimal_view distance None])%list
             | _ => Some (calls ++ [set_optimal_view distance None])%list
             end
        else Some calls
    | camera, _ => camera
    end in
  {| ui_metrics := ui; camera_controller := camera;
     _last_update_time := _last_update_time self;
     _pending_updates := _pending_updates self;
     _display_cache := _display_cache self |}.

(** [update_display]; [current_time] is the reading at its first line,
    [cache_time] the reading inside [_cache_display_data]. *)
Definition update_display (current_time cache_time : R)
    (object_np : NodePath) (geometry_result : GeometryResult)
    (self : DisplayManager) : Result unit * DisplayManager :=
  if Rlt_dec (current_time - _last_update_time self)
             (PARAMETER_UPDATE_DEBOUNCE / 1000)
  then
    (Ok tt,
     {| ui_metrics := ui_metrics self;
        camera_controller := camera_controller self;
        _last_update_time := _last_update_time self;
        _pending_updates := _pending_updates self + 1;
        _display_cache := _display_cache self |})
  else
    let self1 :=
      {| ui_metrics := ui_metrics self;
         camera_controller := camera_controller self;
         _last_update_time := _last_update_time self;
         _pending_updates :=
           if _pending_updates self >? 0 then 0 else _pending_updates self;
         _display_cache := _display_cache self |} in
    let cache_key := _create_display_cache_key geometry_result in
    let applied :=
      match dict_get cache_key (_display_cache self1) with
      | Some cached_data => Ok (_apply_display_data cached_data self1)
      | None =>
          let display_data :=
            _calculate_display_data object_np geometry_result self1 in
          match _cache_display_data cache_time cache_key display_data
                  (_display_cache self1) with
          | Raise e => Raise e
          | Ok (stamped, cache) =>
              Ok (_apply_display_data stamped
                    {| ui_metrics := ui_metrics self1;
                       camera_controller := camera_controller self1;
                       _last_update_time := _last_update_time self1;
                       _pending_updates := _pending_updates self1;
                       _display_cache := cache |})
          end
      end in
    match applied with
    | Raise e => (Raise e, self1)
    | Ok self2 =>
        (Ok tt,
         {| ui_metrics := ui_metrics self2;
            camera_controller := camera_controller self2;
            _last_update_time := current_time;
            _pending_updates := _pending_updates self2;
            _display_cache := _display_cache self2 |})
    end.

(** ** The object creation service *)

Inductive ProviderClass : Type :=
| VaseProvider
| TableProvider.

(** [self.geometry_providers.get(object_type)] for the dict built in
    [__init__]. *)
Definition geometry_providers_get (object_type : string)
  : option ProviderClass :=
  if String.eqb object_type "Vace" then Some VaseProvider
  else if String.eqb object_type "Table" then Some TableProvider
  else None.

Record Service : Type := mkService
  { scene_factory : ObjectFactory;
    display_manager : DisplayManager;
    vase_provider : Provider;
    table_provider : Provider;
    _creation_times : list R;
    _total_creations : Z }.

(** The readings of [time.time()] along one [create_object] call. *)
Record Readings : Type := mkReadings
  { start_time : R;
    provider_time : R;
    display_time : R;
    display_cache_time : R;
    end_time : R }.

Definition set_provider (c : ProviderClass) (p : Provider) (self : Service)
  : Service :=
  match c with
  | VaseProvider =>
      {| scene_factory := scene_factory self;
         display_manager := display_manager self;
         vase_provider := p; table_provider := table_provider self;
         _creation_times := _creation_times self;
         _total_creations := _total_creations self |}
  | TableProvider =>
      {| scene_factory := scene_factory self;
         display_manager := display_manager self;
         vase_provider := vase_provider self; table_provider := p;
         _creation_times := _creation_times self;
         _total_creations := _total_creations self |}
  end.

Definition provider_create_geometry (c : ProviderClass) (now : R)
    (params : gmap string pyval) (self : Service)
  : Result GeometryResult * Service :=
  match c with
  | VaseProvider =>
      let '(r, p) := OptimizedVaseGeometryProvider.create_geometry now params
                       (vase_provider self) in
      (r, set_provider c p self)
  | TableProvider =>
      let '(r, p) := OptimizedTableGeometryProvider.create_geometry now params
                       (table_provider self) in
      (r, set_provider c p self)
  end.

Definition unsupported (object_type : string) : exn :=
  ValueError ("Unsupported object type: " ++ object_type)%string.

Definition create_object (t : Readings) (request : ObjectCreationRequest)
    (self : Service) : Result NodePath * Service :=
  match geometry_providers_get (request_object_type request) with
  | None => (Raise (unsupported (request_object_type request)), self)
  | Some provider =>
      match provider_create_geometry provider (provider_time t)
              (params request) self with
      | (Raise e, self1) => (Raise e, self1)
      | (Ok geometry_result, self1) =>
          match create_scene_object request geometry_result
                  (scene_factory self1) with
          | (Raise e, factory) =>
              (Raise e,
               {| scene_factory := factory;
                  display_manager := display_manager self1;
                  vase_provider := vase_provider self1;
                  table_provider := table_provider self1;
                  _creation_times := _creation_times self1;
                  _total_creations := _total_creations self1 |})
          | (Ok scene_object, factory) =>
              let '(shown, manager) :=
                if decide (position request = (0, 0, 0)%R)
                then update_display (display_time t) (display_cache_time t)
                       scene_object geometry_result (display_manager self1)
                else (Ok tt, display_manager self1) in
              match shown with
              | Raise e =>
                  (Raise e,
                   {| scene_factory := factory;
                      display_manager := manager;
                      vase_provider := vase_provider self1;
                      table_provider := table_provider self1;
                      _creation_times := _creation_times self1;
                      _total_creations := _total_creations self1 |})
              | Ok _ =>
                  let creation_time := (end_time t - start_time t)%R in
                  let times := (_creation_times self1 ++ [creation_time])%list in
                  (Ok scene_object,
                   {| scene_factory := factory;
                      display_manager := manager;
                      vase_provider := vase_provider self1;
                      table_provider := table_provider self1;
                      _creation_times :=
                        if Z.of_nat (length times) >? 100
                        then tl times else times;
                      _total_creations := _total_creations self1 + 1 |})
              end
          end
      end
  end.
End Display.

(** ** Sample parameter maps *)

(** The vase defaults with the segment count replaced by [i], and the
    cache key of that map. *)
Definition segment_params (i : Z) : gmap string pyval :=
  <["Segment Count" := PInt i]> vaseDefaults.

Definition segment_key (i : Z) : CacheKey :=
  [ ("Object Width", py_round (PFloat 2.5) 2);
    ("Segment Count", PInt i);
    ("Twist Angle", py_round (PFloat 20) 2);
    ("Twist Groove Depth", py_round (PFloat 1) 3);
    ("Vertical Wave Depth", py_round (PFloat 1) 3);
    ("Vertical Wave Frequency", py_round (PFloat 3) 2) ].

(** One call per segment count below [n], at clock reading [i]. *)
Definition segment_calls (n : Z) : list (R * gmap string pyval) :=
  map (fun i => (IZR i, segment_params i)) (range n).

(** ** Well-formed triangles *)

(** A triangle of a mesh with [n] vertex rows: three distinct rows that
    exist. *)
Definition valid_triangle (n : Z) (t : Triangle) : bool :=
  let '(p, q, r) := t in
  (0 <=? p) && (p <? n) && (0 <=? q) && (q <? n) && (0 <=? r) && (r <? n)
  && negb (p =? q) && negb (q =? r) && negb (p =? r).

Definition vase_vertex_count (r : option (string * Geom * R * xfloat))
  : option Z :=
  option_map (fun p => Z.of_nat (length (geom_vdata (snd (fst (fst p)))))) r.

(** ** More of the providers *)



(** The first of the six names, in the order the code reads them, that a
    parameter map lacks. *)
Definition first_missing (params : gmap string pyval) : option string :=
  find (fun name => match params !! name with
                    | Some _ => false
                    | None => true
                    end)
       parameter_names.


(** A cache of [n] entries, one per segment count below [n], stamped
    with its segment count. *)
Definition sample_result : GeometryResult :=
  mkGeometryResult "Vase" (mkGeom [] []) 7 (Some (Fin 5)) None.

Definition sample_cache (n : Z) : dict CacheKey CachedGeometry :=
  map (fun i => (segment_key i, mkCachedGeometry sample_result (IZR i) 0))
      (range n).

Definition sample_provider (n : Z) : Provider :=
  {| _geometry_cache := sample_cache n; _cache_hits := 0;
     _cache_misses := n |}.

(** The [GeometryResult] a cache miss of the table provider builds. *)
Definition built_table_result (segment_count : Z) (object_width twist_angle
    twist_groove_depth vertical_wave_freq vertical_wave_depth : R)
  : Result GeometryResult :=
  (result <- table_builder segment_count object_width twist_angle
               twist_groove_depth vertical_wave_freq vertical_wave_depth ;;
   Ok (_extract_result result "Table"))%result.

(** ** More of the service *)

(** [MainApp._setup_interactive_systems]: the camera controller is given
    to the display manager after the first object has been built. *)
Definition attach_camera (camera : list CameraCall) (self : DisplayManager)
  : DisplayManager :=
  {| ui_metrics := ui_metrics self;
     camera_controller := Some camera;
     _last_update_time := _last_update_time self;
     _pending_updates := _pending_updates self;
     _display_cache := _display_cache self |}.

(** [OptimizedObjectCreationService.__init__] *)
Definition Service_init (factory : ObjectFactory) (manager : DisplayManager)
  : Service :=
  {| scene_factory := factory; display_manager := manager;
     vase_provider := Provider_init; table_provider := Provider_init;
     _creation_times := []; _total_creations := 0 |}.

(** [get_supported_object_types()]: the keys of [geometry_providers]. *)
Definition get_supported_object_types : list string := ["Vace"; "Table"].

(** [get_performance_stats()]; [None] is the empty dict. *)
Record PerformanceStats : Type := mkPerformanceStats
  { total_creations : Z;
    avg_creation_time : R;
    min_creation_time : R;
    max_creation_time : R;
    recent_creations : Z }.

(** [sum(l)] *)
Definition py_sum (l : list R) : R := fold_left Rplus l 0%R.

Definition get_performance_stats (self : Service) : option PerformanceStats :=
  match _creation_times self with
  | [] => None
  | _ :: _ =>
      Some {| total_creations := _total_creations self;
              avg_creation_time :=
                (py_sum (_creation_times self)
                 / INR (length (_creation_times self)))%R;
              min_creation_time := MinRlist (_creation_times self);
              max_creation_time := MaxRlist (_creation_times self);
              recent_creations := Z.of_nat (length (_creation_times self)) |}
  end.

(** ** The node pool of [ObjectFactory] *)

(** [MainApp._init_optimized_services]: [scene_factory.render = self.render]. *)
Definition attach_render (children : list NodePath) (self : ObjectFactory)
  : ObjectFactory :=
  {| render := Some children; _node_pool := _node_pool self;
     _pool_size := _pool_size self |}.

(** The two operations on a factory, and a run of them. *)
Inductive FactoryOp : Type :=
| Recycle (n : GeomNode)
| Create (request : ObjectCreationRequest) (geometry_result : GeometryResult).

Definition factory_step (self : ObjectFactory) (op : FactoryOp)
  : ObjectFactory :=
  match op with
  | Recycle n => recycle_node n self
  | Create request geometry_result =>
      snd (create_scene_object request geometry_result self)
  end.

Definition run_factory (ops : list FactoryOp) (self : ObjectFactory)
  : ObjectFactory :=
  fold_left factory_step ops self.

(** ** Parameter changes and the favourites row of [MainApp] *)

Record MainAppState : Type := mkMainAppState
  { current_params : gmap string pyval;
    _pending_parameter_updates : gmap string pyval;
    _last_parameter_update_time : R }.

(** [_init_application_state] *)
Definition MainApp_init : MainAppState :=
  {| current_params := vaseDefaults;
     _pending_parameter_updates := ∅;
     _last_parameter_update_time := 0 |}.

(** [_on_parameters_change]; the second component is the parameter map
    [build_object] is called with, if it is called.  [d.update(p)] is the
    union in which [p] wins. *)
Definition _on_parameters_change (current_time : R)
    (params : gmap string pyval) (self : MainAppState)
  : MainAppState * option (gmap string pyval) :=
  let pending := params ∪ _pending_parameter_updates self in
  if Rlt_dec (current_time - _last_parameter_update_time self)
             (PARAMETER_UPDATE_DEBOUNCE / 1000)
  then
    ({| current_params := current_params self;
        _pending_parameter_updates := pending;
        _last_parameter_update_time := _last_parameter_update_time self |},
     None)
  else
    let current := pending ∪ current_params self in
    ({| current_params := current;
        _pending_parameter_updates := ∅;
        _last_parameter_update_time := current_time |},
     Some current).

Definition run_changes (changes : list (R * gmap string pyval))
    (self : MainAppState) : MainAppState :=
  fold_left (fun s change => fst (_on_parameters_change (fst change)
                                    (snd change) s))
            changes self.

(** All the changes applied in order, with no debouncing. *)
Definition apply_all (changes : list (R * gmap string pyval))
    (params : gmap string pyval) : gmap string pyval :=
  fold_left (fun acc change => snd change ∪ acc) changes params.

(** [_display_favorites_grid]: the position of favourite [i] of
    [total_favorites]. *)
Definition favorites_spacing : R := 4.

Definition favorites_start_x (total_favorites : Z) : R :=
  (- (IZR total_favorites - 1) * favorites_spacing / 2)%R.

Definition favorite_position (total_favorites i : Z) : R * R * R :=
  ((favorites_start_x total_favorites + IZR i * favorites_spacing)%R, 0%R, 0%R).

(** [_focus_camera_on_current_favorite]: the camera target. *)
Definition favorite_target (total_favorites current_favorite_index : Z)
  : R * R * R :=
  ((favorites_start_x total_favorites
    + IZR current_favorite_index * favorites_spacing)%R, 0%R, 0%R).

(** [ParametricControls._favorites_prev] and [_favorites_next]; with no
    favourites the index is left alone. *)
Definition _favorites_prev (total_favorites current_favorite_index : Z) : Z :=
  if total_favorites =? 0 then current_favorite_index
  else (current_favorite_index - 1) mod total_favorites.

Definition _favorites_next (total_favorites current_favorite_index : Z) : Z :=
  if total_favorites =? 0 then current_favorite_index
  else (current_favorite_index + 1) mod total_favorites.

(** ** The orbit camera ([camera/controller.py]) *)

(** [math.radians] *)
Definition radians (degrees : R) : R := (degrees * PI / 180)%R.

Module OrbitCamera.

Definition _min_pitch : R := radians (-85).
Definition _max_pitch : R := radians 85.
Definition _min_dist : R := 5.
Definition _max_dist : R := 80.
Definition _yaw_sensitivity : R := 1.5.
Definition _pitch_sensitivity : R := 1.2.
Definition _zoom_step : R := 1.1.

(** The fields that change, and the position given to [camera.setPos]. *)
Record State : Type := mkState
  { _target : R * R * R;
    _distance : R;
    _yaw : R;
    _pitch : R;
    _dragging : bool;
    _last_mouse : option (R * R);
    camera_pos : R * R * R }.

(** Spherical to cartesian around the target. *)
Definition orbit_position (self : State) : R * R * R :=
  let '(tx, ty, tz) := _target self in
  let r := _distance self in
  let cp := cos (_pitch self) in
  let x := (r * cp * sin (_yaw self))%R in
  let y := (- r * cp * cos (_yaw self))%R in
  let z := (r * sin (_pitch self))%R in
  ((tx + x)%R, (ty + y)%R, (tz + z)%R).

Definition _update_camera (self : State) : State :=
  {| _target := _target self; _distance := _distance self;
     _yaw := _yaw self; _pitch := _pitch self;
     _dragging := _dragging self; _last_mouse := _last_mouse self;
     camera_pos := orbit_position self |}.

(** [__init__] *)
Definition init : State :=
  _update_camera
    {| _target := (0, 0, 0)%R; _distance := 15; _yaw := radians (-30);
       _pitch := radians 25; _dragging := false; _last_mouse := None;
       camera_pos := (0, 0, 0)%R |}.

(** [mouse] is [None] when [mouse_watcher.hasMouse()] is false. *)
Definition _start_drag (mouse : option (R * R)) (self : State) : State :=
  match mouse with
  | Some m =>
      {| _target := _target self; _distance := _distance self;
         _yaw := _yaw self; _pitch := _pitch self;
         _dragging := true; _last_mouse := Some m;
         camera_pos := camera_pos self |}
  | None => self
  end.

Definition _end_drag (self : State) : State :=
  {| _target := _target self; _distance := _distance self;
     _yaw := _yaw self; _pitch := _pitch self;
     _dragging := false; _last_mouse := None;
     camera_pos := camera_pos self |}.

Definition with_distance (d : R) (self : State) : State :=
  {| _target := _target self; _distance := d;
     _yaw := _yaw self; _pitch := _pitch self;
     _dragging := _dragging self; _last_mouse := _last_mouse self;
     camera_pos := camera_pos self |}.

Definition with_pitch (p : R) (self : State) : State :=
  {| _target := _target self; _distance := _distance self;
     _yaw := _yaw self; _pitch := p;
     _dragging := _dragging self; _last_mouse := _last_mouse self;
     camera_pos := camera_pos self |}.

Definition _zoom_in (self : State) : State :=
  _update_camera
    (with_distance (Rmax _min_dist (_distance self / _zoom_step)) self).

Definition _zoom_out (self : State) : State :=
  _update_camera
    (with_distance (Rmin _max_dist (_distance self * _zoom_step)) self).

Definition _mouse_task (mouse : option (R * R)) (self : State) : State :=
  match _dragging self, mouse with
  | true, Some (x, y) =>
      let moved :=
        match _last_mouse self with
        | Some (last_x, last_y) =>
            let dx := (x - last_x)%R in
            let dy := (y - last_y)%R in
            let yaw := (_yaw self - radians (dx * 180 * _yaw_sensitivity))%R in
            let pitch :=
              (_pitch self - radians (dy * 180 * _pitch_sensitivity))%R in
            _update_camera
              {| _target := _target self; _distance := _distance self;
                 _yaw := yaw;
                 _pitch := Rmax _min_pitch (Rmin _max_pitch pitch);
                 _dragging := _dragging self;
                 _last_mouse := _last_mouse self;
                 camera_pos := camera_pos self |}
        | None => self
        end in
      {| _target := _target moved; _distance := _distance moved;
         _yaw := _yaw moved; _pitch := _pitch moved;
         _dragging := _dragging moved; _last_mouse := Some (x, y);
         camera_pos := camera_pos moved |}
  | _, _ => self
  end.

Definition set_target (target_pos : R * R * R) (self : State) : State :=
  _update_camera
    {| _target := target_pos; _distance := _distance self;
       _yaw := _yaw self; _pitch := _pitch self;
       _dragging := _dragging self; _last_mouse := _last_mouse self;
       camera_pos := camera_pos self |}.

Definition set_distance_for_object_height (object_height : R) (self : State)
  : State :=
  let base_distance := 8%R in
  let optimal_distance := Rmax base_distance (object_height * 4) in
  _update_camera
    (with_distance (Rmax _min_dist (Rmin _max_dist optimal_distance)) self).

(** [object_diameter] is [None] for the default argument; a diameter of
    zero is false as well. *)
Definition diameter_truthy (object_diameter : option R) : option R :=
  match object_diameter with
  | Some d => if float_truthy d then Some d else None
  | None => None
  end.

Definition size_factor (object_height : R) (object_diameter : option R) : R :=
  match diameter_truthy object_diameter with
  | Some d => Rmax object_height d
  | None => object_height
  end.

Definition set_optimal_view (object_height : R) (object_diameter : option R)
    (self : State) : State :=
  let base_distance := 10%R in
  let optimal_distance :=
    Rmax base_distance (size_factor object_height object_diameter * 3.5) in
  let self1 :=
    with_distance (Rmax _min_dist (Rmin _max_dist optimal_distance)) self in
  let self2 :=
    match diameter_truthy object_diameter with
    | Some d =>
        if float_truthy object_height
        then
          let aspect_ratio := (object_height / d)%R in
          if Rlt_dec 2 aspect_ratio then with_pitch (radians 30) self1
          else if Rlt_dec aspect_ratio 0.5 then with_pitch (radians 15) self1
          else with_pitch (radians 25) self1
        else self1
    | None => self1
    end in
  _update_camera self2.

Definition reset_to_default_view (self : State) : State :=
  _update_camera
    {| _target := _target self; _distance := 15; _yaw := radians (-30);
       _pitch := radians 25; _dragging := _dragging self;
       _last_mouse := _last_mouse self; camera_pos := camera_pos self |}.

(** The events the camera receives, and a run of them. *)
Inductive Event : Type :=
| StartDrag (mouse : option (R * R))
| EndDrag
| WheelUp
| WheelDown
| MouseTask (mouse : option (R * R))
| SetTarget (target_pos : R * R * R)
| SetDistanceForObjectHeight (object_height : R)
| SetOptimalView (object_height : R) (object_diameter : option R)
| ResetToDefaultView.

Definition step (self : State) (e : Event) : State :=
  match e with
  | StartDrag mouse => _start_drag mouse self
  | EndDrag => _end_drag self
  | WheelUp => _zoom_in self
  | WheelDown => _zoom_out self
  | MouseTask mouse => _mouse_task mouse self
  | SetTarget target_pos => set_target target_pos self
  | SetDistanceForObjectHeight h => set_distance_for_object_height h self
  | SetOptimalView h d => set_optimal_view h d self
  | ResetToDefaultView => reset_to_default_view self
  end.

Definition run (events : list Event) (self : State) : State :=
  fold_left step events self.

End OrbitCamera.

(** What the camera keeps true: the distance and the pitch stay in their
    ranges, and the camera stands where the orbit parameters say. *)
Definition camera_ok (self : OrbitCamera.State) : Prop :=
  (OrbitCamera._min_dist <= OrbitCamera._distance self
   <= OrbitCamera._max_dist)%R
  /\ (OrbitCamera._min_pitch <= OrbitCamera._pitch self
      <= OrbitCamera._max_pitch)%R
  /\ OrbitCamera.camera_pos self = OrbitCamera.orbit_position self.

(** ** [PerformanceMonitor] *)

Record PerformanceMonitor : Type := mkPerformanceMonitor
  { monitor_start_time : R;
    measurements : gmap string R }.

Definition start_measurement (now : R) (name : string)
    (self : PerformanceMonitor) : PerformanceMonitor :=
  {| monitor_start_time := monitor_start_time self;
     measurements := <[name := now]> (measurements self) |}.

Definition end_measurement (now : R) (name : string)
    (self : PerformanceMonitor) : R * PerformanceMonitor :=
  match measurements self !! name with
  | Some started =>
      ((now - started)%R,
       {| monitor_start_time := monitor_start_time self;
          measurements := delete name (measurements self) |})
  | None => (0%R, self)
  end.

(** ** The radius functions in the code's own arithmetic *)

(** The two radius functions of [vaseGeometry] over binary64 floats, with
    the rounding of every product and sum.  [cos] is [math.cos] on finite
    arguments; on an infinite argument [math.cos] raises [ValueError].
    [segment_count] is the segment count as the product
    [segment_count * phi] converts it. *)
Module VaseFloat.
Import PrimFloat.
Local Open Scope float_scope.
(* Decimal literals denote the nearest binary64 value, as in Python. *)
Local Set Warnings "-inexact-float".

(** [math.pi] *)
Definition pi : float := 0x1.921fb54442d18p+1.

Section Modulation.
Variable cos : float -> float.

(** [math.cos(x)] *)
Definition math_cos (x : float) : Result float :=
  if is_infinity x then Raise (ValueError "math domain error")
  else Ok (cos x).

Variable segment_count : float.
Variables object_width twist_angle twist_groove_depth
          vertical_wave_freq vertical_wave_depth : float.

Definition get_surface_modulation (phi length_ratio : float) : Result float :=
  let phi := phi + twist_angle * 0.067 * pi * length_ratio in
  (groove <- math_cos (segment_count * phi) ;;
   wave <- math_cos (vertical_wave_freq * length_ratio) ;;
   let modulated_radius :=
     object_width + (twist_groove_depth * 0.06) * groove
     + (vertical_wave_depth * 0.15) * wave in
   Ok modulated_radius)%result.

Variable wall_thickness : float.

Definition get_inner_surface_modulation (phi length_ratio : float)
  : Result float :=
  let phi := phi + twist_angle * 0.067 * pi * length_ratio in
  (groove <- math_cos (segment_count * phi) ;;
   wave <- math_cos (vertical_wave_freq * length_ratio) ;;
   let modulated_radius :=
     (object_width - wall_thickness) + (twist_groove_depth * 0.06) * groove
     + (vertical_wave_depth * 0.15) * wave in
   Ok modulated_radius)%result.
End Modulation.

End VaseFloat.

(** * Properties of the mesh builders *)

(** ** Index layout: the triangle lists do not depend on the parameters *)

Lemma tableGeometry_triangles (segment_count : Z)
    (object_width twist_angle twist_groove_depth vertical_wave_freq
     vertical_wave_depth : R) :
  table_triangles
    (Table.tableGeometry segment_count object_width twist_angle
       twist_groove_depth vertical_wave_freq vertical_wave_depth)
  = Some TableTopology.triangles.
Proof. vm_compute. reflexivity. Qed.

Lemma vaseGeometry_triangles (segment_count : Z)
    (object_width twist_angle twist_groove_depth vertical_wave_freq
     vertical_wave_depth wall_thickness : R) :
  vase_triangles
    (Vase.vaseGeometry segment_count object_width twist_angle
       twist_groove_depth vertical_wave_freq vertical_wave_depth wall_thickness)
  = Some VaseTopology.triangles.
Proof. vm_compute. reflexivity. Qed.

(** ** Soundness of the block-wise edge checker *)

Lemma has_edge_vertex (a b : Z) (t : Triangle) :
  has_edge a b t = true -> is_vertex a t.
Proof.
  destruct t as [[p q] r]; unfold has_edge, is_vertex.
  rewrite !orb_true_iff, !andb_true_iff, !Z.eqb_eq. intuition.
Qed.

Lemma triangle_edges_vertex (a b : Z) (t : Triangle) :
  In (a, b) (triangle_edges t) -> is_vertex a t.
Proof.
  destruct t as [[p q] r]; unfold is_vertex; simpl.
  intros [E | [E | [E | []]]]; inversion E; auto.
Qed.

Lemma in_range_vertex (lo hi v : Z) (t : Triangle) :
  in_range lo hi t = true -> is_vertex v t -> lo <= v < hi.
Proof.
  destruct t as [[p q] r]; unfold in_range, is_vertex.
  rewrite !andb_true_iff, !Z.leb_le, !Z.ltb_lt.
  intros H [-> | [-> | ->]]; lia.
Qed.

Lemma edge_count_app (a b : Z) (l1 l2 : list Triangle) :
  edge_count a b (l1 ++ l2) = (edge_count a b l1 + edge_count a b l2)%nat.
Proof.
  unfold edge_count. now rewrite List.filter_app, length_app.
Qed.

Lemma edge_count_none (a b : Z) (ts : list Triangle) :
  (forall t, In t ts -> ~ is_vertex a t) -> edge_count a b ts = 0%nat.
Proof.
  unfold edge_count. induction ts as [| t ts IH]; intros H; simpl; [reflexivity |].
  destruct (has_edge a b t) eqn:E.
  - exfalso. apply (H t); [now left | now apply has_edge_vertex with b].
  - apply IH. intros t' Ht'. apply H. now right.
Qed.

Lemma block_ok_sharing (expected : Z -> Z -> nat) (block : list Triangle) :
  block_ok expected block = true -> edge_sharing expected block.
Proof.
  unfold block_ok, edge_sharing. intros H t a b Ht He.
  rewrite forallb_forall in H. specialize (H t Ht).
  rewrite forallb_forall in H. specialize (H (a, b) He).
  now apply Nat.eqb_eq in H.
Qed.

Lemma check_blocks_sound (expected : Z -> Z -> nat) :
  forall (blocks : list (Z * nat)) (lo : Z) (ts : list Triangle),
    check_blocks expected lo blocks ts = true ->
    (forall t v, In t ts -> is_vertex v t -> lo <= v)
    /\ edge_sharing expected ts.
Proof.
  induction blocks as [| [hi n] rest IH]; intros lo ts H; simpl in H.
  - destruct ts; [| discriminate]. split; [intros t v [] | intros t a b []].
  - rewrite !andb_true_iff in H. destruct H as [[[Hlo Hrange] Hblock] Hrest].
    apply Z.leb_le in Hlo. rewrite forallb_forall in Hrange.
    apply block_ok_sharing in Hblock.
    destruct (IH hi (skipn n ts) Hrest) as [Hge Hshare].
    rewrite <- (firstn_skipn n ts).
    set (B := firstn n ts) in *. set (T := skipn n ts) in *.
    split.
    + intros t v Ht Hv. apply in_app_or in Ht. destruct Ht as [Ht | Ht].
      * apply (in_range_vertex lo hi v t); auto.
      * specialize (Hge t v Ht Hv). lia.
    + intros t a b Ht He. rewrite edge_count_app.
      pose proof (triangle_edges_vertex a b t He) as Ha.
      apply in_app_or in Ht. destruct Ht as [Ht | Ht].
      * rewrite (Hblock t a b Ht He).
        rewrite (edge_count_none a b T); [lia |].
        intros t' Ht' Hv.
        pose proof (in_range_vertex lo hi a t (Hrange t Ht) Ha).
        specialize (Hge t' a Ht' Hv). lia.
      * rewrite (Hshare t a b Ht He).
        rewrite (edge_count_none a b B); [lia |].
        intros t' Ht' Hv.
        pose proof (in_range_vertex lo hi a t' (Hrange t' Ht') Hv).
        specialize (Hge t a Ht Ha). lia.
Qed.

Lemma table_check :
  check_blocks TableTopology.sharing 0 TableTopology.blocks
    TableTopology.triangles = true.
Proof. vm_compute. reflexivity. Qed.

Lemma vase_check :
  check_blocks VaseTopology.sharing 0 VaseTopology.blocks
    VaseTopology.triangles = true.
Proof. vm_compute. reflexivity. Qed.

Lemma tableGeometry_vertex_count (segment_count : Z)
    (object_width twist_angle twist_groove_depth vertical_wave_freq
     vertical_wave_depth : R) :
  table_vertex_count
    (Table.tableGeometry segment_count object_width twist_angle
       twist_groove_depth vertical_wave_freq vertical_wave_depth)
  = Some 20202.
Proof. vm_compute. reflexivity. Qed.

(** ** C1, C8: surface modulation *)

(** C1.  The radius function of both builders is the formula of section 4.1:
    for all inputs it equals
    [baseWidth + grooveDepth * 0.06 * cos (segmentCount * phi')
     + waveDepth * 0.15 * cos (waveFreq * lengthRatio)]
    with [phi' = phi + twistAngle * 0.067 * PI * lengthRatio].  The two
    builders' copies agree, and, being functions of their arguments only,
    give equal results on equal inputs. *)
Theorem C1_surface_modulation_formula
    (segmentCount : Z)
    (baseWidth phi lengthRatio twistAngle grooveDepth waveFreq waveDepth : R) :
  Table.get_surface_modulation segmentCount baseWidth twistAngle grooveDepth
      waveFreq waveDepth phi lengthRatio
    = radius_spec baseWidth phi lengthRatio (IZR segmentCount) twistAngle
        grooveDepth waveFreq waveDepth
  /\ Vase.get_surface_modulation segmentCount baseWidth twistAngle grooveDepth
      waveFreq waveDepth phi lengthRatio
    = radius_spec baseWidth phi lengthRatio (IZR segmentCount) twistAngle
        grooveDepth waveFreq waveDepth
  /\ Table.get_surface_modulation segmentCount baseWidth twistAngle
      grooveDepth waveFreq waveDepth phi lengthRatio
    = Vase.get_surface_modulation segmentCount baseWidth twistAngle
        grooveDepth waveFreq waveDepth phi lengthRatio.
Proof. repeat split. Qed.

(** ** C8: the inner shell *)

Section InnerShell.
Import PrimFloat.
Local Set Warnings "-inexact-float".

(** C8 as stated fails: in the code's arithmetic the inner radius is not
    the outer radius minus the wall thickness for all inputs.  For width
    2, groove depth 0.5, no wave and no twist, at angle 0 and length
    ratio 0, where both cosines are [math.cos(0.0) = 1.0], the outer
    radius is 2.03, the inner radius 1.53 and the outer radius minus
    0.5 is 1.5299999999999998. *)
Lemma C8_counterexample :
  ~ exists cos : float -> float,
      cos 0%float = 1%float
      /\ exists inner outer : float,
           (VaseFloat.get_inner_surface_modulation cos 5 2 0 0.5 3 0 0.5 0 0
            = Ok inner
            /\ VaseFloat.get_surface_modulation cos 5 2 0 0.5 3 0 0 0
               = Ok outer
            /\ inner = outer - 0.5)%float.
Proof.
  intros (cos & H0 & inner & outer & Ei & Eo & E).
  vm_compute in Ei, Eo. rewrite H0 in Ei, Eo. vm_compute in Ei, Eo.
  inversion Ei as [Hi]. inversion Eo as [Ho]. rewrite <- Hi, <- Ho in E.
  apply (f_equal (eqb 1.53%float)) in E. vm_compute in E. discriminate.
Qed.

(** C8, amended.  The inner radius is the outer radius computed with
    the width minus the wall thickness for the width: the same
    expression with the same groove and wave terms, in the code's
    binary64 arithmetic (where both raise alike when a cosine argument
    is infinite) as over the reals. *)
Theorem C8_inner_radius_tracks_outer
    (cos : float -> float)
    (fsegment_count fobject_width ftwist_angle ftwist_groove_depth
     fvertical_wave_freq fvertical_wave_depth fwall_thickness
     fphi flength_ratio : float)
    (segment_count : Z)
    (object_width twist_angle twist_groove_depth vertical_wave_freq
     vertical_wave_depth wall_thickness phi length_ratio : R) :
  VaseFloat.get_inner_surface_modulation cos fsegment_count fobject_width
    ftwist_angle ftwist_groove_depth fvertical_wave_freq fvertical_wave_depth
    fwall_thickness fphi flength_ratio
  = VaseFloat.get_surface_modulation cos fsegment_count
      (fobject_width - fwall_thickness)%float
      ftwist_angle ftwist_groove_depth fvertical_wave_freq
      fvertical_wave_depth fphi flength_ratio
  /\ Vase.get_inner_surface_modulation segment_count object_width twist_angle
       twist_groove_depth vertical_wave_freq vertical_wave_depth
       wall_thickness phi length_ratio
     = Vase.get_surface_modulation segment_count
         (object_width - wall_thickness) twist_angle twist_groove_depth
         vertical_wave_freq vertical_wave_depth phi length_ratio.
Proof. split; reflexivity. Qed.
End InnerShell.

(** ** C7: triangle count of the table mesh *)

(** C7 as stated fails: at the defaults of the table in section 6 the mesh
    does not have [2N + 2 + 4NH] triangles. *)
Lemma C7_counterexample :
  table_triangle_count (Table.tableGeometry 5 1.2 10 1 4 1)
  <> Some (2 * Table.segments + 2
           + 4 * Table.segments * Table.height_segments).
Proof.
  unfold table_triangle_count. rewrite tableGeometry_triangles.
  vm_compute. discriminate.
Qed.

(** C7, amended.  For every parameter set the table mesh has exactly
    [2N + 2NH] triangles ([N] for each cap fan and two for each of the
    [N * H] side quads), that is 10200; [2N + 2 + 4NH] is the number of its
    vertex rows. *)
Theorem C7_table_triangle_count (segment_count : Z)
    (object_width twist_angle twist_groove_depth vertical_wave_freq
     vertical_wave_depth : R) :
  let mesh := Table.tableGeometry segment_count object_width twist_angle
                twist_groove_depth vertical_wave_freq vertical_wave_depth in
  table_triangle_count mesh
    = Some (2 * Table.segments + 2 * Table.segments * Table.height_segments)
  /\ table_triangle_count mesh = Some 10200
  /\ table_vertex_count mesh
    = Some (2 * Table.segments + 2
            + 4 * Table.segments * Table.height_segments).
Proof.
  cbv zeta. unfold table_triangle_count.
  rewrite tableGeometry_triangles, tableGeometry_vertex_count.
  repeat split; vm_compute; reflexivity.
Qed.

(** ** C3: edge sharing *)

Lemma closed_mesh_sharing (ts : list Triangle) :
  closed_mesh ts <-> edge_sharing (fun _ _ => 2%nat) ts.
Proof. reflexivity. Qed.

(** C3 as stated fails for both builders: a rim edge of the top cap,
    rows 2 and 4 of the table mesh and rows 40 and 41 of the vase mesh,
    belongs to one triangle only. *)
Lemma C3_counterexample :
  (exists ts, table_triangles (Table.tableGeometry 5 1.2 10 1 4 1) = Some ts
              /\ ~ closed_mesh ts)
  /\ (exists ts, vase_triangles (Vase.vaseGeometry 5 2.5 20 1 3 1 0.5) = Some ts
                 /\ ~ closed_mesh ts).
Proof.
  split.
  - exists TableTopology.triangles. split; [apply tableGeometry_triangles |].
    intros Hclosed.
    assert (Hin : In (0, 2, 4) TableTopology.triangles)
      by (vm_compute; left; reflexivity).
    specialize (Hclosed (0, 2, 4) 2 4 Hin).
    assert (Hone : edge_count 2 4 TableTopology.triangles = 1%nat)
      by (vm_compute; reflexivity).
    rewrite Hone in Hclosed.
    assert (1 = 2)%nat by (apply Hclosed; simpl; auto).
    discriminate.
  - exists VaseTopology.triangles. split; [apply vaseGeometry_triangles |].
    intros Hclosed.
    assert (Hin : In (0, 40, 41) VaseTopology.triangles)
      by (vm_compute; left; reflexivity).
    specialize (Hclosed (0, 40, 41) 40 41 Hin).
    assert (Hone : edge_count 40 41 VaseTopology.triangles = 1%nat)
      by (vm_compute; reflexivity).
    rewrite Hone in Hclosed.
    assert (1 = 2)%nat by (apply Hclosed; simpl; auto).
    discriminate.
Qed.

(** C3, amended.  For every parameter set both builders return a mesh in
    which every triangle edge (unordered pair of vertex rows) is shared by
    exactly two triangles, except
      - in the table mesh, the rim edges of the two caps and the four sides
        of every side-wall quad (only the spokes of the cap fans and the
        quad diagonals are shared by two),
      - in the vase mesh, the inner and outer rim edges of the two caps,
    each of which belongs to exactly one triangle. *)
Theorem C3_edge_sharing (segment_count : Z)
    (object_width twist_angle twist_groove_depth vertical_wave_freq
     vertical_wave_depth wall_thickness : R) :
  (exists ts,
      table_triangles
        (Table.tableGeometry segment_count object_width twist_angle
           twist_groove_depth vertical_wave_freq vertical_wave_depth) = Some ts
      /\ edge_sharing TableTopology.sharing ts)
  /\ (exists ts,
      vase_triangles
        (Vase.vaseGeometry segment_count object_width twist_angle
           twist_groove_depth vertical_wave_freq vertical_wave_depth
           wall_thickness) = Some ts
      /\ edge_sharing VaseTopology.sharing ts).
Proof.
  split.
  - exists TableTopology.triangles. split; [apply tableGeometry_triangles |].
    exact (proj2 (check_blocks_sound _ _ _ _ table_check)).
  - exists VaseTopology.triangles. split; [apply vaseGeometry_triangles |].
    exact (proj2 (check_blocks_sound _ _ _ _ vase_check)).
Qed.

(** ** Reasoning about the builder monad *)

Lemma range_In (n i : Z) : In i (range n) -> 0 <= i < n.
Proof.
  unfold range. rewrite in_map_iff. intros [k [<- Hk]].
  apply in_seq in Hk. lia.
Qed.

Lemma In_range (n i : Z) : 0 <= i < n -> In i (range n).
Proof.
  intros H. unfold range. apply in_map_iff. exists (Z.to_nat i).
  split; [lia |]. apply in_seq. lia.
Qed.

Lemma bind_Some {S A B : Type} (m : Build S A) (k : A -> Build S B)
    (s : S) (b : B) (s2 : S) :
  bind m k s = Some (b, s2) ->
  exists a s1, m s = Some (a, s1) /\ k a s1 = Some (b, s2).
Proof.
  unfold bind. destruct (m s) as [[a s1] |]; [| discriminate].
  intros H. now exists a, s1.
Qed.

Lemma preserves_ret {S A : Type} (I : S -> Prop) (a : A) :
  preserves I (ret a).
Proof. intros s a' s' Hs E. inversion E; subst. exact Hs. Qed.

Lemma preserves_bind {S A B : Type} (I : S -> Prop) (m : Build S A)
    (k : A -> Build S B) :
  preserves I m -> (forall a, preserves I (k a)) -> preserves I (bind m k).
Proof.
  intros Hm Hk s b s2 Hs E.
  apply bind_Some in E. destruct E as [a [s1 [E1 E2]]].
  exact (Hk a s1 b s2 (Hm s a s1 Hs E1) E2).
Qed.

Lemma preserves_getitem {S : Type} (I : S -> Prop) (l : list Z) (i : Z) :
  preserves I (getitem l i).
Proof.
  intros s a s' Hs. unfold getitem.
  destruct (_ && _); [| discriminate].
  destruct (nth_error _ _); [| discriminate].
  intros E; inversion E; subst. exact Hs.
Qed.

Lemma preserves_for_loop {S Acc : Type} (I : S -> Prop) (l : list Z)
    (body : Z -> Acc -> Build S Acc) :
  (forall i acc, In i l -> preserves I (body i acc)) ->
  forall acc, preserves I (for_loop l body acc).
Proof.
  induction l as [| i l IH]; intros Hbody acc; simpl.
  - apply preserves_ret.
  - apply preserves_bind.
    + apply Hbody. now left.
    + intros acc'. apply IH. intros j acc'' Hj. apply Hbody. now right.
Qed.

Lemma ensures_bind_l {S A B : Type} (Q : S -> Prop) (m : Build S A)
    (k : A -> Build S B) :
  ensures Q m -> (forall a, preserves Q (k a)) -> ensures Q (bind m k).
Proof.
  intros Hm Hk s b s2 E.
  apply bind_Some in E. destruct E as [a [s1 [E1 E2]]].
  exact (Hk a s1 b s2 (Hm s a s1 E1) E2).
Qed.

Lemma ensures_bind_r {S A B : Type} (Q : S -> Prop) (m : Build S A)
    (k : A -> Build S B) :
  (forall a, ensures Q (k a)) -> ensures Q (bind m k).
Proof.
  intros Hk s b s2 E.
  apply bind_Some in E. destruct E as [a [s1 [E1 E2]]].
  exact (Hk a s1 b s2 E2).
Qed.

(** A loop reaches [Q] if the iteration for [i0] establishes it and every
    iteration keeps it. *)
Lemma ensures_for_loop {S Acc : Type} (Q : S -> Prop) (l : list Z)
    (body : Z -> Acc -> Build S Acc) (i0 : Z) :
  In i0 l ->
  (forall acc, ensures Q (body i0 acc)) ->
  (forall i acc, preserves Q (body i acc)) ->
  forall acc, ensures Q (for_loop l body acc).
Proof.
  intros Hin Hest Hkeep. induction l as [| i l IH]; [destruct Hin |].
  intros acc. simpl. destruct Hin as [-> | Hin].
  - apply ensures_bind_l; [apply Hest |].
    intros acc1. apply preserves_for_loop. intros j acc2 _. apply Hkeep.
  - apply ensures_bind_r. intros acc1. apply IH. exact Hin.
Qed.

(** ** Invariants of [vaseGeometry] *)

Section VasePreservation.
Import Vase VaseInvariant.

Variable segment_count : Z.
Variables object_width twist_angle twist_groove_depth
          vertical_wave_freq vertical_wave_depth wall_thickness : R.

Variable I : State -> Prop.
Variable ok : Vertex -> Prop.
Hypothesis I_add : forall x y z nx ny nz,
  ok (mkVertex x y z nx ny nz) -> preserves I (add_vertex x y z nx ny nz).
Hypothesis I_extend : forall ts, preserves I (extend ts).
Hypothesis emitted_ok : forall v,
  emitted segment_count object_width twist_angle twist_groove_depth
    vertical_wave_freq vertical_wave_depth wall_thickness v -> ok v.

Let outer := get_surface_modulation segment_count object_width
  twist_angle twist_groove_depth vertical_wave_freq vertical_wave_depth.
Let inner := get_inner_surface_modulation segment_count
  object_width twist_angle twist_groove_depth vertical_wave_freq
  vertical_wave_depth wall_thickness.

Lemma ok_row (is_inner : bool) (i : Z) (length_ratio z nx ny nz : R) :
  0 <= i < segments ->
  (- half_height <= z <= half_height)%R ->
  let r := (if is_inner then inner else outer) (angle_of i) length_ratio in
  ok (mkVertex (r * cos (angle_of i)) (r * sin (angle_of i)) z nx ny nz).
Proof.
  intros Hi Hz r. apply emitted_ok.
  exists i, length_ratio, is_inner. split; [exact Hi |].
  split; [| exact Hz]. destruct is_inner; split; reflexivity.
Qed.

Lemma half_height_range :
  (- half_height <= half_height <= half_height)%R
  /\ (- half_height <= - half_height <= half_height)%R.
Proof. unfold half_height, height. lra. Qed.

Lemma band_height_range (k : Z) :
  0 <= k <= height_segments ->
  (- half_height <= half_height - (height * IZR k) / IZR height_segments
   <= half_height)%R.
Proof.
  intros [H0 H1]. apply IZR_le in H0, H1.
  unfold half_height, height, height_segments in *. lra.
Qed.

Ltac keep :=
  repeat first
    [ apply preserves_ret
    | apply preserves_getitem
    | apply I_extend
    | apply preserves_bind; [| intros ?] ].

Lemma cap_ring_preserves (is_inner : bool) (length_ratio z nz : R) :
  (- half_height <= z <= half_height)%R ->
  preserves I (cap_ring (if is_inner then inner else outer) length_ratio z nz).
Proof.
  intros Hz. unfold cap_ring. apply preserves_for_loop.
  intros i ring Hi. apply range_In in Hi. keep.
  apply I_add. exact (ok_row is_inner i length_ratio z 0 0 nz Hi Hz).
Qed.

Lemma faces_preserve (l1 l2 l3 l4 : list Z) :
  preserves I (top_face l1 l2) /\ preserves I (bottom_face l1 l2)
  /\ preserves I (outer_quads l1 l2) /\ preserves I (inner_quads l1 l2)
  /\ preserves I (wall_faces l1 l2 l3 l4).
Proof.
  repeat split;
    (apply preserves_for_loop; intros i [] Hi; keep).
Qed.

Lemma band_vertices_preserves (k1 k2 : Z) (length_ratio1 length_ratio2 : R) :
  0 <= k1 <= height_segments -> 0 <= k2 <= height_segments ->
  preserves I
    (band_vertices segment_count object_width twist_angle
       twist_groove_depth vertical_wave_freq vertical_wave_depth
       wall_thickness
       (half_height - (height * IZR k1) / IZR height_segments)
       (half_height - (height * IZR k2) / IZR height_segments)
       length_ratio1 length_ratio2).
Proof.
  intros Hk1 Hk2. unfold band_vertices. apply preserves_for_loop.
  intros i [[[l1 l2] l3] l4] Hi. apply range_In in Hi.
  pose proof (band_height_range k1 Hk1) as Hz1.
  pose proof (band_height_range k2 Hk2) as Hz2.
  keep; apply I_add.
  - exact (ok_row false i length_ratio1 _ _ _ 0 Hi Hz1).
  - exact (ok_row false i length_ratio2 _ _ _ 0 Hi Hz2).
  - exact (ok_row true i length_ratio1 _ _ _ 0 Hi Hz1).
  - exact (ok_row true i length_ratio2 _ _ _ 0 Hi Hz2).
Qed.

Lemma side_walls_preserves :
  preserves I
    (side_walls segment_count object_width twist_angle twist_groove_depth
       vertical_wave_freq vertical_wave_depth wall_thickness).
Proof.
  unfold side_walls. apply preserves_for_loop.
  intros h [] Hh. apply range_In in Hh.
  apply preserves_bind.
  - apply band_vertices_preserves; lia.
  - intros [[[l1 l2] l3] l4].
    destruct (faces_preserve l1 l2 l3 l4) as [_ [_ [Ho [_ Hw]]]].
    destruct (faces_preserve l3 l4 l3 l4) as [_ [_ [_ [Hi _]]]].
    keep; assumption.
Qed.

Lemma build_preserves :
  preserves I
    (build segment_count object_width twist_angle twist_groove_depth
       vertical_wave_freq vertical_wave_depth wall_thickness).
Proof.
  destruct half_height_range as [Htop Hbottom].
  unfold build.
  apply preserves_bind; [exact (cap_ring_preserves false 1 _ 1 Htop) |].
  intros l1.
  apply preserves_bind; [exact (cap_ring_preserves true 1 _ 1 Htop) |].
  intros l2.
  apply preserves_bind; [exact (cap_ring_preserves false 0 _ (-1) Hbottom) |].
  intros l3.
  apply preserves_bind; [exact (cap_ring_preserves true 0 _ (-1) Hbottom) |].
  intros l4.
  destruct (faces_preserve l1 l2 l1 l2) as [Ht _].
  destruct (faces_preserve l3 l4 l3 l4) as [_ [Hb _]].
  apply preserves_bind; [exact Ht |]. intros _.
  apply preserves_bind; [exact Hb |]. intros _.
  apply side_walls_preserves.
Qed.

End VasePreservation.

Lemma add_vertex_vdata (x y z nx ny nz : R) (s s' : Vase.State) (a : Z) :
  Vase.add_vertex x y z nx ny nz s = Some (a, s') ->
  Vase.vdata s' = mkVertex x y z nx ny nz :: Vase.vdata s.
Proof. intros E. inversion E; subst. reflexivity. Qed.

(** Three instances: a row once written stays; every row has the shape
    [emitted]; the trackers follow the rows. *)
Lemma written_add (v : Vertex) (x y z nx ny nz : R) :
  preserves (fun s => In v (Vase.vdata s)) (Vase.add_vertex x y z nx ny nz).
Proof.
  intros s a s' Hs E. rewrite (add_vertex_vdata _ _ _ _ _ _ _ _ _ E).
  now right.
Qed.

Lemma written_extend (v : Vertex) (ts : list Triangle) :
  preserves (fun s => In v (Vase.vdata s)) (Vase.extend ts).
Proof. intros s a s' Hs E. inversion E; subst. exact Hs. Qed.

Lemma shape_add (P : Vertex -> Prop) (x y z nx ny nz : R) :
  P (mkVertex x y z nx ny nz) ->
  preserves (fun s => Forall P (Vase.vdata s)) (Vase.add_vertex x y z nx ny nz).
Proof.
  intros Hv s a s' Hs E. rewrite (add_vertex_vdata _ _ _ _ _ _ _ _ _ E).
  now constructor.
Qed.

Lemma shape_extend (P : Vertex -> Prop) (ts : list Triangle) :
  preserves (fun s => Forall P (Vase.vdata s)) (Vase.extend ts).
Proof. intros s a s' Hs E. inversion E; subst. exact Hs. Qed.

Lemma tracked_add (x y z nx ny nz : R) :
  preserves VaseInvariant.tracked (Vase.add_vertex x y z nx ny nz).
Proof.
  intros s a s' Hs E. inversion E; subst; clear E.
  destruct Hs as (H1 & H2 & H3 & H4 & H5 & H6).
  unfold VaseInvariant.tracked; simpl.
  rewrite H1, H2, H3, H4, H5, H6. repeat split.
Qed.

Lemma tracked_extend (ts : list Triangle) :
  preserves VaseInvariant.tracked (Vase.extend ts).
Proof. intros s a s' Hs E. inversion E; subst. exact Hs. Qed.

Lemma tracked_initial : VaseInvariant.tracked Vase.initial.
Proof. repeat split. Qed.

Section VaseRun.
Import Vase VaseInvariant.

Variable segment_count : Z.
Variables object_width twist_angle twist_groove_depth
          vertical_wave_freq vertical_wave_depth wall_thickness : R.

Let run := build segment_count object_width twist_angle twist_groove_depth
             vertical_wave_freq vertical_wave_depth wall_thickness.
Let shape := emitted segment_count object_width twist_angle
               twist_groove_depth vertical_wave_freq vertical_wave_depth
               wall_thickness.
Let outer := get_surface_modulation segment_count object_width
  twist_angle twist_groove_depth vertical_wave_freq vertical_wave_depth.

(** The builder never raises. *)
Lemma build_total : exists s, run initial = Some (tt, s).
Proof.
  assert (H : match run initial with Some _ => true | None => false end = true)
    by (vm_compute; reflexivity).
  destruct (run initial) as [[[] s] |]; [now exists s | discriminate].
Qed.

Lemma build_tracked (s : State) : run initial = Some (tt, s) -> tracked s.
Proof.
  apply (build_preserves segment_count object_width twist_angle
           twist_groove_depth vertical_wave_freq vertical_wave_depth
           wall_thickness tracked (fun _ => True)
           (fun x y z nx ny nz _ => tracked_add x y z nx ny nz)
           tracked_extend (fun _ _ => Logic.I)).
  exact tracked_initial.
Qed.

Lemma build_shape (s : State) :
  run initial = Some (tt, s) -> Forall shape (vdata s).
Proof.
  apply (build_preserves segment_count object_width twist_angle
           twist_groove_depth vertical_wave_freq vertical_wave_depth
           wall_thickness (fun s => Forall shape (vdata s)) shape
           (shape_add shape) (shape_extend shape) (fun v H => H)).
  constructor.
Qed.

(** A ring loop writes the row for each of its angles. *)
Lemma cap_ring_ensures (modulation : R -> R -> R)
    (length_ratio z nz : R) (i0 : Z) :
  0 <= i0 < segments ->
  ensures
    (fun s =>
       In (mkVertex (modulation (angle_of i0) length_ratio * cos (angle_of i0))
                    (modulation (angle_of i0) length_ratio * sin (angle_of i0))
                    z 0 0 nz)
          (vdata s))
    (cap_ring modulation length_ratio z nz).
Proof.
  intros Hi0. unfold cap_ring.
  apply (ensures_for_loop _ _ _ i0 (In_range _ _ Hi0)).
  - intros acc. apply ensures_bind_l.
    + intros s a s1 E. rewrite (add_vertex_vdata _ _ _ _ _ _ _ _ _ E).
      left. reflexivity.
    + intros v. apply preserves_ret.
  - intros i acc. apply preserves_bind.
    + apply written_add.
    + intros v. apply preserves_ret.
Qed.

(** Once written, a row is kept by every later step of [build]. *)
Section Kept.
Variable v : Vertex.
Let written (s : State) : Prop := In v (vdata s).

Let ring_kept (is_inner : bool) (length_ratio z nz : R)
    (Hz : (- half_height <= z <= half_height)%R) :=
  cap_ring_preserves segment_count object_width twist_angle
    twist_groove_depth vertical_wave_freq vertical_wave_depth
    wall_thickness written (fun _ => True)
    (fun x y z nx ny nz _ => written_add v x y z nx ny nz)
    (fun _ _ => Logic.I) is_inner length_ratio z nz Hz.

Lemma faces_and_walls_kept (l1 l2 l3 l4 : list Z) :
  preserves written
    (bind (top_face l1 l2) (fun _ =>
     bind (bottom_face l3 l4) (fun _ =>
     side_walls segment_count object_width twist_angle twist_groove_depth
       vertical_wave_freq vertical_wave_depth wall_thickness))).
Proof.
  destruct (faces_preserve written (written_extend v) l1 l2 l1 l2) as [Ht _].
  destruct (faces_preserve written (written_extend v) l3 l4 l3 l4)
    as [_ [Hb _]].
  apply preserves_bind; [exact Ht |]. intros _.
  apply preserves_bind; [exact Hb |]. intros _.
  exact (side_walls_preserves segment_count object_width twist_angle
           twist_groove_depth vertical_wave_freq vertical_wave_depth
           wall_thickness written (fun _ => True)
           (fun x y z nx ny nz _ => written_add v x y z nx ny nz)
           (written_extend v) (fun _ _ => Logic.I)).
Qed.

Lemma build_keeps_first_ring :
  ensures written (cap_ring outer 1 half_height 1) ->
  ensures written run.
Proof.
  intros Hfirst. destruct half_height_range as [Hzt Hzb].
  unfold run, build. apply ensures_bind_l; [exact Hfirst |]. intros l1.
  apply preserves_bind; [exact (ring_kept true 1%R _ 1%R Hzt) |]. intros l2.
  apply preserves_bind; [exact (ring_kept false 0%R _ (-1)%R Hzb) |]. intros l3.
  apply preserves_bind; [exact (ring_kept true 0%R _ (-1)%R Hzb) |]. intros l4.
  apply faces_and_walls_kept.
Qed.

Lemma build_keeps_third_ring :
  ensures written (cap_ring outer 0 (- half_height) (-1)) ->
  ensures written run.
Proof.
  intros Hthird. destruct half_height_range as [Hzt Hzb].
  unfold run, build. apply ensures_bind_r. intros l1.
  apply ensures_bind_r. intros l2.
  apply ensures_bind_l; [exact Hthird |]. intros l3.
  apply preserves_bind; [exact (ring_kept true 0%R _ (-1)%R Hzb) |]. intros l4.
  apply faces_and_walls_kept.
Qed.
End Kept.

Lemma build_writes_ring_rows (s : State) (i0 : Z) :
  0 <= i0 < segments ->
  run initial = Some (tt, s) ->
  In (top_outer_row segment_count object_width twist_angle
        twist_groove_depth vertical_wave_freq vertical_wave_depth i0)
     (vdata s)
  /\ In (bottom_outer_row segment_count object_width twist_angle
           twist_groove_depth vertical_wave_freq vertical_wave_depth i0)
        (vdata s).
Proof.
  intros Hi0 E. split.
  - exact (build_keeps_first_ring _
             (cap_ring_ensures outer 1 half_height 1 i0 Hi0) _ _ _ E).
  - exact (build_keeps_third_ring _
             (cap_ring_ensures outer 0 (- half_height) (-1) i0 Hi0) _ _ _ E).
Qed.

End VaseRun.

(** ** Trackers and extents *)

Lemma track_min_MinRlist (l : list R) :
  l <> [] -> track_min l = Fin (MinRlist l).
Proof.
  induction l as [| x l IH]; [congruence |]. intros _.
  destruct l as [| y l]; [reflexivity |].
  change (track_min (x :: y :: l)) with (py_min (track_min (y :: l)) x).
  rewrite IH by discriminate.
  change (MinRlist (x :: y :: l)) with (Rmin x (MinRlist (y :: l))).
  simpl py_min. now rewrite Rmin_comm.
Qed.

Lemma track_max_MaxRlist (l : list R) :
  l <> [] -> track_max l = Fin (MaxRlist l).
Proof.
  induction l as [| x l IH]; [congruence |]. intros _.
  destruct l as [| y l]; [reflexivity |].
  change (track_max (x :: y :: l)) with (py_max (track_max (y :: l)) x).
  rewrite IH by discriminate.
  change (MaxRlist (x :: y :: l)) with (Rmax x (MaxRlist (y :: l))).
  simpl py_max. now rewrite Rmax_comm.
Qed.

Lemma MinRlist_In (l : list R) : l <> [] -> In (MinRlist l) l.
Proof.
  induction l as [| x l IH]; [congruence |]. intros _.
  destruct l as [| y l]; [now left |].
  change (MinRlist (x :: y :: l)) with (Rmin x (MinRlist (y :: l))).
  unfold Rmin. destruct (Rle_dec x (MinRlist (y :: l))).
  - now left.
  - right. apply IH. discriminate.
Qed.

Lemma MaxRlist_char (l : list R) (m : R) :
  In m l -> (forall x, In x l -> (x <= m)%R) -> MaxRlist l = m.
Proof.
  intros Hm Hub. apply Rle_antisym.
  - apply Hub. apply MaxRlist_P2. now exists m.
  - now apply MaxRlist_P1.
Qed.

Lemma MinRlist_char (l : list R) (m : R) :
  In m l -> (forall x, In x l -> (m <= x)%R) -> MinRlist l = m.
Proof.
  intros Hm Hlb. apply Rle_antisym.
  - now apply MinRlist_P1.
  - apply Hlb. apply MinRlist_In. intros ->. destruct Hm.
Qed.

Lemma MaxRlist_rev (l : list R) : MaxRlist (rev l) = MaxRlist l.
Proof.
  destruct l as [| x l]; [reflexivity |].
  apply MaxRlist_char.
  - apply in_rev. rewrite rev_involutive. apply MaxRlist_P2. exists x. now left.
  - intros y Hy. apply MaxRlist_P1. now apply in_rev.
Qed.

Lemma MinRlist_rev (l : list R) : MinRlist (rev l) = MinRlist l.
Proof.
  destruct l as [| x l]; [reflexivity |].
  apply MinRlist_char.
  - apply in_rev. rewrite rev_involutive. apply MinRlist_In. discriminate.
  - intros y Hy. apply MinRlist_P1. now apply in_rev.
Qed.

Lemma extent_rows (f : Vertex -> R) (rows : list Vertex) :
  extent (map f (rev_append rows [])) = extent (map f rows).
Proof.
  unfold extent.
  rewrite rev_append_rev, app_nil_r, map_rev, MaxRlist_rev, MinRlist_rev.
  reflexivity.
Qed.

(** Extents of the mesh [vaseGeometry] returns: for every parameter set the
    builder returns; its fourth component is the extent in x of all the
    rows of the mesh, its third component, the constant [height], is their
    extent in z. *)
Lemma vaseGeometry_extents (segment_count : Z)
    (object_width twist_angle twist_groove_depth vertical_wave_freq
     vertical_wave_depth wall_thickness : R) :
  exists (geom : Geom),
    Vase.vaseGeometry segment_count object_width twist_angle
      twist_groove_depth vertical_wave_freq vertical_wave_depth wall_thickness
    = Some (Vase.ObjectType, geom, Vase.height,
            Fin (extent (map vx (geom_vdata geom))))
    /\ Vase.height = extent (map vz (geom_vdata geom))
    /\ Forall (VaseInvariant.emitted segment_count object_width twist_angle
                 twist_groove_depth vertical_wave_freq vertical_wave_depth
                 wall_thickness) (geom_vdata geom)
    /\ (forall i, 0 <= i < Vase.segments ->
          In (VaseInvariant.top_outer_row segment_count object_width
                twist_angle twist_groove_depth vertical_wave_freq
                vertical_wave_depth i) (geom_vdata geom)).
Proof.
  destruct (build_total segment_count object_width twist_angle
              twist_groove_depth vertical_wave_freq vertical_wave_depth
              wall_thickness) as [s E].
  pose proof (build_tracked _ _ _ _ _ _ _ _ E) as (Hminx & Hmaxx & _ & _ & _ & _).
  pose proof (build_shape _ _ _ _ _ _ _ _ E) as Hshape.
  pose proof (fun i Hi => build_writes_ring_rows _ _ _ _ _ _ _ s i Hi E) as Hrows.
  assert (H0 : 0 <= 0 < Vase.segments) by (unfold Vase.segments; lia).
  destruct (Hrows 0 H0) as [Htop Hbottom].
  assert (Hne : map vx (Vase.vdata s) <> []).
  { intros Hnil. apply map_eq_nil in Hnil. rewrite Hnil in Htop. destruct Htop. }
  exists {| geom_vdata := rev_append (Vase.vdata s) [];
            geom_triangles := Vase.indices s |}.
  unfold Vase.vaseGeometry. rewrite E. cbn [Vase.finish geom_vdata].
  rewrite !extent_rows.
  split; [| split; [| split]].
  - rewrite Hmaxx, Hminx, track_max_MaxRlist, track_min_MinRlist by exact Hne.
    reflexivity.
  - unfold extent.
    rewrite (MaxRlist_char (map vz (Vase.vdata s)) Vase.half_height).
    + rewrite (MinRlist_char (map vz (Vase.vdata s)) (- Vase.half_height)%R).
      * unfold Vase.half_height. lra.
      * apply in_map_iff. eexists. split; [| exact Hbottom]. reflexivity.
      * intros z Hz. apply in_map_iff in Hz. destruct Hz as [v [<- Hv]].
        rewrite List.Forall_forall in Hshape.
        destruct (Hshape v Hv) as (i & lr & b & _ & _ & Hz). apply Hz.
    + apply in_map_iff. eexists. split; [| exact Htop]. reflexivity.
    + intros z Hz. apply in_map_iff in Hz. destruct Hz as [v [<- Hv]].
      rewrite List.Forall_forall in Hshape.
      destruct (Hshape v Hv) as (i & lr & b & _ & _ & Hz). apply Hz.
  - rewrite rev_append_rev, app_nil_r. apply List.Forall_rev. exact Hshape.
  - intros i Hi. rewrite rev_append_rev, app_nil_r. apply -> in_rev.
    apply (Hrows i Hi).
Qed.

(** ** A vase whose extent in y exceeds its extent in x *)

Section NarrowVase.
Import Vase VaseInvariant.

(** [segment_count = 2], [object_width = 2.5], no twist, groove depth
    [-5], no wave, default wall thickness: the outer radius is
    [2.8 - 0.6 cos^2 phi], largest along the y axis. *)
Let outer := outer_radius 2 2.5 0 (-5) 3 0.
Let inner := inner_radius 2 2.5 0 (-5) 3 0 wall_thickness_default.

Lemma narrow_outer (phi length_ratio : R) :
  outer phi length_ratio = (2.8 - 0.6 * (cos phi * cos phi))%R.
Proof.
  unfold outer, outer_radius, get_surface_modulation. cbv zeta.
  replace (2 * (phi + 0 * 0.067 * PI * length_ratio))%R with (2 * phi)%R by ring.
  rewrite cos_2a_cos. lra.
Qed.

Lemma narrow_inner (phi length_ratio : R) :
  inner phi length_ratio = (2.3 - 0.6 * (cos phi * cos phi))%R.
Proof.
  unfold inner, inner_radius, get_inner_surface_modulation,
    wall_thickness_default. cbv zeta.
  replace (2 * (phi + 0 * 0.067 * PI * length_ratio))%R with (2 * phi)%R by ring.
  rewrite cos_2a_cos. lra.
Qed.

Lemma narrow_x_bound (v : Vertex) :
  emitted 2 2.5 0 (-5) 3 0 wall_thickness_default v ->
  (-2.2 <= vx v <= 2.2)%R.
Proof.
  intros (i & lr & b & _ & [Hx _] & _). rewrite Hx. clear Hx.
  pose proof (COS_bound (angle_of i)) as [Hlo Hhi].
  destruct b.
  - fold inner. rewrite narrow_inner.
    set (c := cos (angle_of i)) in *.
    assert (0 <= (1 - c) * (1.7 - 0.6 * c - 0.6 * (c * c)))%R
      by (apply Rmult_le_pos; nra).
    assert (0 <= (1 + c) * (1.7 + 0.6 * c - 0.6 * (c * c)))%R
      by (apply Rmult_le_pos; nra).
    split; nra.
  - fold outer. rewrite narrow_outer.
    set (c := cos (angle_of i)) in *.
    assert (0 <= (1 - c) * (2.2 - 0.6 * c - 0.6 * (c * c)))%R
      by (apply Rmult_le_pos; nra).
    assert (0 <= (1 + c) * (2.2 + 0.6 * c - 0.6 * (c * c)))%R
      by (apply Rmult_le_pos; nra).
    split; nra.
Qed.

Lemma narrow_y_top :
  vy (top_outer_row 2 2.5 0 (-5) 3 0 10) = 2.8%R
  /\ vy (top_outer_row 2 2.5 0 (-5) 3 0 30) = (-2.8)%R.
Proof.
  unfold top_outer_row. cbv zeta. cbn [vy]. fold outer.
  rewrite !narrow_outer. unfold angle_of, segments.
  replace (2 * PI * 10 / 40)%R with (PI / 2)%R by lra.
  replace (2 * PI * 30 / 40)%R with (3 * (PI / 2))%R by lra.
  rewrite cos_PI2, sin_PI2, cos_3PI2, sin_3PI2. split; lra.
Qed.
End NarrowVase.

(** * Properties of the geometry cache *)

(** ** Ordered dictionaries *)

Lemma NoDup_snoc {A : Type} (l : list A) (x : A) :
  List.NoDup l -> ~ In x l -> List.NoDup (l ++ [x]).
Proof.
  induction l as [| y l IH]; simpl; intros Hl Hx.
  - constructor; [intros [] | constructor].
  - apply List.NoDup_cons_iff in Hl. destruct Hl as [Hy Hl].
    apply List.NoDup_cons_iff. split.
    + rewrite in_app_iff. simpl. intros [H1 | [H1 | []]]; [tauto |].
      apply Hx. now left.
    + apply IH; tauto.
Qed.

Section DictFacts.
Context {K V : Type} `{EqDecision K}.
Implicit Types (k : K) (v : V) (d : dict K V).

Lemma dict_get_set_eq k v d : dict_get k (dict_set k v d) = Some v.
Proof.
  induction d as [| [k' v'] d IH]; simpl.
  - destruct (decide (k = k)); congruence.
  - destruct (decide (k = k')) as [E | N]; simpl.
    + destruct (decide (k = k)); congruence.
    + destruct (decide (k = k')); [contradiction | exact IH].
Qed.

Lemma dict_get_set_ne k k' v d :
  k <> k' -> dict_get k' (dict_set k v d) = dict_get k' d.
Proof.
  intros N. induction d as [| [k0 v0] d IH]; simpl.
  - destruct (decide (k' = k)); congruence.
  - destruct (decide (k = k0)) as [E | N0]; simpl.
    + subst k0. destruct (decide (k' = k)); congruence.
    + destruct (decide (k' = k0)); [reflexivity | exact IH].
Qed.

Lemma dict_get_None_keys k d :
  dict_get k d = None <-> ~ In k (map fst d).
Proof.
  induction d as [| [k' v'] d IH]; simpl; [tauto |].
  destruct (decide (k = k')) as [E | N].
  - split; [discriminate | intros H'; exfalso; apply H'; left; congruence].
  - rewrite IH. split; [intros H1 [E | H2]; congruence || tauto | tauto].
Qed.

(** A new key goes last. *)
Lemma dict_set_new k v d :
  dict_get k d = None -> dict_set k v d = d ++ [(k, v)].
Proof.
  induction d as [| [k' v'] d IH]; simpl; [reflexivity |].
  destruct (decide (k = k')); [discriminate |].
  intros E. now rewrite IH.
Qed.

(** An existing key keeps its place. *)
Lemma dict_set_length_old k v v0 d :
  dict_get k d = Some v0 -> length (dict_set k v d) = length d.
Proof.
  induction d as [| [k' v'] d IH]; simpl; [discriminate |].
  destruct (decide (k = k')); simpl; [reflexivity |].
  intros E. now rewrite IH.
Qed.

Lemma dict_set_length_le k v d :
  (length (dict_set k v d) <= S (length d))%nat.
Proof.
  induction d as [| [k' v'] d IH]; simpl; [lia |].
  destruct (decide (k = k')); simpl; lia.
Qed.

Lemma dict_set_keys_old k v v0 d :
  dict_get k d = Some v0 -> map fst (dict_set k v d) = map fst d.
Proof.
  induction d as [| [k' v'] d IH]; simpl; [discriminate |].
  destruct (decide (k = k')); simpl; [congruence |].
  intros E. now rewrite IH.
Qed.

Lemma dict_set_wf k v d : dict_wf d -> dict_wf (dict_set k v d).
Proof.
  unfold dict_wf. intros Hwf.
  destruct (dict_get k d) as [v0 |] eqn:E.
  - now rewrite (dict_set_keys_old k v v0 d E).
  - rewrite (dict_set_new k v d E), map_app. simpl.
    apply NoDup_snoc; [exact Hwf |]. now apply dict_get_None_keys.
Qed.

(** Deleting the key at a known place. *)
Lemma dict_del_at k v (l1 l2 : dict K V) :
  ~ In k (map fst l1) -> dict_del k (l1 ++ (k, v) :: l2) = l1 ++ l2.
Proof.
  induction l1 as [| [k' v'] l1 IH]; simpl; intros N.
  - destruct (decide (k = k)); congruence.
  - destruct (decide (k = k')); [exfalso; apply N; left; congruence |].
    rewrite IH; [reflexivity | tauto].
Qed.


(** The scan of [min]: the key found is the first one whose value is
    least. *)
Lemma min_scan_first (f : V -> R) :
  forall (d pre mid : dict K V) (best : K * V),
    (forall x, In x pre -> (f (snd best) < f (snd x))%R) ->
    (forall x, In x mid -> (f (snd best) <= f (snd x))%R) ->
    exists l1 e l2,
      pre ++ best :: mid ++ d = l1 ++ e :: l2
      /\ fst e = min_scan f best d
      /\ (forall x, In x l1 -> (f (snd e) < f (snd x))%R)
      /\ (forall x, In x l2 -> (f (snd e) <= f (snd x))%R).
Proof.
  induction d as [| e d IH]; intros pre mid best Hpre Hmid; simpl.
  - exists pre, best, mid. rewrite app_nil_r. auto.
  - destruct (Rlt_dec (f (snd e)) (f (snd best))) as [Hlt | Hge].
    + destruct (IH (pre ++ best :: mid) [] e) as (l1 & e' & l2 & E & H1 & H2 & H3).
      * intros x Hx. apply in_app_or in Hx. destruct Hx as [Hx | [<- | Hx]].
        -- specialize (Hpre x Hx). lra.
        -- exact Hlt.
        -- specialize (Hmid x Hx). lra.
      * intros x [].
      * exists l1, e', l2. split; [| auto].
        rewrite <- E. rewrite <- app_assoc. reflexivity.
    + destruct (IH pre (mid ++ [e]) best) as (l1 & e' & l2 & E & H1 & H2 & H3).
      * exact Hpre.
      * intros x Hx. apply in_app_or in Hx. destruct Hx as [Hx | [<- | []]].
        -- exact (Hmid x Hx).
        -- lra.
      * exists l1, e', l2. split; [| auto].
        rewrite <- E. rewrite <- app_assoc. reflexivity.
Qed.

Lemma min_key_first (f : V -> R) (d : dict K V) (k : K) :
  min_key f d = Some k ->
  exists l1 v l2,
    d = l1 ++ (k, v) :: l2
    /\ (forall x, In x l1 -> (f v < f (snd x))%R)
    /\ (forall x, In x l2 -> (f v <= f (snd x))%R).
Proof.
  destruct d as [| e d]; simpl; [discriminate |].
  intros E. inversion E as [Ek]; clear E.
  destruct (min_scan_first f d [] [] e) as (l1 & [k' v] & l2 & E & H1 & H2 & H3).
  - intros x [].
  - intros x [].
  - simpl in *. rewrite Ek in H1. subst k'. exists l1, v, l2.
    rewrite Ek. auto.
Qed.

Lemma min_key_nonempty (f : V -> R) (d : dict K V) :
  d <> [] -> exists k, min_key f d = Some k.
Proof. destruct d; [congruence | intros _; eexists; reflexivity]. Qed.
End DictFacts.

(** ** Providers *)

Lemma dict_del_length_in {K V : Type} `{EqDecision K} (k : K) (d : dict K V) :
  In k (map fst d) -> S (length (dict_del k d)) = length d.
Proof.
  induction d as [| [k' v'] d IH]; simpl; [intros [] |].
  destruct (decide (k = k')) as [E | N]; simpl; [reflexivity |].
  intros [E | Hin]; [congruence |]. now rewrite IH.
Qed.

Lemma dict_del_keys_incl {K V : Type} `{EqDecision K} (k : K) (d : dict K V) :
  incl (map fst (dict_del k d)) (map fst d).
Proof.
  induction d as [| [k' v'] d IH]; simpl; [apply incl_refl |].
  destruct (decide (k = k')); simpl.
  - apply incl_tl, incl_refl.
  - intros x [<- | Hx]; [now left | right; now apply IH].
Qed.

Lemma dict_del_wf {K V : Type} `{EqDecision K} (k : K) (d : dict K V) :
  dict_wf d -> dict_wf (dict_del k d).
Proof.
  unfold dict_wf. induction d as [| [k' v'] d IH]; simpl; [auto |].
  intros Hwf. apply List.NoDup_cons_iff in Hwf. destruct Hwf as [Hk' Hwf].
  destruct (decide (k = k')); simpl; [exact Hwf |].
  apply List.NoDup_cons_iff. split; [| auto].
  intros Hin. apply Hk'. now apply (dict_del_keys_incl k d).
Qed.

Lemma dict_set_keys_incl {K V : Type} `{EqDecision K} (k : K) (v : V)
    (d : dict K V) :
  incl (map fst (dict_set k v d)) (k :: map fst d).
Proof.
  induction d as [| [k' v'] d IH]; simpl.
  - intros x [<- | []]. now left.
  - destruct (decide (k = k')); simpl.
    + intros x [<- | Hx]; [now left | right; now right].
    + intros x [<- | Hx]; [right; now left |].
      destruct (IH x Hx) as [<- | Hx']; [now left | right; now right].
Qed.

(** What [_cache_geometry] does: it makes room when the cache is full and
    stores the new entry. *)
Lemma cache_geometry_cases (now : R) (key : CacheKey) (gr : GeometryResult)
    (self : Provider) :
  exists kept,
    _cache_geometry now key gr self
    = (Ok tt,
       {| _geometry_cache := dict_set key (mkCachedGeometry gr now 0) kept;
          _cache_hits := _cache_hits self;
          _cache_misses := _cache_misses self |})
    /\ ((Z.of_nat (length (_geometry_cache self)) < GEOMETRY_CACHE_SIZE
         /\ kept = _geometry_cache self)
        \/ (GEOMETRY_CACHE_SIZE <= Z.of_nat (length (_geometry_cache self))
            /\ exists oldest_key,
                 min_key timestamp (_geometry_cache self) = Some oldest_key
                 /\ kept = dict_del oldest_key (_geometry_cache self))).
Proof.
  unfold _cache_geometry.
  destruct (Z.of_nat (length (_geometry_cache self)) >=? GEOMETRY_CACHE_SIZE)
    eqn:Hfull.
  - apply Z.geb_le in Hfull.
    destruct (min_key_nonempty timestamp (_geometry_cache self)) as [k Hk].
    { intros E. rewrite E in Hfull. unfold GEOMETRY_CACHE_SIZE in Hfull.
      simpl in Hfull. lia. }
    rewrite Hk. eexists. split; [reflexivity |]. right. split; [lia |].
    now exists k.
  - eexists. split; [reflexivity |]. left. split; [| reflexivity].
    rewrite Z.geb_leb in Hfull. apply Z.leb_gt in Hfull. lia.
Qed.

Lemma min_key_in {K V : Type} `{EqDecision K} (f : V -> R) (d : dict K V)
    (k : K) :
  min_key f d = Some k -> In k (map fst d).
Proof.
  intros E. destruct (min_key_first f d k E) as (l1 & v & l2 & -> & _).
  rewrite map_app. apply in_or_app. right. now left.
Qed.

Lemma cache_geometry_bound (now : R) (key : CacheKey) (gr : GeometryResult)
    (self : Provider) :
  Z.of_nat (length (_geometry_cache self)) <= GEOMETRY_CACHE_SIZE ->
  Z.of_nat (length (_geometry_cache (snd (_cache_geometry now key gr self))))
  <= GEOMETRY_CACHE_SIZE.
Proof.
  intros Hle.
  destruct (cache_geometry_cases now key gr self) as (kept & -> & Hkept).
  simpl.
  pose proof (dict_set_length_le key (mkCachedGeometry gr now 0) kept) as Hset.
  destruct Hkept as [[Hlt ->] | [Hge (k & Hk & ->)]]; [lia |].
  pose proof (dict_del_length_in k _ (min_key_in _ _ _ Hk)). lia.
Qed.

Lemma cache_geometry_wf (now : R) (key : CacheKey) (gr : GeometryResult)
    (self : Provider) :
  dict_wf (_geometry_cache self) ->
  dict_wf (_geometry_cache (snd (_cache_geometry now key gr self))).
Proof.
  intros Hwf.
  destruct (cache_geometry_cases now key gr self) as (kept & -> & Hkept).
  simpl. apply dict_set_wf.
  destruct Hkept as [[_ ->] | [_ (k & _ & ->)]]; [exact Hwf |].
  now apply dict_del_wf.
Qed.

Section ProviderFacts.
Variable builder : Z -> R -> R -> R -> R -> R -> Result pyresult.
Variable fallback_type : string.

Let create := create_geometry builder fallback_type.

Lemma create_geometry_hit (now : R) (params : gmap string pyval)
    (self : Provider) (k : CacheKey) (cached : CachedGeometry) :
  _create_cache_key params = Ok k ->
  dict_get k (_geometry_cache self) = Some cached ->
  create now params self
  = (Ok (geometry_result cached),
     {| _geometry_cache :=
          dict_set k {| geometry_result := geometry_result cached;
                        timestamp := now;
                        access_count := access_count cached + 1 |}
                   (_geometry_cache self);
        _cache_hits := _cache_hits self + 1;
        _cache_misses := _cache_misses self |}).
Proof.
  intros Hk Hget. unfold create, create_geometry. now rewrite Hk, Hget.
Qed.

Lemma create_geometry_miss (now : R) (params : gmap string pyval)
    (self : Provider) (k : CacheKey) (result : pyresult) :
  _create_cache_key params = Ok k ->
  dict_get k (_geometry_cache self) = None ->
  call_builder builder params = Ok result ->
  exists kept,
    create now params self
    = (Ok (_extract_result result fallback_type),
       {| _geometry_cache :=
            dict_set k (mkCachedGeometry
                          (_extract_result result fallback_type) now 0) kept;
          _cache_hits := _cache_hits self;
          _cache_misses := _cache_misses self + 1 |})
    /\ ((Z.of_nat (length (_geometry_cache self)) < GEOMETRY_CACHE_SIZE
         /\ kept = _geometry_cache self)
        \/ (GEOMETRY_CACHE_SIZE <= Z.of_nat (length (_geometry_cache self))
            /\ exists oldest_key,
                 min_key timestamp (_geometry_cache self) = Some oldest_key
                 /\ kept = dict_del oldest_key (_geometry_cache self))).
Proof.
  intros Hk Hget Hres. unfold create, create_geometry.
  rewrite Hk, Hget, Hres.
  destruct (cache_geometry_cases now k (_extract_result result fallback_type)
              {| _geometry_cache := _geometry_cache self;
                 _cache_hits := _cache_hits self;
                 _cache_misses := _cache_misses self + 1 |})
    as (kept & -> & Hkept).
  exists kept. split; [reflexivity | exact Hkept].
Qed.

(** The cache never grows beyond its capacity, and keeps its keys
    unique, whatever the call does. *)
Lemma create_geometry_bound (now : R) (params : gmap string pyval)
    (self : Provider) :
  Z.of_nat (length (_geometry_cache self)) <= GEOMETRY_CACHE_SIZE ->
  Z.of_nat (length (_geometry_cache (snd (create now params self))))
  <= GEOMETRY_CACHE_SIZE.
Proof.
  intros Hle. unfold create, create_geometry.
  destruct (_create_cache_key params) as [k | e]; [| exact Hle].
  destruct (dict_get k (_geometry_cache self)) as [cached |] eqn:Hget.
  - simpl. now rewrite (dict_set_length_old k _ cached _ Hget).
  - destruct (call_builder builder params) as [result | e]; [| exact Hle].
    match goal with
    | |- context [_cache_geometry ?n ?key ?gr ?s] =>
        pose proof (cache_geometry_bound n key gr s Hle) as Hb;
        destruct (_cache_geometry n key gr s) as [[u | e] s2]
    end; exact Hb.
Qed.

Lemma create_geometry_wf (now : R) (params : gmap string pyval)
    (self : Provider) :
  dict_wf (_geometry_cache self) ->
  dict_wf (_geometry_cache (snd (create now params self))).
Proof.
  intros Hwf. unfold create, create_geometry.
  destruct (_create_cache_key params) as [k | e]; [| exact Hwf].
  destruct (dict_get k (_geometry_cache self)) as [cached |] eqn:Hget.
  - simpl. now apply dict_set_wf.
  - destruct (call_builder builder params) as [result | e]; [| exact Hwf].
    match goal with
    | |- context [_cache_geometry ?n ?key ?gr ?s] =>
        pose proof (cache_geometry_wf n key gr s Hwf) as Hb;
        destruct (_cache_geometry n key gr s) as [[u | e] s2]
    end; exact Hb.
Qed.

Lemma run_calls_bound (calls : list (R * gmap string pyval)) :
  forall self,
    Z.of_nat (length (_geometry_cache self)) <= GEOMETRY_CACHE_SIZE ->
    Z.of_nat (length (_geometry_cache
                        (run_calls builder fallback_type calls self)))
    <= GEOMETRY_CACHE_SIZE.
Proof.
  induction calls as [| [now params] calls IH]; intros self Hle; simpl.
  - exact Hle.
  - apply IH. now apply create_geometry_bound.
Qed.
End ProviderFacts.

Section CacheScenario.
Variable builder : Z -> R -> R -> R -> R -> R -> Result pyresult.
Variable fallback_type : string.

Let create := create_geometry builder fallback_type.

(** A miss on a full cache evicts the first entry of least timestamp,
    keeps the others in order and puts the new entry last. *)
Lemma create_geometry_evicts (now : R) (params : gmap string pyval)
    (self : Provider) (k : CacheKey) (result : pyresult) :
  dict_wf (_geometry_cache self) ->
  Z.of_nat (length (_geometry_cache self)) = GEOMETRY_CACHE_SIZE ->
  _create_cache_key params = Ok k ->
  dict_get k (_geometry_cache self) = None ->
  call_builder builder params = Ok result ->
  exists l1 oldest_key oldest l2,
    _geometry_cache self = l1 ++ (oldest_key, oldest) :: l2
    /\ (forall x, In x l1 -> (timestamp oldest < timestamp (snd x))%R)
    /\ (forall x, In x l2 -> (timestamp oldest <= timestamp (snd x))%R)
    /\ create now params self
       = (Ok (_extract_result result fallback_type),
          {| _geometry_cache :=
               l1 ++ l2
               ++ [(k, mkCachedGeometry
                         (_extract_result result fallback_type) now 0)];
             _cache_hits := _cache_hits self;
             _cache_misses := _cache_misses self + 1 |}).
Proof.
  intros Hwf Hfull Hk Hget Hres.
  destruct (create_geometry_miss builder fallback_type now params self k
              result Hk Hget Hres) as (kept & Hcreate & Hkept).
  destruct Hkept as [[Hlt _] | [_ (kold & Hmin & ->)]]; [lia |].
  destruct (min_key_first _ _ _ Hmin) as (l1 & vold & l2 & Hsplit & H1 & H2).
  exists l1, kold, vold, l2. split; [exact Hsplit |].
  split; [exact H1 |]. split; [exact H2 |].
  fold create in Hcreate. rewrite Hcreate. f_equal. f_equal.
  assert (Hnot : ~ In kold (map fst l1)).
  { unfold dict_wf in Hwf. rewrite Hsplit, map_app in Hwf. simpl in Hwf.
    apply List.NoDup_remove_2 in Hwf. intros Hin. apply Hwf.
    apply in_or_app. now left. }
  rewrite Hsplit, (dict_del_at kold vold l1 l2 Hnot).
  rewrite dict_set_new; [now rewrite <- app_assoc |].
  apply dict_get_None_keys. apply dict_get_None_keys in Hget.
  intros Hin. apply Hget. rewrite Hsplit, map_app. simpl.
  rewrite map_app in Hin. apply in_app_or in Hin.
  apply in_or_app. destruct Hin as [Hin | Hin]; [now left | right; now right].
Qed.

(** One call with a key that is not in the cache. *)
Lemma create_geometry_new_key (now : R) (params : gmap string pyval)
    (self : Provider) (k : CacheKey) :
  dict_wf (_geometry_cache self) ->
  Z.of_nat (length (_geometry_cache self)) <= GEOMETRY_CACHE_SIZE ->
  _create_cache_key params = Ok k ->
  ~ In k (map fst (_geometry_cache self)) ->
  (exists result, call_builder builder params = Ok result) ->
  let self' := snd (create now params self) in
  Z.of_nat (length (_geometry_cache self'))
  = Z.min (Z.of_nat (length (_geometry_cache self)) + 1) GEOMETRY_CACHE_SIZE
  /\ incl (map fst (_geometry_cache self'))
          (k :: map fst (_geometry_cache self)).
Proof.
  intros Hwf Hle Hk Hnew [result Hres]. cbv zeta.
  apply dict_get_None_keys in Hnew.
  destruct (create_geometry_miss builder fallback_type now params self k
              result Hk Hnew Hres) as (kept & Hcreate & Hkept).
  fold create in Hcreate. rewrite Hcreate. simpl.
  assert (Hincl : incl (map fst kept) (map fst (_geometry_cache self))).
  { destruct Hkept as [[_ ->] | [_ (kold & _ & ->)]];
      [apply incl_refl | apply dict_del_keys_incl]. }
  assert (Hfresh : dict_get k kept = None).
  { apply dict_get_None_keys. intros Hin. apply dict_get_None_keys in Hnew.
    apply Hnew. now apply Hincl. }
  rewrite (dict_set_new k _ kept Hfresh), length_app, map_app. simpl.
  split.
  - destruct Hkept as [[Hlt ->] | [Hge (kold & Hmin & ->)]]; [lia |].
    pose proof (dict_del_length_in kold _ (min_key_in _ _ _ Hmin)). lia.
  - intros x Hx. apply in_app_or in Hx.
    destruct Hx as [Hx | [<- | []]]; [right; now apply Hincl | now left].
Qed.

(** A run of calls with pairwise distinct keys, none of them cached at
    the start. *)
Lemma run_calls_distinct (calls : list (R * gmap string pyval)) :
  forall (keys : list CacheKey) (self : Provider),
    Forall2 (fun call k => _create_cache_key (snd call) = Ok k) calls keys ->
    List.NoDup keys ->
    (forall k, In k keys -> ~ In k (map fst (_geometry_cache self))) ->
    (forall call, In call calls ->
                  exists result, call_builder builder (snd call) = Ok result) ->
    dict_wf (_geometry_cache self) ->
    Z.of_nat (length (_geometry_cache self)) <= GEOMETRY_CACHE_SIZE ->
    let self' := run_calls builder fallback_type calls self in
    dict_wf (_geometry_cache self')
    /\ Z.of_nat (length (_geometry_cache self'))
       = Z.min (Z.of_nat (length (_geometry_cache self))
                + Z.of_nat (length calls)) GEOMETRY_CACHE_SIZE
    /\ incl (map fst (_geometry_cache self'))
            (map fst (_geometry_cache self) ++ keys).
Proof.
  induction calls as [| [now params] calls IH];
    intros keys self Hkeys Hnodup Hfresh Hok Hwf Hle; cbv zeta.
  - inversion Hkeys; subst. simpl. split; [exact Hwf |]. split; [lia |].
    rewrite app_nil_r. apply incl_refl.
  - inversion Hkeys as [| c k calls' keys' Hk Hrest]; subst. simpl in Hk.
    apply List.NoDup_cons_iff in Hnodup. destruct Hnodup as [Hknew Hnodup].
    destruct (create_geometry_new_key now params self k Hwf Hle Hk
                (Hfresh k (or_introl eq_refl))
                (Hok (now, params) (or_introl eq_refl))) as [Hlen Hincl].
    pose proof (create_geometry_wf builder fallback_type now params self Hwf)
      as Hwf1.
    pose proof (create_geometry_bound builder fallback_type now params self Hle)
      as Hle1.
    fold create in Hwf1, Hle1.
    set (self1 := snd (create now params self)) in *.
    destruct (IH keys' self1 Hrest Hnodup) as (Hwf' & Hlen' & Hincl').
    + intros k' Hk' Hin. apply Hincl in Hin. destruct Hin as [<- | Hin].
      * contradiction.
      * exact (Hfresh k' (or_intror Hk') Hin).
    + intros call Hcall. apply Hok. now right.
    + exact Hwf1.
    + exact Hle1.
    + simpl. fold create. fold self1. split; [exact Hwf' |]. split.
      * rewrite Hlen', Hlen. simpl length. lia.
      * intros x Hx. apply Hincl' in Hx. apply in_app_or in Hx.
        apply in_or_app. destruct Hx as [Hx | Hx].
        -- apply Hincl in Hx. destruct Hx as [<- | Hx];
             [right; now left | now left].
        -- right. now right.
Qed.
End CacheScenario.

(** ** The builders behind the providers always return *)

Lemma vase_builder_total (segment_count : Z) (object_width twist_angle
    twist_groove_depth vertical_wave_freq vertical_wave_depth : R) :
  exists geom diameter,
    vase_builder segment_count object_width twist_angle twist_groove_depth
      vertical_wave_freq vertical_wave_depth
    = Ok (Tuple4 Vase.ObjectType geom Vase.height diameter).
Proof.
  destruct (vaseGeometry_extents segment_count object_width twist_angle
              twist_groove_depth vertical_wave_freq vertical_wave_depth
              Vase.wall_thickness_default) as (geom & E & _).
  exists geom, (Fin (extent (map vx (geom_vdata geom)))).
  unfold vase_builder. now rewrite E.
Qed.

Lemma getparam_segment_params (i : Z) :
  getparam (segment_params i) "Segment Count" = Ok (PInt i)
  /\ getparam (segment_params i) "Object Width" = Ok (PFloat 2.5)
  /\ getparam (segment_params i) "Twist Angle" = Ok (PFloat 20)
  /\ getparam (segment_params i) "Twist Groove Depth" = Ok (PFloat 1)
  /\ getparam (segment_params i) "Vertical Wave Frequency" = Ok (PFloat 3)
  /\ getparam (segment_params i) "Vertical Wave Depth" = Ok (PFloat 1).
Proof. repeat split. Qed.

Lemma segment_params_key (i : Z) :
  _create_cache_key (segment_params i) = Ok (segment_key i).
Proof. reflexivity. Qed.

Lemma call_builder_total
    (builder : Z -> R -> R -> R -> R -> R -> Result pyresult)
    (params : gmap string pyval) (v1 v2 v3 v4 v5 v6 : pyval) :
  (forall a b c d e f, exists result, builder a b c d e f = Ok result) ->
  getparam params "Segment Count" = Ok v1 ->
  getparam params "Object Width" = Ok v2 ->
  getparam params "Twist Angle" = Ok v3 ->
  getparam params "Twist Groove Depth" = Ok v4 ->
  getparam params "Vertical Wave Frequency" = Ok v5 ->
  getparam params "Vertical Wave Depth" = Ok v6 ->
  exists result, call_builder builder params = Ok result.
Proof.
  intros Htotal E1 E2 E3 E4 E5 E6. unfold call_builder.
  rewrite E1, E2, E3, E4, E5, E6. simpl. apply Htotal.
Qed.

Lemma segment_params_built (i : Z) :
  exists result, call_builder vase_builder (segment_params i) = Ok result.
Proof.
  destruct (getparam_segment_params i) as (E1 & E2 & E3 & E4 & E5 & E6).
  apply (call_builder_total vase_builder _ _ _ _ _ _ _
           (fun a b c d e f =>
              match vase_builder_total a b c d e f with
              | ex_intro _ geom (ex_intro _ x E) => ex_intro _ _ E
              end) E1 E2 E3 E4 E5 E6).
Qed.

Lemma range_NoDup (n : Z) : List.NoDup (range n).
Proof.
  unfold range. apply Finite.Injective_map_NoDup.
  - intros a b E. lia.
  - apply List.seq_NoDup.
Qed.

Lemma segment_keys_NoDup (n : Z) : List.NoDup (map segment_key (range n)).
Proof.
  apply Finite.Injective_map_NoDup; [| apply range_NoDup].
  intros a b E. unfold segment_key in E. congruence.
Qed.

Lemma range_snoc (n : Z) : 0 <= n -> range (n + 1) = range n ++ [n].
Proof.
  intros Hn. unfold range.
  replace (Z.to_nat (n + 1)) with (Z.to_nat n + 1)%nat by lia.
  rewrite List.seq_app, map_app. simpl. f_equal. f_equal. lia.
Qed.

(** ** C4: a second call with the same key is a hit *)

(** C4.  If two parameter maps normalize to the same cache key and a
    call of [create_geometry] with the first one returns, then the next
    call with the second one returns the very result the cache holds,
    adds one to the hit count and nothing to the miss count, stamps the
    entry with the new clock reading and adds one to its access counter;
    the outcome does not depend on the builder, which is not called. *)
Theorem C4_second_call_is_a_hit
    (builder : Z -> R -> R -> R -> R -> R -> Result pyresult)
    (fallback_type : string) (now1 now2 : R) (p1 p2 : gmap string pyval)
    (self self1 : Provider) (k : CacheKey) (r1 : GeometryResult) :
  _create_cache_key p1 = Ok k ->
  _create_cache_key p2 = Ok k ->
  create_geometry builder fallback_type now1 p1 self = (Ok r1, self1) ->
  exists entry,
    dict_get k (_geometry_cache self1) = Some entry
    /\ geometry_result entry = r1
    /\ forall builder2 fallback2,
         exists self2,
           create_geometry builder2 fallback2 now2 p2 self1 = (Ok r1, self2)
           /\ _cache_hits self2 = _cache_hits self1 + 1
           /\ _cache_misses self2 = _cache_misses self1
           /\ dict_get k (_geometry_cache self2)
              = Some {| geometry_result := r1; timestamp := now2;
                        access_count := access_count entry + 1 |}
           /\ (forall k', k' <> k ->
                 dict_get k' (_geometry_cache self2)
                 = dict_get k' (_geometry_cache self1))
           /\ length (_geometry_cache self2) = length (_geometry_cache self1).
Proof.
  intros Hk1 Hk2 Hfirst.
  assert (Hentry : exists entry,
             dict_get k (_geometry_cache self1) = Some entry
             /\ geometry_result entry = r1).
  { unfold create_geometry in Hfirst. rewrite Hk1 in Hfirst.
    destruct (dict_get k (_geometry_cache self)) as [cached |] eqn:Hget.
    - inversion Hfirst; subst; clear Hfirst. simpl.
      rewrite dict_get_set_eq. eexists. split; reflexivity.
    - destruct (call_builder builder p1) as [result | e]; [| discriminate].
      match type of Hfirst with
      | context [_cache_geometry ?n ?key ?gr ?s] =>
          destruct (cache_geometry_cases n key gr s) as (kept & E & _);
          rewrite E in Hfirst
      end.
      inversion Hfirst; subst; clear Hfirst. simpl.
      rewrite dict_get_set_eq. eexists. split; reflexivity. }
  destruct Hentry as (entry & Hget & Hres). exists entry.
  split; [exact Hget |]. split; [exact Hres |].
  intros builder2 fallback2. eexists. split.
  - rewrite (create_geometry_hit builder2 fallback2 now2 p2 self1 k entry Hk2 Hget).
    rewrite Hres. reflexivity.
  - simpl. split; [reflexivity |]. split; [reflexivity |].
    split; [apply dict_get_set_eq |]. split.
    + intros k' Hne. apply dict_get_set_ne. congruence.
    + apply (dict_set_length_old k _ entry _ Hget).
Qed.

(** ** C5: capacity and eviction *)

(** C5.  Starting from an empty cache, after [GEOMETRY_CACHE_SIZE] calls
    with pairwise distinct keys the cache holds [GEOMETRY_CACHE_SIZE]
    entries; one more call with yet another key leaves it at that size:
    exactly one entry is gone, the first in insertion order among those
    of least timestamp, the others keep their order and the new entry is
    last.  And whatever the calls, the cache never holds more than
    [GEOMETRY_CACHE_SIZE] entries. *)
Theorem C5_capacity_and_eviction
    (builder : Z -> R -> R -> R -> R -> R -> Result pyresult)
    (fallback_type : string) (calls : list (R * gmap string pyval))
    (keys : list CacheKey) (now : R) (params : gmap string pyval)
    (key : CacheKey) :
  Z.of_nat (length calls) = GEOMETRY_CACHE_SIZE ->
  Forall2 (fun call k => _create_cache_key (snd call) = Ok k) calls keys ->
  _create_cache_key params = Ok key ->
  List.NoDup (keys ++ [key]) ->
  (forall call, In call (calls ++ [(now, params)]) ->
     exists result, call_builder builder (snd call) = Ok result) ->
  let before := run_calls builder fallback_type calls Provider_init in
  let after := snd (create_geometry builder fallback_type now params before) in
  Z.of_nat (length (_geometry_cache before)) = GEOMETRY_CACHE_SIZE
  /\ Z.of_nat (length (_geometry_cache after)) = GEOMETRY_CACHE_SIZE
  /\ (exists l1 oldest_key oldest l2 entry,
         _geometry_cache before = l1 ++ (oldest_key, oldest) :: l2
         /\ (forall x, In x l1 -> (timestamp oldest < timestamp (snd x))%R)
         /\ (forall x, In x l2 -> (timestamp oldest <= timestamp (snd x))%R)
         /\ _geometry_cache after = l1 ++ l2 ++ [(key, entry)])
  /\ (forall any_calls : list (R * gmap string pyval),
         Z.of_nat (length (_geometry_cache
                             (run_calls builder fallback_type any_calls
                                Provider_init)))
         <= GEOMETRY_CACHE_SIZE).
Proof.
  intros Hlen Hkeys Hkey Hnodup Hok before after.
  assert (Hnodup' : List.NoDup keys /\ ~ In key keys).
  { split.
    - now apply List.NoDup_app_remove_r in Hnodup.
    - apply List.NoDup_remove_2 in Hnodup. now rewrite app_nil_r in Hnodup. }
  destruct Hnodup' as [Hnd Hnew].
  destruct (run_calls_distinct builder fallback_type calls keys Provider_init
              Hkeys Hnd) as (Hwf & Hsize & Hincl).
  - intros k _ [].
  - intros call Hcall. apply Hok. apply in_or_app. now left.
  - constructor.
  - unfold GEOMETRY_CACHE_SIZE. simpl. lia.
  - fold before in Hwf, Hsize, Hincl. simpl in Hsize.
    assert (Hfull : Z.of_nat (length (_geometry_cache before))
                    = GEOMETRY_CACHE_SIZE) by lia.
    assert (Hget : dict_get key (_geometry_cache before) = None).
    { apply dict_get_None_keys. intros Hin. apply Hincl in Hin. now simpl in Hin. }
    destruct (Hok (now, params)) as [result Hres];
      [apply in_or_app; right; now left |].
    destruct (create_geometry_evicts builder fallback_type now params before
                key result Hwf Hfull Hkey Hget Hres)
      as (l1 & kold & vold & l2 & Hsplit & H1 & H2 & Hcreate).
    assert (Hafter : _geometry_cache after
                     = l1 ++ l2
                       ++ [(key, mkCachedGeometry
                                   (_extract_result result fallback_type) now 0)]).
    { unfold after. now rewrite Hcreate. }
    split; [exact Hfull |]. split; [| split].
    + rewrite Hafter. rewrite Hsplit in Hfull.
      rewrite !length_app in *. simpl in *. lia.
    + exists l1, kold, vold, l2. eexists. repeat split; eauto.
    + intros any_calls. apply run_calls_bound.
      unfold GEOMETRY_CACHE_SIZE. simpl. lia.
Qed.

(** ** C10: the wall thickness is not a parameter of the pipeline *)



(** ** C2: the extents stored in the vase's [GeometryResult] *)

(** C2 as stated fails: for [segment_count = 2], [object_width = 2.5], no
    twist, groove depth [-5] and no wave, the stored diameter is smaller
    than the extent of the mesh in y, so it is not the extent of the
    bounding box in x and y. *)
Lemma C2_counterexample :
  exists gr d,
    built_vase_result 2 2.5 0 (-5) 3 0 = Ok gr
    /\ diameter gr = Some (Fin d)
    /\ (d < extent (map vy (geom_vdata (geometry gr))))%R.
Proof.
  destruct (vaseGeometry_extents 2 2.5 0 (-5) 3 0 Vase.wall_thickness_default)
    as (geom & E & _ & Hshape & Hrows).
  exists (_extract_result
            (Tuple4 Vase.ObjectType geom Vase.height
               (Fin (extent (map vx (geom_vdata geom))))) "Vace").
  exists (extent (map vx (geom_vdata geom))).
  split; [| split; [reflexivity |]].
  - unfold built_vase_result, vase_builder. now rewrite E.
  - simpl. rewrite List.Forall_forall in Hshape.
    assert (H10 : 0 <= 10 < Vase.segments) by (unfold Vase.segments; lia).
    assert (H30 : 0 <= 30 < Vase.segments) by (unfold Vase.segments; lia).
    pose proof (Hrows 10 H10) as Hin10. pose proof (Hrows 30 H30) as Hin30.
    destruct narrow_y_top as [Hy10 Hy30].
    assert (Hxs : forall x, In x (map vx (geom_vdata geom)) ->
                            (-2.2 <= x <= 2.2)%R).
    { intros x Hx. apply in_map_iff in Hx. destruct Hx as [v [<- Hv]].
      apply narrow_x_bound. now apply Hshape. }
    assert (Hne : exists x, In x (map vx (geom_vdata geom))).
    { eexists. apply in_map. exact Hin10. }
    pose proof (Hxs _ (MaxRlist_P2 _ Hne)) as Hmax.
    assert (Hmin : (-2.2 <= MinRlist (map vx (geom_vdata geom)) <= 2.2)%R).
    { apply Hxs. apply MinRlist_In. destruct Hne as [x Hx].
      intros Hnil. rewrite Hnil in Hx. destruct Hx. }
    assert (Hhi : (2.8 <= MaxRlist (map vy (geom_vdata geom)))%R).
    { rewrite <- Hy10. apply MaxRlist_P1. now apply in_map. }
    assert (Hlo : (MinRlist (map vy (geom_vdata geom)) <= -2.8)%R).
    { rewrite <- Hy30. apply MinRlist_P1. now apply in_map. }
    unfold extent. lra.
Qed.

(** C2, amended.  For every parameter set the vase provider builds a
    [GeometryResult] whose diameter is the maximum minus the minimum of
    the x coordinates of all rows of the mesh (the y extents are tracked
    but not used), taken from the trackers after the mesh is complete;
    its height is the builder's constant height 7, which is also the
    maximum minus the minimum of the z coordinates of all rows. *)
Theorem C2_vase_extents (segment_count : Z) (object_width twist_angle
    twist_groove_depth vertical_wave_freq vertical_wave_depth : R) :
  exists gr,
    built_vase_result segment_count object_width twist_angle
      twist_groove_depth vertical_wave_freq vertical_wave_depth = Ok gr
    /\ diameter gr
       = Some (Fin (extent (map vx (geom_vdata (geometry gr)))))
    /\ height gr = extent (map vz (geom_vdata (geometry gr)))
    /\ height gr = 7%R.
Proof.
  destruct (vaseGeometry_extents segment_count object_width twist_angle
              twist_groove_depth vertical_wave_freq vertical_wave_depth
              Vase.wall_thickness_default) as (geom & E & Hz & _).
  exists (_extract_result
            (Tuple4 Vase.ObjectType geom Vase.height
               (Fin (extent (map vx (geom_vdata geom))))) "Vace").
  split; [| split; [reflexivity | split; [exact Hz | reflexivity]]].
  unfold built_vase_result, vase_builder. now rewrite E.
Qed.

(** * Properties of the display manager and of the service *)

(** ** C6: the debounce window *)

(** A call inside the debounce window only counts itself. *)
Lemma update_display_dropped
    (getBounds : NodePath -> option ((R * R * R) * (R * R * R)))
    (current_time cache_time : R) (object_np : NodePath)
    (geometry_result : GeometryResult) (self : DisplayManager) :
  (current_time - _last_update_time self < PARAMETER_UPDATE_DEBOUNCE / 1000)%R ->
  update_display getBounds current_time cache_time object_np geometry_result self
  = (Ok tt,
     {| ui_metrics := ui_metrics self;
        camera_controller := camera_controller self;
        _last_update_time := _last_update_time self;
        _pending_updates := _pending_updates self + 1;
        _display_cache := _display_cache self |}).
Proof.
  intros Hlt. unfold update_display.
  destruct (Rlt_dec _ _) as [_ | Hge]; [reflexivity | contradiction].
Qed.

(** A call outside the window that returns stamps its clock reading. *)
Lemma update_display_applied
    (getBounds : NodePath -> option ((R * R * R) * (R * R * R)))
    (current_time cache_time : R) (object_np : NodePath)
    (geometry_result : GeometryResult) (self self' : DisplayManager) :
  ~ (current_time - _last_update_time self < PARAMETER_UPDATE_DEBOUNCE / 1000)%R ->
  update_display getBounds current_time cache_time object_np geometry_result self
  = (Ok tt, self') ->
  _last_update_time self' = current_time.
Proof.
  intros Hge. unfold update_display.
  destruct (Rlt_dec _ _) as [Hlt | _]; [contradiction |].
  match goal with
  | |- context [match ?applied with Ok _ => _ | Raise _ => _ end] =>
      destruct applied as [self2 | e]
  end.
  - intros E. inversion E; subst. reflexivity.
  - discriminate.
Qed.

(** What [_cache_display_data] does: it never raises, and evicts the
    first entry of least timestamp only from a cache of 64 or more. *)
Lemma cache_display_data_cases (now : R) (key : DisplayKey)
    (data : DisplayData) (cache : dict DisplayKey DisplayData) :
  let stamped :=
    {| dd_ui_metrics := dd_ui_metrics data;
       dd_camera_distance := dd_camera_distance data;
       dd_timestamp := Some now |} in
  exists kept,
    _cache_display_data now key data cache
    = Ok (stamped, dict_set key stamped kept)
    /\ ((Z.of_nat (length cache) < DISPLAY_CACHE_SIZE /\ kept = cache)
        \/ (DISPLAY_CACHE_SIZE <= Z.of_nat (length cache)
            /\ exists oldest_key,
                 min_key timestamp_or_0 cache = Some oldest_key
                 /\ kept = dict_del oldest_key cache)).
Proof.
  cbv zeta. unfold _cache_display_data.
  destruct (Z.of_nat (length cache) >=? DISPLAY_CACHE_SIZE) eqn:Hfull.
  - apply Z.geb_le in Hfull.
    destruct (min_key_nonempty timestamp_or_0 cache) as [k Hk].
    { intros E. rewrite E in Hfull. unfold DISPLAY_CACHE_SIZE in Hfull.
      simpl in Hfull. lia. }
    rewrite Hk. eexists. split; [reflexivity |]. right. split; [lia |].
    now exists k.
  - eexists. split; [reflexivity |]. left. split; [| reflexivity].
    rewrite Z.geb_leb in Hfull. apply Z.leb_gt in Hfull. lia.
Qed.

(** C6 as stated fails: the window is not measured between two calls.
    Of three calls at 1000 s, 1000.06 s and 1000.12 s on a new manager
    the first is applied and the second dropped; the third comes 60 ms
    after the second, yet it is applied: it stamps its clock reading,
    resets the pending counter instead of incrementing it, and shows
    the readout again. *)
Lemma C6_counterexample :
  exists self1 self2 self3,
    update_display (fun _ => None) 1000 1000
      (mkNodePath (mkGeomNode "object_Vace" []) (0, 0, 0)%R 1) sample_result
      (DisplayManager_init (Some []) None) = (Ok tt, self1)
    /\ update_display (fun _ => None) 1000.06 1000.06
         (mkNodePath (mkGeomNode "object_Vace" []) (0, 0, 0)%R 1)
         sample_result self1 = (Ok tt, self2)
    /\ update_display (fun _ => None) 1000.12 1000.12
         (mkNodePath (mkGeomNode "object_Vace" []) (0, 0, 0)%R 1)
         sample_result self2 = (Ok tt, self3)
    /\ (1000.12 - 1000.06 < PARAMETER_UPDATE_DEBOUNCE / 1000)%R
    /\ _pending_updates self2 = 1
    /\ _pending_updates self3 = 0
    /\ _last_update_time self2 = 1000%R
    /\ _last_update_time self3 = 1000.12%R
    /\ ui_metrics self2 = Some [show_bounding_box_diameter (Fin 5) 7]
    /\ ui_metrics self3
       = Some [show_bounding_box_diameter (Fin 5) 7;
               show_bounding_box_diameter (Fin 5) 7].
Proof.
  assert (H1 : ~ (1000 - 0 < PARAMETER_UPDATE_DEBOUNCE / 1000)%R)
    by (unfold PARAMETER_UPDATE_DEBOUNCE; lra).
  assert (H2 : (1000.06 - 1000 < PARAMETER_UPDATE_DEBOUNCE / 1000)%R)
    by (unfold PARAMETER_UPDATE_DEBOUNCE; lra).
  assert (H3 : ~ (1000.12 - 1000 < PARAMETER_UPDATE_DEBOUNCE / 1000)%R)
    by (unfold PARAMETER_UPDATE_DEBOUNCE; lra).
  assert (H4 : (1000.12 - 1000.06 < PARAMETER_UPDATE_DEBOUNCE / 1000)%R)
    by (unfold PARAMETER_UPDATE_DEBOUNCE; lra).
  eexists. eexists. eexists.
  split.
  { unfold update_display. cbn [_last_update_time DisplayManager_init].
    destruct (Rlt_dec _ _) as [Hlt | _]; [contradiction |].
    simpl. reflexivity. }
  split.
  { apply update_display_dropped. simpl. exact H2. }
  split.
  { unfold update_display. cbn [_last_update_time].
    destruct (Rlt_dec _ _) as [Hlt | _]; [contradiction |].
    simpl. destruct (decide _) as [_ | N]; [| congruence]. reflexivity. }
  repeat split; try reflexivity. exact H4.
Qed.

(** C6, amended.  The window is measured from the last applied update.
    A call that comes at least 100 ms after it is applied: it returns,
    stamps its clock reading as the time of the last applied update,
    clears a positive pending counter, and shows the display data of the
    result's key, the cached data if the key is cached (the cache is
    then left alone), else data it computes, stamps with the clock
    reading and stores under the key, after evicting the first entry of
    least timestamp from a cache of 64 or more.  If the next call comes
    less than 100 ms after that one, it only adds one to the pending
    counter: the display cache, the time of the last applied update, the
    dimension readout and the camera are as the first call left them. *)
Theorem C6_debounce_drop
    (getBounds : NodePath -> option ((R * R * R) * (R * R * R)))
    (t1 cache_t1 t2 cache_t2 : R) (np1 np2 : NodePath)
    (gr1 gr2 : GeometryResult) (self : DisplayManager) :
  ~ (t1 - _last_update_time self < PARAMETER_UPDATE_DEBOUNCE / 1000)%R ->
  (t2 - t1 < PARAMETER_UPDATE_DEBOUNCE / 1000)%R ->
  exists self1,
    update_display getBounds t1 cache_t1 np1 gr1 self = (Ok tt, self1)
    /\ _last_update_time self1 = t1
    /\ _pending_updates self1
       = (if _pending_updates self >? 0 then 0 else _pending_updates self)
    /\ match dict_get (_create_display_cache_key gr1) (_display_cache self) with
       | Some cached_data =>
           _display_cache self1 = _display_cache self
           /\ ui_metrics self1
              = ui_metrics (_apply_display_data cached_data self)
           /\ camera_controller self1
              = camera_controller (_apply_display_data cached_data self)
       | None =>
           let display_data :=
             _calculate_display_data getBounds np1 gr1 self in
           let stamped :=
             {| dd_ui_metrics := dd_ui_metrics display_data;
                dd_camera_distance := dd_camera_distance display_data;
                dd_timestamp := Some cache_t1 |} in
           (exists kept,
               _display_cache self1
               = dict_set (_create_display_cache_key gr1) stamped kept
               /\ ((Z.of_nat (length (_display_cache self))
                    < DISPLAY_CACHE_SIZE
                    /\ kept = _display_cache self)
                   \/ (DISPLAY_CACHE_SIZE
                       <= Z.of_nat (length (_display_cache self))
                       /\ exists oldest_key,
                            min_key timestamp_or_0 (_display_cache self)
                            = Some oldest_key
                            /\ kept = dict_del oldest_key
                                        (_display_cache self))))
           /\ ui_metrics self1 = ui_metrics (_apply_display_data stamped self)
           /\ camera_controller self1
              = camera_controller (_apply_display_data stamped self)
       end
    /\ update_display getBounds t2 cache_t2 np2 gr2 self1
       = (Ok tt,
          {| ui_metrics := ui_metrics self1;
             camera_controller := camera_controller self1;
             _last_update_time := _last_update_time self1;
             _pending_updates := _pending_updates self1 + 1;
             _display_cache := _display_cache self1 |}).
Proof.
  intros Hfirst Hsecond.
  assert (Happlied :
    exists self1,
      update_display getBounds t1 cache_t1 np1 gr1 self = (Ok tt, self1)
      /\ _last_update_time self1 = t1
      /\ _pending_updates self1
         = (if _pending_updates self >? 0 then 0 else _pending_updates self)
      /\ match dict_get (_create_display_cache_key gr1)
                 (_display_cache self) with
         | Some cached_data =>
             _display_cache self1 = _display_cache self
             /\ ui_metrics self1
                = ui_metrics (_apply_display_data cached_data self)
             /\ camera_controller self1
                = camera_controller (_apply_display_data cached_data self)
         | None =>
             let display_data :=
               _calculate_display_data getBounds np1 gr1 self in
             let stamped :=
               {| dd_ui_metrics := dd_ui_metrics display_data;
                  dd_camera_distance := dd_camera_distance display_data;
                  dd_timestamp := Some cache_t1 |} in
             (exists kept,
                 _display_cache self1
                 = dict_set (_create_display_cache_key gr1) stamped kept
                 /\ ((Z.of_nat (length (_display_cache self))
                      < DISPLAY_CACHE_SIZE
                      /\ kept = _display_cache self)
                     \/ (DISPLAY_CACHE_SIZE
                         <= Z.of_nat (length (_display_cache self))
                         /\ exists oldest_key,
                              min_key timestamp_or_0 (_display_cache self)
                              = Some oldest_key
                              /\ kept = dict_del oldest_key
                                          (_display_cache self))))
             /\ ui_metrics self1
                = ui_metrics (_apply_display_data stamped self)
             /\ camera_controller self1
                = camera_controller (_apply_display_data stamped self)
         end).
  { unfold update_display.
    destruct (Rlt_dec _ _) as [Hlt | _]; [contradiction |].
    cbn [_display_cache].
    destruct (dict_get (_create_display_cache_key gr1) (_display_cache self))
      as [cached_data |].
    - eexists. split; [reflexivity |]. repeat split.
    - match goal with
      | |- context [_cache_display_data ?now ?key ?data ?cache] =>
          destruct (cache_display_data_cases now key data cache)
            as (kept & -> & Hkept)
      end.
      eexists. split; [reflexivity |].
      split; [reflexivity |]. split; [reflexivity |].
      split; [| split; reflexivity].
      exists kept. split; [reflexivity | exact Hkept]. }
  destruct Happlied as (self1 & Hrun & Hstamp & Hrest).
  exists self1. split; [exact Hrun |]. split; [exact Hstamp |].
  destruct Hrest as (Hpending & Hshown).
  split; [exact Hpending |]. split; [exact Hshown |].
  apply update_display_dropped. rewrite Hstamp. exact Hsecond.
Qed.

(** ** C9: unsupported object types *)

Lemma geometry_providers_get_None (object_type : string) :
  geometry_providers_get object_type = None
  <-> object_type <> "Vace" /\ object_type <> "Table".
Proof.
  unfold geometry_providers_get.
  destruct (String.eqb_spec object_type "Vace") as [-> | N1].
  - split; [discriminate | intros [H _]; congruence].
  - destruct (String.eqb_spec object_type "Table") as [-> | N2].
    + split; [discriminate | intros [_ H]; congruence].
    + split; [auto | reflexivity].
Qed.

(** The exceptions of [create_geometry] are a [KeyError] of the key, or
    what the builder raises. *)
Lemma create_geometry_raises
    (builder : Z -> R -> R -> R -> R -> R -> Result pyresult)
    (fallback_type : string) (now : R) (params : gmap string pyval)
    (self self' : Provider) (e : exn) :
  create_geometry builder fallback_type now params self = (Raise e, self') ->
  (exists key, e = KeyError key)
  \/ (exists a b c d f g, builder a b c d f g = Raise e).
Proof.
  unfold create_geometry.
  destruct (_create_cache_key params) as [k | e0] eqn:Hk.
  - destruct (dict_get k (_geometry_cache self)); [discriminate |].
    destruct (call_builder builder params) as [result | e1] eqn:Hcall.
    + match goal with
      | |- context [_cache_geometry ?n ?key ?gr ?s] =>
          destruct (cache_geometry_cases n key gr s) as (kept & -> & _)
      end. discriminate.
    + intros E. inversion E; subst; clear E.
      unfold call_builder, getparam in Hcall.
      repeat match type of Hcall with
             | context [params !! ?name] =>
                 destruct (params !! name);
                 [| left; eexists; simpl in Hcall; inversion Hcall; reflexivity]
             end.
      simpl in Hcall. right. eauto 10.
  - intros E. inversion E; subst; clear E.
    unfold _create_cache_key, getparam in Hk.
    repeat match type of Hk with
           | context [params !! ?name] =>
               destruct (params !! name);
               [| left; eexists; simpl in Hk; inversion Hk; reflexivity]
           end.
    simpl in Hk. discriminate.
Qed.

Lemma builders_raise_IndexError (a : Z) (b c d f g : R) (e : exn) :
  (vase_builder a b c d f g = Raise e -> e = IndexError)
  /\ (table_builder a b c d f g = Raise e -> e = IndexError).
Proof.
  split.
  - destruct (vase_builder_total a b c d f g) as (geom & x & ->). discriminate.
  - unfold table_builder.
    destruct (Table.tableGeometry a b c d f g) as [[ty geom] |].
    + discriminate.
    + intros E. now inversion E.
Qed.

Lemma provider_create_geometry_raises (c : ProviderClass) (now : R)
    (params : gmap string pyval) (self self' : Service) (e : exn)
    (object_type : string) :
  provider_create_geometry c now params self = (Raise e, self') ->
  e <> unsupported object_type.
Proof.
  unfold provider_create_geometry.
  destruct c.
  - destruct (OptimizedVaseGeometryProvider.create_geometry now params
                (vase_provider self)) as [r p] eqn:E.
    intros H. inversion H; subst; clear H.
    apply create_geometry_raises in E.
    destruct E as [[key ->] | (a & b & c & d & f & g & E)]; [discriminate |].
    apply (builders_raise_IndexError a b c d f g e) in E. subst. discriminate.
  - destruct (OptimizedTableGeometryProvider.create_geometry now params
                (table_provider self)) as [r p] eqn:E.
    intros H. inversion H; subst; clear H.
    apply create_geometry_raises in E.
    destruct E as [[key ->] | (a & b & c & d & f & g & E)]; [discriminate |].
    apply (builders_raise_IndexError a b c d f g e) in E. subst. discriminate.
Qed.

Lemma create_scene_object_raises (request : ObjectCreationRequest)
    (geometry_result : GeometryResult) (self self' : ObjectFactory) (e : exn) :
  create_scene_object request geometry_result self = (Raise e, self') ->
  e = AttributeError.
Proof.
  unfold create_scene_object.
  destruct (rev (_node_pool self)); destruct (render self);
    intros E; inversion E; reflexivity.
Qed.

Lemma update_display_raises
    (getBounds : NodePath -> option ((R * R * R) * (R * R * R)))
    (current_time cache_time : R) (object_np : NodePath)
    (geometry_result : GeometryResult) (self self' : DisplayManager) (e : exn) :
  update_display getBounds current_time cache_time object_np geometry_result self
  = (Raise e, self') ->
  e = ValueError "min() arg is an empty sequence".
Proof.
  unfold update_display.
  destruct (Rlt_dec _ _); [discriminate |].
  destruct (dict_get _ _); [discriminate |].
  unfold _cache_display_data.
  destruct (_ >=? _); [| discriminate].
  destruct (min_key _ _); [discriminate |].
  simpl. intros E. now inversion E.
Qed.

(** C9.  [create_object] raises the unsupported-object-type error exactly
    when the request's object type has no provider, that is when it is
    neither ["Vace"] nor ["Table"]; it does so before anything else: the
    providers and their caches, the scene, the display manager and the
    performance samples are left as they were. *)
Theorem C9_unsupported_object_type
    (getBounds : NodePath -> option ((R * R * R) * (R * R * R)))
    (t : Readings) (request : ObjectCreationRequest) (self : Service) :
  (fst (create_object getBounds t request self)
   = Raise (unsupported (request_object_type request))
   <-> geometry_providers_get (request_object_type request) = None)
  /\ (geometry_providers_get (request_object_type request) = None
      <-> request_object_type request <> "Vace"
          /\ request_object_type request <> "Table")
  /\ (geometry_providers_get (request_object_type request) = None ->
      create_object getBounds t request self
      = (Raise (unsupported (request_object_type request)), self)).
Proof.
  split; [| split].
  - split.
    + unfold create_object.
      destruct (geometry_providers_get (request_object_type request))
        as [c |]; [| reflexivity].
      destruct (provider_create_geometry c (provider_time t) (params request) self)
        as [[gr | e1] self1] eqn:Hgeo.
      * destruct (create_scene_object request gr (scene_factory self1))
          as [[np | e2] factory] eqn:Hscene.
        -- destruct (decide (position request = (0, 0, 0)%R)).
           ++ destruct (update_display getBounds (display_time t)
                          (display_cache_time t) np gr (display_manager self1))
                as [[[] | e3] manager] eqn:Hshow; simpl; [discriminate |].
              apply update_display_raises in Hshow. subst.
              unfold unsupported. intros E. inversion E.
           ++ simpl. discriminate.
        -- simpl. apply create_scene_object_raises in Hscene. subst.
           discriminate.
      * simpl. intros E. inversion E; subst.
        now apply (provider_create_geometry_raises _ _ _ _ _ _
                     (request_object_type request)) in Hgeo.
    + intros Hnone. unfold create_object. now rewrite Hnone.
  - apply geometry_providers_get_None.
  - intros Hnone. unfold create_object. now rewrite Hnone.
Qed.

(** * Instances *)

Lemma round_half_even_below (r : R) (z : Z) :
  (IZR z <= r < IZR z + 1 / 2)%R -> round_half_even r = z.
Proof.
  intros [Hlo Hhi]. unfold round_half_even.
  assert (Hz : z = Int_part r) by (apply Int_part_spec; lra).
  unfold frac_part. rewrite <- Hz.
  destruct (Rlt_dec (r - IZR z) (1 / 2)); [reflexivity | lra].
Qed.

(** A width of 2.501 is rounded to the key of the width 2.5. *)
Lemma widths_share_a_key :
  _create_cache_key (<["Object Width" := PFloat 2.501]> vaseDefaults)
  = Ok (segment_key 5).
Proof.
  assert (E : py_round (PFloat 2.501) 2 = py_round (PFloat 2.5) 2).
  { assert (Ha : round_half_even (2.501 * 10 ^ 2) = 250)
      by (apply round_half_even_below; simpl; lra).
    assert (Hb : round_half_even (2.5 * 10 ^ 2) = 250)
      by (apply round_half_even_below; simpl; lra).
    unfold py_round. now rewrite Ha, Hb. }
  change (Ok [("Object Width", py_round (PFloat 2.501) 2);
              ("Segment Count", PInt 5);
              ("Twist Angle", py_round (PFloat 20) 2);
              ("Twist Groove Depth", py_round (PFloat 1) 3);
              ("Vertical Wave Depth", py_round (PFloat 1) 3);
              ("Vertical Wave Frequency", py_round (PFloat 3) 2)]
          = Ok (segment_key 5)).
  unfold segment_key. now rewrite E.
Qed.

Lemma vaseDefaults_first_call (now : R) :
  exists r1 self1,
    create_geometry vase_builder "Vace" now vaseDefaults Provider_init
    = (Ok r1, self1).
Proof.
  assert (Hcall : exists result, call_builder vase_builder vaseDefaults = Ok result).
  { apply (call_builder_total vase_builder vaseDefaults (PInt 5) (PFloat 2.5)
             (PFloat 20) (PFloat 1) (PFloat 3) (PFloat 1));
      [| reflexivity ..].
    intros a b c d e f.
    destruct (vase_builder_total a b c d e f) as (geom & x & E). eauto. }
  destruct Hcall as [result Hcall].
  destruct (create_geometry_miss vase_builder "Vace" now vaseDefaults
              Provider_init (segment_key 5) result eq_refl eq_refl Hcall)
    as (kept & E & _).
  eauto.
Qed.

Lemma C4_witness :
  exists (r1 : GeometryResult) (self1 : Provider),
    _create_cache_key vaseDefaults = Ok (segment_key 5)
    /\ _create_cache_key (<["Object Width" := PFloat 2.501]> vaseDefaults)
       = Ok (segment_key 5)
    /\ create_geometry vase_builder "Vace" 1000 vaseDefaults Provider_init
       = (Ok r1, self1)
    /\ exists entry self2,
         dict_get (segment_key 5) (_geometry_cache self1) = Some entry
         /\ create_geometry vase_builder "Vace" 1000.05
              (<["Object Width" := PFloat 2.501]> vaseDefaults) self1
            = (Ok r1, self2)
         /\ _cache_hits self2 = _cache_hits self1 + 1
         /\ _cache_misses self2 = _cache_misses self1.
Proof.
  destruct (vaseDefaults_first_call 1000) as (r1 & self1 & Hfirst).
  exists r1, self1.
  split; [reflexivity |]. split; [exact widths_share_a_key |].
  split; [exact Hfirst |].
  destruct (C4_second_call_is_a_hit vase_builder "Vace" 1000 1000.05
              vaseDefaults (<["Object Width" := PFloat 2.501]> vaseDefaults)
              Provider_init self1 (segment_key 5) r1
              eq_refl widths_share_a_key Hfirst)
    as (entry & Hget & _ & Hsecond).
  destruct (Hsecond vase_builder "Vace")
    as (self2 & Hcall & Hhits & Hmisses & _).
  exists entry, self2. auto.
Defined.

Lemma Forall2_map_same {A B C : Type} (P : B -> C -> Prop) (f : A -> B)
    (g : A -> C) (l : list A) :
  (forall a, P (f a) (g a)) -> Forall2 P (map f l) (map g l).
Proof. intros H. induction l; simpl; constructor; auto. Qed.

Lemma segment_calls_distinct_keys (n : Z) :
  0 <= n ->
  List.NoDup (map segment_key (range n) ++ [segment_key n]).
Proof.
  intros Hn. change [segment_key n] with (map segment_key [n]).
  rewrite <- map_app, <- range_snoc by exact Hn.
  apply segment_keys_NoDup.
Qed.

Lemma segment_calls_built (n : Z) (call : R * gmap string pyval) :
  In call (segment_calls n ++ [(IZR n, segment_params n)]) ->
  exists result, call_builder vase_builder (snd call) = Ok result.
Proof.
  intros Hin. apply in_app_or in Hin. destruct Hin as [Hin | [<- | []]].
  - unfold segment_calls in Hin. apply in_map_iff in Hin.
    destruct Hin as [i [<- _]]. apply segment_params_built.
  - apply segment_params_built.
Qed.

Lemma C5_witness :
  Z.of_nat (length (segment_calls 128)) = GEOMETRY_CACHE_SIZE
  /\ Forall2 (fun call k => _create_cache_key (snd call) = Ok k)
       (segment_calls 128) (map segment_key (range 128))
  /\ _create_cache_key (segment_params 128) = Ok (segment_key 128)
  /\ List.NoDup (map segment_key (range 128) ++ [segment_key 128])
  /\ (forall call, In call (segment_calls 128 ++ [(128%R, segment_params 128)]) ->
        exists result, call_builder vase_builder (snd call) = Ok result)
  /\ Z.of_nat
       (length (_geometry_cache
                  (run_calls vase_builder "Vace" (segment_calls 128)
                     Provider_init))) = GEOMETRY_CACHE_SIZE
  /\ Z.of_nat
       (length (_geometry_cache
                  (snd (create_geometry vase_builder "Vace" 128
                          (segment_params 128)
                          (run_calls vase_builder "Vace" (segment_calls 128)
                             Provider_init))))) = GEOMETRY_CACHE_SIZE.
Proof.
  assert (H1 : Z.of_nat (length (segment_calls 128)) = GEOMETRY_CACHE_SIZE).
  { unfold segment_calls. rewrite length_map. reflexivity. }
  assert (H2 : Forall2 (fun call k => _create_cache_key (snd call) = Ok k)
                 (segment_calls 128) (map segment_key (range 128))).
  { unfold segment_calls. apply Forall2_map_same. intros i.
    apply segment_params_key. }
  assert (H4 : List.NoDup (map segment_key (range 128) ++ [segment_key 128]))
    by (apply segment_calls_distinct_keys; lia).
  pose proof (segment_calls_built 128) as H5.
  destruct (C5_capacity_and_eviction vase_builder "Vace" (segment_calls 128)
              (map segment_key (range 128)) 128 (segment_params 128)
              (segment_key 128) H1 H2 (segment_params_key 128) H4 H5)
    as (Hbefore & Hafter & _).
  repeat split; assumption.
Defined.


Lemma C6_witness :
  let self := DisplayManager_init (Some []) None in
  let gr := mkGeometryResult "Vase" (mkGeom [] []) 7 (Some (Fin 5)) None in
  let np := mkNodePath (mkGeomNode "object_Vace" [mkGeom [] []]) (0, 0, 0)%R 1 in
  exists self1,
    ~ (1000 - _last_update_time self < PARAMETER_UPDATE_DEBOUNCE / 1000)%R
    /\ (1000.05 - 1000 < PARAMETER_UPDATE_DEBOUNCE / 1000)%R
    /\ update_display (fun _ => None) 1000 1000.01 np gr self = (Ok tt, self1)
    /\ _last_update_time self1 = 1000%R
    /\ _pending_updates self1 = 0
    /\ ui_metrics self1 = Some [show_bounding_box_diameter (Fin 5) 7]
    /\ camera_controller self1 = None
    /\ (exists kept,
          _display_cache self1
          = dict_set (_create_display_cache_key gr)
              {| dd_ui_metrics := Some (DiameterHeight (Fin 5) 7);
                 dd_camera_distance := None;
                 dd_timestamp := Some 1000.01%R |} kept)
    /\ update_display (fun _ => None) 1000.05 1000.06 np gr self1
       = (Ok tt,
          {| ui_metrics := ui_metrics self1;
             camera_controller := camera_controller self1;
             _last_update_time := _last_update_time self1;
             _pending_updates := _pending_updates self1 + 1;
             _display_cache := _display_cache self1 |}).
Proof.
  intros self gr np.
  assert (H1 : ~ (1000 - _last_update_time self
                  < PARAMETER_UPDATE_DEBOUNCE / 1000)%R).
  { unfold self, PARAMETER_UPDATE_DEBOUNCE. simpl. lra. }
  assert (H3 : (1000.05 - 1000 < PARAMETER_UPDATE_DEBOUNCE / 1000)%R).
  { unfold PARAMETER_UPDATE_DEBOUNCE. lra. }
  destruct (C6_debounce_drop (fun _ => None) 1000 1000.01 1000.05 1000.06
              np np gr gr self H1 H3)
    as (self1 & Hrun & Hstamp & Hpending & Hshown & Hdrop).
  simpl in Hpending, Hshown.
  destruct Hshown as ((kept & Hcache & _) & Hui & Hcamera).
  exists self1. repeat split; try assumption.
  exists kept. exact Hcache.
Defined.

(** * Further properties of the mesh builders *)

Lemma vaseGeometry_vertex_count (segment_count : Z)
    (object_width twist_angle twist_groove_depth vertical_wave_freq
     vertical_wave_depth wall_thickness : R) :
  vase_vertex_count
    (Vase.vaseGeometry segment_count object_width twist_angle
       twist_groove_depth vertical_wave_freq vertical_wave_depth
       wall_thickness)
  = Some 6560.
Proof. vm_compute. reflexivity. Qed.

Lemma table_triangles_valid :
  forallb (valid_triangle 20202) TableTopology.triangles = true.
Proof. vm_compute. reflexivity. Qed.

Lemma vase_triangles_valid :
  forallb (valid_triangle 6560) VaseTopology.triangles = true.
Proof. vm_compute. reflexivity. Qed.

Lemma tableGeometry_returns (segment_count : Z)
    (object_width twist_angle twist_groove_depth vertical_wave_freq
     vertical_wave_depth : R) :
  exists object_type geom,
    Table.tableGeometry segment_count object_width twist_angle
      twist_groove_depth vertical_wave_freq vertical_wave_depth
    = Some (object_type, geom).
Proof.
  pose proof (tableGeometry_vertex_count segment_count object_width
                twist_angle twist_groove_depth vertical_wave_freq
                vertical_wave_depth) as Hcount.
  destruct (Table.tableGeometry segment_count object_width twist_angle
              twist_groove_depth vertical_wave_freq vertical_wave_depth)
    as [[object_type geom] |]; [eauto | discriminate].
Qed.

(** X1.  Every mesh [tableGeometry] returns has 20202 vertex rows, and
    each of its triangles has three distinct corners that are existing
    rows: no index is out of range and no triangle is degenerate in its
    indices. *)
Theorem X1_table_mesh_well_formed (segment_count : Z)
    (object_width twist_angle twist_groove_depth vertical_wave_freq
     vertical_wave_depth : R) (object_type : string) (geom : Geom) :
  Table.tableGeometry segment_count object_width twist_angle
    twist_groove_depth vertical_wave_freq vertical_wave_depth
  = Some (object_type, geom) ->
  Z.of_nat (length (geom_vdata geom)) = 20202
  /\ forall t, In t (geom_triangles geom) ->
       valid_triangle (Z.of_nat (length (geom_vdata geom))) t = true.
Proof.
  intros E.
  pose proof (tableGeometry_triangles segment_count object_width twist_angle
                twist_groove_depth vertical_wave_freq vertical_wave_depth)
    as Htris.
  pose proof (tableGeometry_vertex_count segment_count object_width
                twist_angle twist_groove_depth vertical_wave_freq
                vertical_wave_depth) as Hcount.
  rewrite E in Htris, Hcount.
  simpl in Htris, Hcount. inversion Htris as [Ht]. inversion Hcount as [Hc].
  split; [reflexivity |].
  rewrite Hc, Ht. intros t Hin.
  exact (proj1 (forallb_forall _ _) table_triangles_valid t Hin).
Qed.

Lemma X1_witness :
  exists object_type geom,
    Table.tableGeometry 9 1.2 10 1 4 1 = Some (object_type, geom)
    /\ Z.of_nat (length (geom_vdata geom)) = 20202
    /\ forall t, In t (geom_triangles geom) ->
         valid_triangle (Z.of_nat (length (geom_vdata geom))) t = true.
Proof.
  destruct (tableGeometry_returns 9 1.2 10 1 4 1) as (object_type & geom & E).
  exists object_type, geom. split; [exact E |].
  exact (X1_table_mesh_well_formed 9 1.2 10 1 4 1 object_type geom E).
Defined.

(** X2.  Every mesh [vaseGeometry] returns has 6560 vertex rows and
    12960 triangles, each with three distinct corners that are existing
    rows. *)
Theorem X2_vase_mesh_well_formed (segment_count : Z)
    (object_width twist_angle twist_groove_depth vertical_wave_freq
     vertical_wave_depth wall_thickness : R)
    (object_type : string) (geom : Geom) (height : R) (diameter : xfloat) :
  Vase.vaseGeometry segment_count object_width twist_angle
    twist_groove_depth vertical_wave_freq vertical_wave_depth wall_thickness
  = Some (object_type, geom, height, diameter) ->
  Z.of_nat (length (geom_vdata geom)) = 6560
  /\ Z.of_nat (length (geom_triangles geom)) = 12960
  /\ forall t, In t (geom_triangles geom) ->
       valid_triangle (Z.of_nat (length (geom_vdata geom))) t = true.
Proof.
  intros E.
  pose proof (vaseGeometry_triangles segment_count object_width twist_angle
                twist_groove_depth vertical_wave_freq vertical_wave_depth
                wall_thickness) as Htris.
  pose proof (vaseGeometry_vertex_count segment_count object_width
                twist_angle twist_groove_depth vertical_wave_freq
                vertical_wave_depth wall_thickness) as Hcount.
  rewrite E in Htris, Hcount.
  simpl in Htris, Hcount. inversion Htris as [Ht]. inversion Hcount as [Hc].
  split; [reflexivity |]. split.
  - rewrite Ht. vm_compute. reflexivity.
  - rewrite Hc, Ht. intros t Hin.
    exact (proj1 (forallb_forall _ _) vase_triangles_valid t Hin).
Qed.

Lemma X2_witness :
  exists geom diameter,
    Vase.vaseGeometry 5 2.5 20 1 3 1 Vase.wall_thickness_default
    = Some (Vase.ObjectType, geom, Vase.height, diameter)
    /\ Z.of_nat (length (geom_vdata geom)) = 6560
    /\ Z.of_nat (length (geom_triangles geom)) = 12960
    /\ forall t, In t (geom_triangles geom) ->
         valid_triangle (Z.of_nat (length (geom_vdata geom))) t = true.
Proof.
  destruct (vaseGeometry_extents 5 2.5 20 1 3 1 Vase.wall_thickness_default)
    as (geom & E & _).
  exists geom, (Fin (extent (map vx (geom_vdata geom)))).
  split; [exact E |].
  exact (X2_vase_mesh_well_formed 5 2.5 20 1 3 1 Vase.wall_thickness_default
           _ _ _ _ E).
Defined.

(** ** Radius bounds of the vase *)

Lemma Rabs_le_bounds (a b : R) : (Rabs a <= b)%R -> (- b <= a <= b)%R.
Proof. unfold Rabs. destruct (Rcase_abs a); lra. Qed.

Lemma abs_cos_sin_le (r phi : R) :
  (Rabs (r * cos phi) <= Rabs r)%R /\ (Rabs (r * sin phi) <= Rabs r)%R.
Proof.
  pose proof (COS_bound phi) as [Hc1 Hc2].
  pose proof (SIN_bound phi) as [Hs1 Hs2].
  rewrite !Rabs_mult. pose proof (Rabs_pos r) as Hr.
  assert (Rabs (cos phi) <= 1)%R by (apply Rabs_le; lra).
  assert (Rabs (sin phi) <= 1)%R by (apply Rabs_le; lra).
  split; nra.
Qed.

Section VaseRadius.
Import Vase VaseInvariant.

Variable segment_count : Z.
Variables object_width twist_angle twist_groove_depth
          vertical_wave_freq vertical_wave_depth : R.

Let outer := outer_radius segment_count object_width twist_angle
               twist_groove_depth vertical_wave_freq vertical_wave_depth.
Let inner := inner_radius segment_count object_width twist_angle
               twist_groove_depth vertical_wave_freq vertical_wave_depth
               wall_thickness_default.

(** The largest radius the modulation can reach. *)
Let reach : R :=
  (object_width + 0.06 * Rabs twist_groove_depth
   + 0.15 * Rabs vertical_wave_depth)%R.

Lemma radius_reach (phi length_ratio : R) :
  (0.25 <= object_width)%R ->
  (Rabs (outer phi length_ratio) <= reach)%R
  /\ (Rabs (inner phi length_ratio) <= reach)%R.
Proof.
  intros Hw.
  unfold outer, inner, outer_radius, inner_radius, get_surface_modulation,
    get_inner_surface_modulation, wall_thickness_default, reach. cbv zeta.
  set (c1 := cos (IZR segment_count
                  * (phi + twist_angle * 0.067 * PI * length_ratio))).
  set (c2 := cos (vertical_wave_freq * length_ratio)).
  assert (H1 : (Rabs (twist_groove_depth * 0.06 * c1)
                <= 0.06 * Rabs twist_groove_depth)%R).
  { replace (twist_groove_depth * 0.06 * c1)%R
      with ((0.06 * twist_groove_depth) * c1)%R by ring.
    destruct (abs_cos_sin_le (0.06 * twist_groove_depth)
                (IZR segment_count
                 * (phi + twist_angle * 0.067 * PI * length_ratio)))
      as [H _].
    fold c1 in H. rewrite (Rabs_mult 0.06) in H.
    rewrite (Rabs_right 0.06) in H by lra. exact H. }
  assert (H2 : (Rabs (vertical_wave_depth * 0.15 * c2)
                <= 0.15 * Rabs vertical_wave_depth)%R).
  { replace (vertical_wave_depth * 0.15 * c2)%R
      with ((0.15 * vertical_wave_depth) * c2)%R by ring.
    destruct (abs_cos_sin_le (0.15 * vertical_wave_depth)
                (vertical_wave_freq * length_ratio)) as [H _].
    fold c2 in H. rewrite (Rabs_mult 0.15) in H.
    rewrite (Rabs_right 0.15) in H by lra. exact H. }
  apply Rabs_le_bounds in H1. apply Rabs_le_bounds in H2.
  split; apply Rabs_le; lra.
Qed.

Lemma emitted_reach (v : Vertex) :
  (0.25 <= object_width)%R ->
  emitted segment_count object_width twist_angle twist_groove_depth
    vertical_wave_freq vertical_wave_depth wall_thickness_default v ->
  (- reach <= vx v <= reach)%R /\ (- reach <= vy v <= reach)%R.
Proof.
  intros Hw (i & lr & b & _ & [Hx Hy] & _).
  destruct (radius_reach (angle_of i) lr Hw) as [Ho Hi].
  assert (Hr : (Rabs ((if b then inner_radius segment_count object_width
                                      twist_angle twist_groove_depth
                                      vertical_wave_freq vertical_wave_depth
                                      wall_thickness_default
                       else outer_radius segment_count object_width
                              twist_angle twist_groove_depth
                              vertical_wave_freq vertical_wave_depth)
                        (angle_of i) lr) <= reach)%R)
    by (destruct b; assumption).
  rewrite Hx, Hy.
  match type of Hr with
  | (Rabs ?r <= _)%R =>
      destruct (abs_cos_sin_le r (angle_of i)) as [Hc Hs]
  end.
  apply Rabs_le_bounds in Hc. apply Rabs_le_bounds in Hs. split; lra.
Qed.
End VaseRadius.

Lemma extent_bounds (l : list R) (lo hi : R) :
  l <> [] ->
  (forall x, In x l -> (lo <= x <= hi)%R) ->
  (0 <= extent l <= hi - lo)%R.
Proof.
  intros Hne Hall.
  assert (Hmax : In (MaxRlist l) l).
  { apply MaxRlist_P2. destruct l as [| x l]; [congruence |]. exists x. now left. }
  pose proof (MinRlist_In l Hne) as Hmin.
  pose proof (MinRlist_P1 l (MaxRlist l) Hmax).
  pose proof (Hall _ Hmax). pose proof (Hall _ Hmin).
  unfold extent. lra.
Qed.

Lemma extent_attained (l : list R) (lo hi : R) :
  In lo l -> In hi l ->
  (forall x, In x l -> (lo <= x <= hi)%R) ->
  extent l = (hi - lo)%R.
Proof.
  intros Hlo Hhi Hall. unfold extent.
  rewrite (MaxRlist_char l hi Hhi), (MinRlist_char l lo Hlo);
    [reflexivity | |]; intros x Hx; apply (Hall x Hx).
Qed.

(** X3.  With both modulation depths 0 the two shells are cylinders: the
    outer radius is the width and the inner radius the width minus 0.5 at
    every angle and height, and (for a width of at least 0.25) the stored
    diameter is twice the width. *)
Theorem X3_plain_vase_diameter (segment_count : Z)
    (object_width twist_angle vertical_wave_freq : R) :
  (0.25 <= object_width)%R ->
  (forall phi length_ratio,
      Vase.get_surface_modulation segment_count object_width twist_angle 0
        vertical_wave_freq 0 phi length_ratio = object_width
      /\ Vase.get_inner_surface_modulation segment_count object_width
           twist_angle 0 vertical_wave_freq 0 Vase.wall_thickness_default
           phi length_ratio = (object_width - 0.5)%R)
  /\ exists gr,
       built_vase_result segment_count object_width twist_angle 0
         vertical_wave_freq 0 = Ok gr
       /\ diameter gr = Some (Fin (2 * object_width)).
Proof.
  intros Hw.
  assert (Hradius : forall phi length_ratio,
      Vase.get_surface_modulation segment_count object_width twist_angle 0
        vertical_wave_freq 0 phi length_ratio = object_width
      /\ Vase.get_inner_surface_modulation segment_count object_width
           twist_angle 0 vertical_wave_freq 0 Vase.wall_thickness_default
           phi length_ratio = (object_width - 0.5)%R).
  { intros phi lr.
    unfold Vase.get_surface_modulation, Vase.get_inner_surface_modulation,
      Vase.wall_thickness_default. cbv zeta. split; lra. }
  split; [exact Hradius |].
  destruct (vaseGeometry_extents segment_count object_width twist_angle 0
              vertical_wave_freq 0 Vase.wall_thickness_default)
    as (geom & E & _ & Hshape & Hrows).
  exists (_extract_result
            (Tuple4 Vase.ObjectType geom Vase.height
               (Fin (extent (map vx (geom_vdata geom))))) "Vace").
  split.
  - unfold built_vase_result, vase_builder. now rewrite E.
  - simpl. f_equal. f_equal.
    rewrite List.Forall_forall in Hshape.
    assert (H0 : 0 <= 0 < Vase.segments) by (unfold Vase.segments; lia).
    assert (H20 : 0 <= 20 < Vase.segments) by (unfold Vase.segments; lia).
    assert (E20 : vx (VaseInvariant.top_outer_row segment_count object_width
                        twist_angle 0 vertical_wave_freq 0 20)
                  = (- object_width)%R).
    { unfold VaseInvariant.top_outer_row, VaseInvariant.outer_radius.
      cbv zeta. cbn [vx]. rewrite (proj1 (Hradius _ _)).
      unfold VaseInvariant.angle_of, Vase.segments.
      replace (2 * PI * 20 / 40)%R with PI by lra. rewrite cos_PI. lra. }
    assert (E0 : vx (VaseInvariant.top_outer_row segment_count object_width
                       twist_angle 0 vertical_wave_freq 0 0)
                 = object_width).
    { unfold VaseInvariant.top_outer_row, VaseInvariant.outer_radius.
      cbv zeta. cbn [vx]. rewrite (proj1 (Hradius _ _)).
      unfold VaseInvariant.angle_of, Vase.segments.
      replace (2 * PI * 0 / 40)%R with 0%R by lra. rewrite cos_0. lra. }
    pose proof (in_map vx _ _ (Hrows 20 H20)) as Hin20. rewrite E20 in Hin20.
    pose proof (in_map vx _ _ (Hrows 0 H0)) as Hin0. rewrite E0 in Hin0.
    rewrite (extent_attained _ (- object_width) object_width Hin20 Hin0);
      [lra |].
    intros x Hx. apply in_map_iff in Hx. destruct Hx as [v [<- Hv]].
    pose proof (emitted_reach segment_count object_width twist_angle 0
                  vertical_wave_freq 0 v Hw (Hshape v Hv)) as [Hx _].
    rewrite Rabs_R0 in Hx. lra.
Qed.

Lemma X3_witness :
  (0.25 <= 2.5)%R
  /\ Vase.get_surface_modulation 5 2.5 20 0 3 0 0 1 = 2.5%R
  /\ Vase.get_inner_surface_modulation 5 2.5 20 0 3 0
       Vase.wall_thickness_default 0 1 = (2.5 - 0.5)%R
  /\ exists gr,
       built_vase_result 5 2.5 20 0 3 0 = Ok gr
       /\ diameter gr = Some (Fin (2 * 2.5)).
Proof.
  assert (H : (0.25 <= 2.5)%R) by lra.
  destruct (X3_plain_vase_diameter 5 2.5 20 3 H) as [Hradius Hdiameter].
  destruct (Hradius 0%R 1%R) as [Ho Hi].
  auto.
Defined.

(** * Further properties of the providers *)

Lemma dict_get_del_ne {K V : Type} `{EqDecision K} (k k' : K) (d : dict K V) :
  k <> k' -> dict_get k' (dict_del k d) = dict_get k' d.
Proof.
  intros N. induction d as [| [k0 v0] d IH]; simpl; [reflexivity |].
  destruct (decide (k = k0)) as [E | N0]; simpl.
  - subst k0. destruct (decide (k' = k)); congruence.
  - destruct (decide (k' = k0)); [reflexivity | exact IH].
Qed.

Lemma dict_get_In {K V : Type} `{EqDecision K} (k : K) (v : V) (d : dict K V) :
  dict_get k d = Some v -> In (k, v) d.
Proof.
  induction d as [| [k0 v0] d IH]; simpl; [discriminate |].
  destruct (decide (k = k0)) as [-> | N].
  - intros E. inversion E. now left.
  - intros E. right. now apply IH.
Qed.

Lemma dict_get_In_wf {K V : Type} `{EqDecision K} (k : K) (v : V)
    (d : dict K V) :
  dict_wf d -> In (k, v) d -> dict_get k d = Some v.
Proof.
  unfold dict_wf. induction d as [| [k0 v0] d IH]; simpl; [intros _ [] |].
  intros Hwf Hin. apply List.NoDup_cons_iff in Hwf. destruct Hwf as [Hk0 Hwf].
  destruct (decide (k = k0)) as [-> | N].
  - destruct Hin as [E | Hin]; [congruence |].
    exfalso. apply Hk0. apply in_map_iff. exists (k0, v). auto.
  - destruct Hin as [E | Hin]; [congruence | auto].
Qed.





(** X8.  A miss on a cache that is not full evicts nothing: the entries
    stay as they are, in order, and the new entry, with access count 0
    and the clock reading as timestamp, is put last; the miss count
    grows by one and the result stored is the result returned. *)
Theorem X8_miss_with_room
    (builder : Z -> R -> R -> R -> R -> R -> Result pyresult)
    (fallback_type : string) (now : R) (params : gmap string pyval)
    (self : Provider) (k : CacheKey) (result : pyresult) :
  Z.of_nat (length (_geometry_cache self)) < GEOMETRY_CACHE_SIZE ->
  _create_cache_key params = Ok k ->
  dict_get k (_geometry_cache self) = None ->
  call_builder builder params = Ok result ->
  create_geometry builder fallback_type now params self
  = (Ok (_extract_result result fallback_type),
     {| _geometry_cache :=
          _geometry_cache self
          ++ [(k, mkCachedGeometry (_extract_result result fallback_type)
                    now 0)];
        _cache_hits := _cache_hits self;
        _cache_misses := _cache_misses self + 1 |}).
Proof.
  intros Hroom Hk Hget Hres.
  destruct (create_geometry_miss builder fallback_type now params self k
              result Hk Hget Hres) as (kept & -> & Hkept).
  destruct Hkept as [[_ ->] | [Hfull _]]; [| lia].
  now rewrite (dict_set_new k _ _ Hget).
Qed.

Lemma X8_witness :
  exists result,
    create_geometry vase_builder "Vace" 1000 vaseDefaults Provider_init
    = (Ok (_extract_result result "Vace"),
       {| _geometry_cache :=
            [(segment_key 5,
              mkCachedGeometry (_extract_result result "Vace") 1000 0)];
          _cache_hits := 0;
          _cache_misses := 1 |}).
Proof.
  destruct (segment_params_built 5) as [result Hres].
  exists result.
  apply (X8_miss_with_room vase_builder "Vace" 1000 vaseDefaults Provider_init
           (segment_key 5) result).
  - unfold GEOMETRY_CACHE_SIZE. simpl. lia.
  - reflexivity.
  - reflexivity.
  - exact Hres.
Defined.

Lemma dict_get_at {K V : Type} `{EqDecision K} (k : K) (v : V)
    (l1 l2 : dict K V) :
  ~ In k (map fst l1) -> dict_get k (l1 ++ (k, v) :: l2) = Some v.
Proof.
  induction l1 as [| [k0 v0] l1 IH]; simpl; intros Hk.
  - destruct (decide (k = k)); congruence.
  - destruct (decide (k = k0)) as [E | N]; [exfalso; apply Hk; left; congruence |].
    apply IH. tauto.
Qed.

(** An entry that is strictly newer than some other entry is not the one
    [min] picks. *)
Lemma min_key_not_newer (d : dict CacheKey CachedGeometry)
    (ko k1 k2 : CacheKey) (c1 c2 : CachedGeometry) :
  dict_wf d ->
  min_key timestamp d = Some ko ->
  dict_get k1 d = Some c1 ->
  dict_get k2 d = Some c2 ->
  (timestamp c2 < timestamp c1)%R ->
  ko <> k1.
Proof.
  intros Hwf Hmin H1 H2 Hlt E. subst k1.
  destruct (min_key_first timestamp d ko Hmin) as (l1 & vo & l2 & Ed & Hl1 & Hl2).
  assert (Hko : ~ In ko (map fst l1)).
  { unfold dict_wf in Hwf. rewrite Ed, map_app in Hwf. simpl in Hwf.
    apply List.NoDup_remove_2 in Hwf. rewrite in_app_iff in Hwf. tauto. }
  assert (Evo : c1 = vo).
  { rewrite Ed, (dict_get_at ko vo l1 l2 Hko) in H1. congruence. }
  subst vo.
  apply dict_get_In in H2. rewrite Ed in H2. apply in_app_or in H2.
  destruct H2 as [H2 | [H2 | H2]].
  - specialize (Hl1 _ H2). simpl in Hl1. lra.
  - inversion H2. subst. lra.
  - specialize (Hl2 _ H2). simpl in Hl2. lra.
Qed.

(** X7.  Recency protects an entry: on a miss, an entry whose timestamp
    is strictly greater than that of some other entry of the cache is
    still there afterwards, unchanged, whether the cache was full or
    not.  (Only an entry no other entry is older than can be evicted.) *)
Theorem X7_newer_entry_survives
    (builder : Z -> R -> R -> R -> R -> R -> Result pyresult)
    (fallback_type : string) (now : R) (params : gmap string pyval)
    (self : Provider) (k : CacheKey) (result : pyresult)
    (k1 k2 : CacheKey) (c1 c2 : CachedGeometry) :
  dict_wf (_geometry_cache self) ->
  _create_cache_key params = Ok k ->
  dict_get k (_geometry_cache self) = None ->
  call_builder builder params = Ok result ->
  dict_get k1 (_geometry_cache self) = Some c1 ->
  dict_get k2 (_geometry_cache self) = Some c2 ->
  (timestamp c2 < timestamp c1)%R ->
  dict_get k1
    (_geometry_cache
       (snd (create_geometry builder fallback_type now params self)))
  = Some c1.
Proof.
  intros Hwf Hk Hget Hres H1 H2 Hlt.
  destruct (create_geometry_miss builder fallback_type now params self k
              result Hk Hget Hres) as (kept & -> & Hkept).
  simpl.
  assert (Hne : k <> k1) by (intros E; subst k1; congruence).
  rewrite (dict_get_set_ne k k1 _ kept Hne).
  destruct Hkept as [[_ ->] | [_ (ko & Hmin & ->)]]; [exact H1 |].
  rewrite dict_get_del_ne; [exact H1 |].
  exact (min_key_not_newer _ ko k1 k2 c1 c2 Hwf Hmin H1 H2 Hlt).
Qed.

Lemma sample_cache_keys (n : Z) :
  map fst (sample_cache n) = map segment_key (range n).
Proof. unfold sample_cache. rewrite map_map. reflexivity. Qed.

Lemma sample_cache_wf (n : Z) : dict_wf (sample_cache n).
Proof.
  unfold dict_wf. rewrite sample_cache_keys. apply segment_keys_NoDup.
Qed.

Lemma sample_cache_get (n i : Z) :
  0 <= i < n ->
  dict_get (segment_key i) (sample_cache n)
  = Some (mkCachedGeometry sample_result (IZR i) 0).
Proof.
  intros Hi. apply dict_get_In_wf; [apply sample_cache_wf |].
  unfold sample_cache. apply in_map_iff. exists i.
  split; [reflexivity | now apply In_range].
Qed.

Lemma sample_cache_fresh (n i : Z) :
  n <= i -> dict_get (segment_key i) (sample_cache n) = None.
Proof.
  intros Hi. apply dict_get_None_keys. rewrite sample_cache_keys.
  intros Hin. apply in_map_iff in Hin. destruct Hin as (j & E & Hj).
  apply range_In in Hj. unfold segment_key in E.
  assert (j = i) by congruence. lia.
Qed.

Lemma X7_witness :
  dict_get (segment_key 5)
    (_geometry_cache
       (snd (create_geometry vase_builder "Vace" 128 (segment_params 128)
               (sample_provider 128))))
  = Some (mkCachedGeometry sample_result 5 0).
Proof.
  destruct (segment_params_built 128) as [result Hres].
  apply (X7_newer_entry_survives vase_builder "Vace" 128 (segment_params 128)
           (sample_provider 128) (segment_key 128) result
           (segment_key 5) (segment_key 0)
           (mkCachedGeometry sample_result 5 0)
           (mkCachedGeometry sample_result 0 0)).
  - apply sample_cache_wf.
  - reflexivity.
  - apply sample_cache_fresh. lia.
  - exact Hres.
  - apply (sample_cache_get 128 5). lia.
  - apply (sample_cache_get 128 0). lia.
  - simpl. lra.
Defined.

(** * Further properties of the factory, the display manager and the
    service *)

(** ** The node pool *)

Lemma create_scene_object_pool (request : ObjectCreationRequest)
    (geometry_result : GeometryResult) (self : ObjectFactory) :
  let self' := snd (create_scene_object request geometry_result self) in
  (length (_node_pool self') <= length (_node_pool self))%nat
  /\ _pool_size self' = _pool_size self.
Proof.
  cbv zeta. unfold create_scene_object.
  destruct (rev (_node_pool self)) as [| last before] eqn:Hrev.
  - destruct (render self); simpl; split; (lia || reflexivity).
  - assert (Hlen : length (_node_pool self) = S (length before)).
    { rewrite <- length_rev, Hrev. reflexivity. }
    destruct (render self); simpl; rewrite length_rev; split;
      (lia || reflexivity).
Qed.

(** X9.  The pool of recycled nodes never holds more than 32 nodes,
    whatever sequence of [recycle_node] and [create_scene_object] calls
    the factory of the application receives; a node recycled into a full
    pool is dropped. *)
Theorem X9_node_pool_bound (children : list NodePath) (ops : list FactoryOp) :
  Z.of_nat (length (_node_pool
                      (run_factory ops
                         (attach_render children ObjectFactory_init))))
  <= 32.
Proof.
  assert (Hgen : forall ops self,
             _pool_size self = 32 ->
             Z.of_nat (length (_node_pool self)) <= 32 ->
             Z.of_nat (length (_node_pool (run_factory ops self))) <= 32).
  { clear. induction ops as [| op ops IH]; intros self Hsize Hlen; simpl.
    - exact Hlen.
    - apply IH.
      + destruct op as [n | request gr]; simpl.
        * unfold recycle_node. destruct (_ <? _); assumption.
        * rewrite (proj2 (create_scene_object_pool request gr self)).
          exact Hsize.
      + destruct op as [n | request gr]; simpl.
        * unfold recycle_node.
          destruct (Z.of_nat (length (_node_pool self)) <? _pool_size self)
            eqn:Hroom; [| exact Hlen].
          apply Z.ltb_lt in Hroom. simpl. rewrite length_app. simpl. lia.
        * pose proof (proj1 (create_scene_object_pool request gr self)). lia. }
  apply Hgen; simpl; lia.
Qed.

(** X10.  Recycle, then create: when the pool has room and the scene
    root is attached, the node just recycled is the one the next
    [create_scene_object] takes.  The new object keeps the recycled
    node's name (not [object_<type>] of the request), holds the new
    geometry and nothing of what the node held before, sits at the
    requested position and scale, is attached last under the scene
    root, and the pool is as it was before the recycling. *)
Theorem X10_recycled_node_is_reused (n : GeomNode)
    (request : ObjectCreationRequest) (geometry_result : GeometryResult)
    (self : ObjectFactory) (children : list NodePath) :
  Z.of_nat (length (_node_pool self)) < _pool_size self ->
  render self = Some children ->
  let object_np :=
    {| node := {| node_name := node_name n;
                  geoms := [geometry geometry_result] |};
       np_pos := position request; np_scale := scale request |} in
  create_scene_object request geometry_result (recycle_node n self)
  = (Ok object_np,
     {| render := Some (children ++ [object_np]);
        _node_pool := _node_pool self;
        _pool_size := _pool_size self |}).
Proof.
  intros Hroom Hrender. cbv zeta. unfold recycle_node.
  apply Z.ltb_lt in Hroom. rewrite Hroom.
  unfold create_scene_object. simpl.
  rewrite rev_app_distr. simpl. rewrite rev_involutive, Hrender. reflexivity.
Qed.

Lemma X10_witness :
  create_scene_object
    (mkRequest vaseDefaults "Vace" (0, 0, 0)%R 1)
    sample_result
    (recycle_node (mkGeomNode "object_Table" [mkGeom [] [(0, 1, 2)]])
       (attach_render [] ObjectFactory_init))
  = (Ok {| node := {| node_name := "object_Table";
                      geoms := [geometry sample_result] |};
           np_pos := (0, 0, 0)%R; np_scale := 1 |},
     {| render :=
          Some [ {| node := {| node_name := "object_Table";
                               geoms := [geometry sample_result] |};
                    np_pos := (0, 0, 0)%R; np_scale := 1 |} ];
        _node_pool := [];
        _pool_size := 32 |}).
Proof.
  apply (X10_recycled_node_is_reused
           (mkGeomNode "object_Table" [mkGeom [] [(0, 1, 2)]])
           (mkRequest vaseDefaults "Vace" (0, 0, 0)%R 1)
           sample_result (attach_render [] ObjectFactory_init) []).
  - simpl. lia.
  - reflexivity.
Defined.

(** ** The display cache *)

Lemma cache_display_data_length (now : R) (key : DisplayKey)
    (data : DisplayData) (cache : dict DisplayKey DisplayData) :
  exists stamped cache',
    _cache_display_data now key data cache = Ok (stamped, cache')
    /\ Z.of_nat (length cache')
       <= Z.max (Z.of_nat (length cache)) DISPLAY_CACHE_SIZE.
Proof.
  destruct (cache_display_data_cases now key data cache)
    as (kept & E & Hkept).
  eexists. eexists. split; [exact E |].
  match goal with
  | |- context [dict_set ?k ?v kept] =>
      pose proof (dict_set_length_le k v kept) as Hset
  end.
  destruct Hkept as [[Hroom ->] | [Hfull (ko & Hmin & ->)]]; [lia |].
  pose proof (dict_del_length_in ko cache (min_key_in _ _ _ Hmin)). lia.
Qed.

Lemma apply_display_data_cache (data : DisplayData) (self : DisplayManager) :
  _display_cache (_apply_display_data data self) = _display_cache self.
Proof. reflexivity. Qed.

Lemma update_display_ok
    (getBounds : NodePath -> option ((R * R * R) * (R * R * R)))
    (current_time cache_time : R) (object_np : NodePath)
    (geometry_result : GeometryResult) (self : DisplayManager) :
  fst (update_display getBounds current_time cache_time object_np
         geometry_result self) = Ok tt.
Proof.
  unfold update_display.
  destruct (Rlt_dec _ _) as [Hlt | Hge]; [reflexivity |].
  cbn [_display_cache].
  destruct (dict_get _ (_display_cache self)) as [cached |]; [reflexivity |].
  match goal with
  | |- context [_cache_display_data ?now ?key ?data ?cache] =>
      destruct (cache_display_data_length now key data cache)
        as (stamped & cache' & -> & Hlen)
  end.
  reflexivity.
Qed.

(** X11.  [update_display] never raises: the [min] over the display
    cache is only taken when the cache holds at least 64 entries, so is
    never taken over an empty cache.  And it never makes the display
    cache larger than 64 entries (or than it already was). *)
Theorem X11_update_display_total
    (getBounds : NodePath -> option ((R * R * R) * (R * R * R)))
    (current_time cache_time : R) (object_np : NodePath)
    (geometry_result : GeometryResult) (self : DisplayManager) :
  let out := update_display getBounds current_time cache_time object_np
               geometry_result self in
  fst out = Ok tt
  /\ Z.of_nat (length (_display_cache (snd out)))
     <= Z.max (Z.of_nat (length (_display_cache self))) DISPLAY_CACHE_SIZE.
Proof.
  cbv zeta. unfold update_display.
  destruct (Rlt_dec _ _) as [Hlt | Hge]; [simpl; split; [reflexivity | lia] |].
  cbn [_display_cache].
  destruct (dict_get _ (_display_cache self)) as [cached |].
  - simpl. split; [reflexivity | lia].
  - match goal with
    | |- context [_cache_display_data ?now ?key ?data ?cache] =>
        destruct (cache_display_data_length now key data cache)
          as (stamped & cache' & -> & Hlen)
    end.
    simpl. split; [reflexivity | exact Hlen].
Qed.

(** X12.  Display data computed while no camera controller is attached
    stays without a camera distance in the cache.  If a first update is
    applied on a manager with no camera controller (as for the object
    [MainApp] builds at start-up) and its key was not cached, then after
    the controller is attached an update for a result with the same key
    makes no [set_optimal_view] call: the controller has received
    nothing. *)
Theorem X12_cached_without_camera
    (getBounds : NodePath -> option ((R * R * R) * (R * R * R)))
    (t1 c1 t2 c2 : R) (np1 np2 : NodePath) (geometry_result : GeometryResult)
    (self : DisplayManager) (camera : list CameraCall) :
  camera_controller self = None ->
  ~ (t1 - _last_update_time self < PARAMETER_UPDATE_DEBOUNCE / 1000)%R ->
  dict_get (_create_display_cache_key geometry_result) (_display_cache self)
  = None ->
  let self1 := snd (update_display getBounds t1 c1 np1 geometry_result self) in
  let self2 := snd (update_display getBounds t2 c2 np2 geometry_result
                      (attach_camera camera self1)) in
  camera_controller self2 = Some camera.
Proof.
  intros Hcam Hge Hmiss. cbv zeta.
  assert (Hfirst :
    exists stamped,
      dd_camera_distance stamped = None
      /\ dict_get (_create_display_cache_key geometry_result)
           (_display_cache
              (snd (update_display getBounds t1 c1 np1 geometry_result self)))
         = Some stamped).
  { unfold update_display.
    destruct (Rlt_dec _ _) as [Hlt | _]; [contradiction |].
    cbn [_display_cache]. rewrite Hmiss.
    match goal with
    | |- context [_cache_display_data ?now ?key ?data ?cache] =>
        destruct (cache_display_data_cases now key data cache)
          as (kept & -> & _)
    end.
    eexists. split; [| simpl; apply dict_get_set_eq].
    simpl. rewrite Hcam. reflexivity. }
  destruct Hfirst as (stamped & Hnone & Hget).
  set (self1 := snd (update_display getBounds t1 c1 np1 geometry_result self))
    in *.
  clearbody self1.
  unfold update_display.
  destruct (Rlt_dec _ _) as [Hlt | _]; [reflexivity |].
  cbn [_display_cache attach_camera]. rewrite Hget.
  unfold _apply_display_data. simpl. rewrite Hnone. reflexivity.
Qed.

Lemma X12_witness :
  camera_controller
    (snd (update_display (fun _ => None) 2000 2000
            (mkNodePath (mkGeomNode "object_Vace" []) (0, 0, 0)%R 1)
            sample_result
            (attach_camera []
               (snd (update_display (fun _ => None) 1000 1000
                       (mkNodePath (mkGeomNode "object_Vace" []) (0, 0, 0)%R 1)
                       sample_result
                       (DisplayManager_init (Some []) None))))))
  = Some [].
Proof.
  apply (X12_cached_without_camera (fun _ => None) 1000 1000 2000 2000
           (mkNodePath (mkGeomNode "object_Vace" []) (0, 0, 0)%R 1)
           (mkNodePath (mkGeomNode "object_Vace" []) (0, 0, 0)%R 1)
           sample_result (DisplayManager_init (Some []) None) []).
  - reflexivity.
  - unfold PARAMETER_UPDATE_DEBOUNCE. simpl. lra.
  - reflexivity.
Defined.

(** ** Table results and the display cache key *)

Lemma built_table_result_shape (segment_count : Z) (object_width twist_angle
    twist_groove_depth vertical_wave_freq vertical_wave_depth : R)
    (gr : GeometryResult) :
  built_table_result segment_count object_width twist_angle
    twist_groove_depth vertical_wave_freq vertical_wave_depth = Ok gr ->
  object_type gr = "Table" /\ height gr = 2%R /\ diameter gr = None.
Proof.
  unfold built_table_result, table_builder, Table.tableGeometry.
  destruct (Table.build _ _ _ _ _ _ Table.initial) as [[u s] |]; simpl;
    intros E; inversion E. now subst.
Qed.

Lemma tableGeometry_type (segment_count : Z) (object_width twist_angle
    twist_groove_depth vertical_wave_freq vertical_wave_depth : R)
    (ty : string) (geom : Geom) :
  Table.tableGeometry segment_count object_width twist_angle
    twist_groove_depth vertical_wave_freq vertical_wave_depth
  = Some (ty, geom) ->
  ty = Table.ObjectType.
Proof.
  unfold Table.tableGeometry.
  destruct (Table.build _ _ _ _ _ _ Table.initial) as [[u s] |]; simpl;
    intros E; inversion E. reflexivity.
Qed.

Lemma table_builder_total (segment_count : Z) (object_width twist_angle
    twist_groove_depth vertical_wave_freq vertical_wave_depth : R) :
  exists geom,
    table_builder segment_count object_width twist_angle twist_groove_depth
      vertical_wave_freq vertical_wave_depth
    = Ok (Tuple2 Table.ObjectType geom).
Proof.
  pose proof (tableGeometry_vertex_count segment_count object_width
                twist_angle twist_groove_depth vertical_wave_freq
                vertical_wave_depth) as Hcount.
  unfold table_builder.
  destruct (Table.tableGeometry segment_count object_width twist_angle
              twist_groove_depth vertical_wave_freq vertical_wave_depth)
    as [[ty geom] |] eqn:E; [| discriminate].
  apply tableGeometry_type in E. subst ty. eauto.
Qed.

(** X13.  Every table result has the same display cache key (type
    Table, height 2.0, no diameter), whatever its parameters.  So when
    an applied update has computed and cached the dimension readout of
    one table, the next applied update for a table, of whatever
    parameters and bounds, shows that first table's bounds again, not
    the bounds of the object it is given. *)
Theorem X13_table_readout_is_reused
    (getBounds : NodePath -> option ((R * R * R) * (R * R * R)))
    (sc1 sc2 : Z) (w1 a1 g1 f1 d1 w2 a2 g2 f2 d2 : R)
    (gr1 gr2 : GeometryResult)
    (t1 c1 t2 c2 : R) (np1 np2 : NodePath) (self : DisplayManager)
    (calls : list UICall) (min_x min_y min_z max_x max_y max_z : R) :
  built_table_result sc1 w1 a1 g1 f1 d1 = Ok gr1 ->
  built_table_result sc2 w2 a2 g2 f2 d2 = Ok gr2 ->
  ui_metrics self = Some calls ->
  dict_get (_create_display_cache_key gr1) (_display_cache self) = None ->
  ~ (t1 - _last_update_time self < PARAMETER_UPDATE_DEBOUNCE / 1000)%R ->
  ~ (t2 - t1 < PARAMETER_UPDATE_DEBOUNCE / 1000)%R ->
  getBounds np1 = Some ((min_x, min_y, min_z), (max_x, max_y, max_z)) ->
  _create_display_cache_key gr1 = _create_display_cache_key gr2
  /\ ui_metrics
       (snd (update_display getBounds t2 c2 np2 gr2
               (snd (update_display getBounds t1 c1 np1 gr1 self))))
     = Some (calls
             ++ [show_bounding_box_bounds (max_x - min_x) (max_z - min_z)
                   (max_y - min_y);
                 show_bounding_box_bounds (max_x - min_x) (max_z - min_z)
                   (max_y - min_y)])%R.
Proof.
  intros H1 H2 Hui Hmiss Hge1 Hge2 Hb.
  destruct (built_table_result_shape _ _ _ _ _ _ _ H1) as (Ty1 & Hh1 & Hd1).
  destruct (built_table_result_shape _ _ _ _ _ _ _ H2) as (Ty2 & Hh2 & Hd2).
  assert (Hkey : _create_display_cache_key gr1 = _create_display_cache_key gr2).
  { unfold _create_display_cache_key. now rewrite Ty1, Ty2, Hh1, Hh2, Hd1, Hd2. }
  split; [exact Hkey |].
  assert (Hfirst :
    let self1 := snd (update_display getBounds t1 c1 np1 gr1 self) in
    ui_metrics self1
    = Some (calls ++ [show_bounding_box_bounds (max_x - min_x) (max_z - min_z)
                        (max_y - min_y)])%R
    /\ _last_update_time self1 = t1
    /\ exists stamped,
         dd_ui_metrics stamped
         = Some (Bounds (max_x - min_x) (max_z - min_z) (max_y - min_y))%R
         /\ dict_get (_create_display_cache_key gr1) (_display_cache self1)
            = Some stamped).
  { cbv zeta. unfold update_display.
    destruct (Rlt_dec _ _) as [Hlt | _]; [contradiction |].
    cbn [_display_cache]. rewrite Hmiss.
    match goal with
    | |- context [_cache_display_data ?now ?key ?data ?cache] =>
        destruct (cache_display_data_cases now key data cache)
          as (kept & -> & _)
    end.
    unfold _calculate_display_data, _apply_display_data. simpl.
    rewrite Hui, Hd1, Hb. simpl.
    split; [reflexivity |]. split; [reflexivity |].
    eexists. split; [| apply dict_get_set_eq]. reflexivity. }
  cbv zeta in Hfirst. destruct Hfirst as (Hui1 & Hlast & stamped & Hst & Hget).
  set (self1 := snd (update_display getBounds t1 c1 np1 gr1 self)) in *.
  clearbody self1.
  unfold update_display. rewrite Hlast.
  destruct (Rlt_dec _ _) as [Hlt | _]; [contradiction |].
  cbn [_display_cache]. rewrite <- Hkey, Hget.
  unfold _apply_display_data. simpl. rewrite Hui1, Hst.
  rewrite <- app_assoc. reflexivity.
Qed.

Lemma X13_witness :
  exists gr1 gr2,
    _create_display_cache_key gr1 = _create_display_cache_key gr2
    /\ ui_metrics
         (snd (update_display
                 (fun np => if decide (np_scale np = 1%R)
                            then Some ((-1, -1, -1), (1, 1, 1))%R
                            else Some ((-3, -3, -1), (3, 3, 1))%R)
                 2000 2000
                 (mkNodePath (mkGeomNode "object_Table" []) (0, 0, 0)%R 2) gr2
                 (snd (update_display
                         (fun np => if decide (np_scale np = 1%R)
                                    then Some ((-1, -1, -1), (1, 1, 1))%R
                                    else Some ((-3, -3, -1), (3, 3, 1))%R)
                         1000 1000
                         (mkNodePath (mkGeomNode "object_Table" [])
                            (0, 0, 0)%R 1) gr1
                         (DisplayManager_init (Some []) None)))))
       = Some ([] ++ [show_bounding_box_bounds (1 - -1) (1 - -1) (1 - -1);
                      show_bounding_box_bounds (1 - -1) (1 - -1) (1 - -1)])%R.
Proof.
  destruct (table_builder_total 9 1.2 10 1 4 1) as [geom1 E1].
  destruct (table_builder_total 9 3 10 1 4 1) as [geom2 E2].
  exists (_extract_result (Tuple2 Table.ObjectType geom1) "Table"),
         (_extract_result (Tuple2 Table.ObjectType geom2) "Table").
  apply (X13_table_readout_is_reused _ 9 9 1.2 10 1 4 1 3 10 1 4 1).
  - unfold built_table_result. rewrite E1. reflexivity.
  - unfold built_table_result. rewrite E2. reflexivity.
  - reflexivity.
  - reflexivity.
  - unfold PARAMETER_UPDATE_DEBOUNCE. simpl. lra.
  - unfold PARAMETER_UPDATE_DEBOUNCE. lra.
  - simpl. destruct (decide (1 = 1)%R); [reflexivity | congruence].
Defined.

(** ** The service *)

Lemma first_missing_None (params : gmap string pyval) :
  first_missing params = None ->
  exists v1 v2 v3 v4 v5 v6,
    getparam params "Segment Count" = Ok v1
    /\ getparam params "Object Width" = Ok v2
    /\ getparam params "Twist Angle" = Ok v3
    /\ getparam params "Twist Groove Depth" = Ok v4
    /\ getparam params "Vertical Wave Frequency" = Ok v5
    /\ getparam params "Vertical Wave Depth" = Ok v6.
Proof.
  unfold first_missing, parameter_names, getparam. simpl find.
  repeat match goal with
         | |- context [params !! ?n] => destruct (params !! n)
         end; try discriminate.
  intros _. repeat eexists.
Qed.

(** With all six parameters present and a builder that always returns,
    [create_geometry] returns a result. *)
Lemma create_geometry_ok
    (builder : Z -> R -> R -> R -> R -> R -> Result pyresult)
    (fallback_type : string) (now : R) (params : gmap string pyval)
    (self : Provider) :
  (forall a b c d e f, exists result, builder a b c d e f = Ok result) ->
  first_missing params = None ->
  exists gr self',
    create_geometry builder fallback_type now params self = (Ok gr, self').
Proof.
  intros Htotal Hall.
  destruct (first_missing_None params Hall)
    as (v1 & v2 & v3 & v4 & v5 & v6 & E1 & E2 & E3 & E4 & E5 & E6).
  destruct (call_builder_total builder params v1 v2 v3 v4 v5 v6 Htotal
              E1 E2 E3 E4 E5 E6) as [result Hres].
  assert (Hk : exists k, _create_cache_key params = Ok k).
  { unfold _create_cache_key. rewrite E1, E2, E3, E4, E5, E6. simpl.
    eexists. reflexivity. }
  destruct Hk as [k Hk].
  destruct (dict_get k (_geometry_cache self)) as [cached |] eqn:Hget.
  - rewrite (create_geometry_hit builder fallback_type now params self k
               cached Hk Hget). eauto.
  - destruct (create_geometry_miss builder fallback_type now params self k
                result Hk Hget Hres) as (kept & -> & _). eauto.
Qed.

Lemma builders_total (c : ProviderClass) :
  forall a b c0 d e f,
    exists result,
      match c with
      | VaseProvider => vase_builder
      | TableProvider => table_builder
      end a b c0 d e f = Ok result.
Proof.
  intros a b c0 d e f. destruct c.
  - destruct (vase_builder_total a b c0 d e f) as (geom & x & E). eauto.
  - destruct (table_builder_total a b c0 d e f) as (geom & E). eauto.
Qed.

(** A provider call touches the provider only. *)
Lemma provider_create_geometry_frame (c : ProviderClass) (now : R)
    (params : gmap string pyval) (self : Service) :
  let self1 := snd (provider_create_geometry c now params self) in
  scene_factory self1 = scene_factory self
  /\ display_manager self1 = display_manager self
  /\ _creation_times self1 = _creation_times self
  /\ _total_creations self1 = _total_creations self.
Proof.
  cbv zeta. unfold provider_create_geometry.
  destruct c;
    match goal with
    | |- context [let '(r, p) := ?call in _] => destruct call as [r p]
    end; simpl; auto.
Qed.

Lemma provider_create_geometry_ok (c : ProviderClass) (now : R)
    (params : gmap string pyval) (self : Service) :
  first_missing params = None ->
  exists gr self1,
    provider_create_geometry c now params self = (Ok gr, self1).
Proof.
  intros Hall. unfold provider_create_geometry,
    OptimizedVaseGeometryProvider.create_geometry,
    OptimizedTableGeometryProvider.create_geometry.
  destruct c.
  - destruct (create_geometry_ok vase_builder "Vace" now params
                (vase_provider self) (builders_total VaseProvider) Hall)
      as (gr & p & ->). eauto.
  - destruct (create_geometry_ok table_builder "Table" now params
                (table_provider self) (builders_total TableProvider) Hall)
      as (gr & p & ->). eauto.
Qed.

(** X14.  Once the provider has returned a result, nothing else in
    [create_object] can fail if the scene root is attached: neither the
    factory nor the display manager raises.  The call returns a scene
    object that holds exactly the provider's mesh, sits at the requested
    position and scale and is the last child of the scene root, and the
    creation is counted. *)
Theorem X14_create_object_succeeds
    (getBounds : NodePath -> option ((R * R * R) * (R * R * R)))
    (t : Readings) (request : ObjectCreationRequest) (self self1 : Service)
    (c : ProviderClass) (geometry_result : GeometryResult)
    (children : list NodePath) :
  geometry_providers_get (request_object_type request) = Some c ->
  provider_create_geometry c (provider_time t) (params request) self
  = (Ok geometry_result, self1) ->
  render (scene_factory self) = Some children ->
  exists object_np,
    fst (create_object getBounds t request self) = Ok object_np
    /\ geoms (node object_np) = [geometry geometry_result]
    /\ np_pos object_np = position request
    /\ np_scale object_np = scale request
    /\ render (scene_factory (snd (create_object getBounds t request self)))
       = Some (children ++ [object_np])
    /\ _total_creations (snd (create_object getBounds t request self))
       = _total_creations self + 1.
Proof.
  intros Hc Hgeo Hrender. unfold create_object. rewrite Hc.
  pose proof (provider_create_geometry_frame c (provider_time t)
                (params request) self) as Hframe.
  cbv zeta in Hframe. rewrite Hgeo in Hframe. simpl in Hframe.
  destruct Hframe as (Hf & _ & _ & Htot).
  rewrite Hgeo. unfold create_scene_object. rewrite Hf, Hrender.
  destruct (rev (_node_pool (scene_factory self))) as [| last before];
    cbn [fst snd].
  - destruct (decide (position request = (0, 0, 0)%R)).
    + match goal with
      | |- context [update_display ?g ?a ?b ?np ?gr ?m] =>
          pose proof (update_display_ok g a b np gr m) as Hshow;
          destruct (update_display g a b np gr m) as [shown manager]
      end.
      simpl in Hshow. subst shown. simpl.
      eexists. repeat split; try reflexivity. lia.
    + simpl. eexists. repeat split; try reflexivity. lia.
  - destruct (decide (position request = (0, 0, 0)%R)).
    + match goal with
      | |- context [update_display ?g ?a ?b ?np ?gr ?m] =>
          pose proof (update_display_ok g a b np gr m) as Hshow;
          destruct (update_display g a b np gr m) as [shown manager]
      end.
      simpl in Hshow. subst shown. simpl.
      eexists. repeat split; try reflexivity. lia.
    + simpl. eexists. repeat split; try reflexivity. lia.
Qed.

Lemma X14_witness :
  exists geometry_result object_np,
    fst (create_object (fun _ => None) (mkReadings 10 11 12 13 14)
           (mkRequest tableDefaults "Table" (0, 0, 0)%R 1)
           (Service_init (attach_render [] ObjectFactory_init)
              (DisplayManager_init (Some []) None)))
    = Ok object_np
    /\ geoms (node object_np) = [geometry geometry_result]
    /\ np_pos object_np = (0, 0, 0)%R
    /\ np_scale object_np = 1%R
    /\ render (scene_factory
                 (snd (create_object (fun _ => None) (mkReadings 10 11 12 13 14)
                         (mkRequest tableDefaults "Table" (0, 0, 0)%R 1)
                         (Service_init (attach_render [] ObjectFactory_init)
                            (DisplayManager_init (Some []) None)))))
       = Some ([] ++ [object_np])
    /\ _total_creations
         (snd (create_object (fun _ => None) (mkReadings 10 11 12 13 14)
                 (mkRequest tableDefaults "Table" (0, 0, 0)%R 1)
                 (Service_init (attach_render [] ObjectFactory_init)
                    (DisplayManager_init (Some []) None))))
       = 0 + 1.
Proof.
  destruct (provider_create_geometry_ok TableProvider 11 tableDefaults
              (Service_init (attach_render [] ObjectFactory_init)
                 (DisplayManager_init (Some []) None)) eq_refl)
    as (geometry_result & self1 & Hgeo).
  exists geometry_result.
  apply (X14_create_object_succeeds (fun _ => None) (mkReadings 10 11 12 13 14)
           (mkRequest tableDefaults "Table" (0, 0, 0)%R 1)
           (Service_init (attach_render [] ObjectFactory_init)
              (DisplayManager_init (Some []) None))
           self1 TableProvider geometry_result []);
    [reflexivity | exact Hgeo | reflexivity].
Defined.

(** What one [create_object] call does to the timing samples. *)
Lemma create_object_samples
    (getBounds : NodePath -> option ((R * R * R) * (R * R * R)))
    (t : Readings) (request : ObjectCreationRequest) (self : Service) :
  let out := create_object getBounds t request self in
  match fst out with
  | Ok _ =>
      _total_creations (snd out) = _total_creations self + 1
      /\ _creation_times (snd out)
         = (let times := _creation_times self
                         ++ [(end_time t - start_time t)%R] in
            if Z.of_nat (length times) >? 100 then tl times else times)
  | Raise _ =>
      _total_creations (snd out) = _total_creations self
      /\ _creation_times (snd out) = _creation_times self
  end.
Proof.
  cbv zeta. unfold create_object.
  destruct (geometry_providers_get (request_object_type request)) as [c |];
    [| simpl; auto].
  pose proof (provider_create_geometry_frame c (provider_time t)
                (params request) self) as Hframe.
  cbv zeta in Hframe.
  destruct (provider_create_geometry c (provider_time t) (params request) self)
    as [[gr | e1] self1]; simpl in Hframe;
    destruct Hframe as (_ & _ & Htimes & Htot); [| simpl; auto].
  destruct (create_scene_object request gr (scene_factory self1))
    as [[np | e2] factory]; [| simpl; auto].
  destruct (decide (position request = (0, 0, 0)%R)).
  - destruct (update_display getBounds (display_time t) (display_cache_time t)
                np gr (display_manager self1)) as [[[] | e3] manager];
      simpl; rewrite ?Htimes, ?Htot; auto.
  - simpl. rewrite Htimes, Htot. auto.
Qed.

(** X15.  The timing samples of the service.  A call that returns
    counts one creation and appends its duration (end reading minus
    start reading) after the samples held, which keep their order; if
    100 samples were held already, the oldest (the first) is dropped, so
    the list never grows beyond 100 (or beyond what it already held).  A
    call that raises records nothing and is not counted. *)
Theorem X15_creation_samples
    (getBounds : NodePath -> option ((R * R * R) * (R * R * R)))
    (t : Readings) (request : ObjectCreationRequest) (self : Service) :
  let out := create_object getBounds t request self in
  Z.of_nat (length (_creation_times (snd out)))
  <= Z.max (Z.of_nat (length (_creation_times self))) 100
  /\ match fst out with
     | Ok _ =>
         _total_creations (snd out) = _total_creations self + 1
         /\ _creation_times (snd out)
            = (if Z.of_nat (length (_creation_times self)) >=? 100
               then tl (_creation_times self)
               else _creation_times self)
              ++ [(end_time t - start_time t)%R]
     | Raise _ =>
         _total_creations (snd out) = _total_creations self
         /\ _creation_times (snd out) = _creation_times self
     end.
Proof.
  cbv zeta.
  pose proof (create_object_samples getBounds t request self) as H.
  cbv zeta in H.
  destruct (fst (create_object getBounds t request self)) as [np | e];
    destruct H as [Htot Htimes]; rewrite Htimes.
  - rewrite length_app. cbn [length].
    destruct (Z.of_nat (length (_creation_times self) + 1) >? 100)
      eqn:Hlong.
    + apply Z.gtb_lt in Hlong.
      assert (Hfull : (Z.of_nat (length (_creation_times self)) >=? 100) = true)
        by (apply Z.geb_le; lia).
      rewrite Hfull.
      destruct (_creation_times self) as [| x l] eqn:El;
        [simpl in Hlong; lia |].
      split; [| split; [exact Htot | reflexivity]].
      simpl. rewrite length_app. simpl. lia.
    + rewrite Z.gtb_ltb in Hlong. apply Z.ltb_ge in Hlong.
      assert (Hroom : (Z.of_nat (length (_creation_times self)) >=? 100) = false).
      { rewrite Z.geb_leb. apply Z.leb_gt. lia. }
      rewrite Hroom.
      split; [| split; [exact Htot | reflexivity]].
      rewrite length_app. simpl. lia.
  - split; [lia | split; [exact Htot | reflexivity]].
Qed.

(** X16.  Only an object placed at the origin is shown as the main
    object: for a request whose position is not (0, 0, 0), as for the
    favourites placed beside the middle of their row, [create_object]
    leaves the display manager as it was (no readout, no camera call, no
    debounce state, no display cache entry), whatever the outcome. *)
Theorem X16_side_objects_skip_display
    (getBounds : NodePath -> option ((R * R * R) * (R * R * R)))
    (t : Readings) (request : ObjectCreationRequest) (self : Service) :
  position request <> (0, 0, 0)%R ->
  display_manager (snd (create_object getBounds t request self))
  = display_manager self.
Proof.
  intros Hpos. unfold create_object.
  destruct (geometry_providers_get (request_object_type request)) as [c |];
    [| reflexivity].
  pose proof (provider_create_geometry_frame c (provider_time t)
                (params request) self) as Hframe.
  cbv zeta in Hframe.
  destruct (provider_create_geometry c (provider_time t) (params request) self)
    as [[gr | e1] self1]; simpl in Hframe;
    destruct Hframe as (_ & Hdm & _ & _); [| exact Hdm].
  destruct (create_scene_object request gr (scene_factory self1))
    as [[np | e2] factory]; [| exact Hdm].
  destruct (decide (position request = (0, 0, 0)%R)); [contradiction |].
  exact Hdm.
Qed.

Lemma X16_witness :
  display_manager
    (snd (create_object (fun _ => None) (mkReadings 10 11 12 13 14)
            (mkRequest vaseDefaults "Vace" (4, 0, 0)%R 1)
            (Service_init (attach_render [] ObjectFactory_init)
               (DisplayManager_init (Some []) None))))
  = DisplayManager_init (Some []) None.
Proof.
  apply (X16_side_objects_skip_display (fun _ => None)
           (mkReadings 10 11 12 13 14)
           (mkRequest vaseDefaults "Vace" (4, 0, 0)%R 1)
           (Service_init (attach_render [] ObjectFactory_init)
              (DisplayManager_init (Some []) None))).
  simpl. intros E. inversion E. lra.
Defined.

(** ** Performance statistics *)

(** X17.  [get_performance_stats] is the empty dict exactly when no
    sample has been recorded.  Otherwise its minimum and maximum are
    samples, every sample lies between them, [recent_creations] is the
    number of samples held and [total_creations] the creation
    counter. *)
Theorem X17_performance_stats (self : Service) :
  match get_performance_stats self with
  | None => _creation_times self = []
  | Some stats =>
      _creation_times self <> []
      /\ In (min_creation_time stats) (_creation_times self)
      /\ In (max_creation_time stats) (_creation_times self)
      /\ (forall x, In x (_creation_times self) ->
            min_creation_time stats <= x <= max_creation_time stats)%R
      /\ recent_creations stats = Z.of_nat (length (_creation_times self))
      /\ total_creations stats = _total_creations self
  end.
Proof.
  unfold get_performance_stats.
  destruct (_creation_times self) as [| x l] eqn:El; [reflexivity |].
  cbn [min_creation_time max_creation_time recent_creations total_creations].
  assert (Hne : x :: l <> []) by congruence.
  split; [exact Hne |].
  split; [apply MinRlist_In; exact Hne |].
  split; [apply MaxRlist_P2; exists x; now left |].
  split; [| split; reflexivity].
  intros y Hy. split; [now apply MinRlist_P1 | now apply MaxRlist_P1].
Qed.

(** * Parameter changes, the favourites row and the camera *)

Lemma on_parameters_change_merged (current_time : R)
    (params : gmap string pyval) (self : MainAppState) :
  let self' := fst (_on_parameters_change current_time params self) in
  _pending_parameter_updates self' ∪ current_params self'
  = params ∪ (_pending_parameter_updates self ∪ current_params self).
Proof.
  cbv zeta. unfold _on_parameters_change.
  destruct (Rlt_dec _ _); simpl.
  - now rewrite (assoc_L (∪)).
  - now rewrite (left_id_L ∅ (∪)), (assoc_L (∪)).
Qed.

(** X18.  No parameter change is lost by the debouncing of
    [_on_parameters_change]: after any sequence of changes, at any clock
    readings, the pending updates laid over the current parameters are
    the parameters one gets by applying every change in order: what a
    dropped change sets is kept in the pending updates until the next
    change that is applied. *)
Theorem X18_no_change_is_lost (changes : list (R * gmap string pyval))
    (self : MainAppState) :
  let self' := run_changes changes self in
  _pending_parameter_updates self' ∪ current_params self'
  = apply_all changes (_pending_parameter_updates self ∪ current_params self).
Proof.
  cbv zeta. revert self.
  induction changes as [| [t p] changes IH]; intros self; simpl.
  - reflexivity.
  - unfold run_changes in IH. rewrite IH.
    now rewrite on_parameters_change_merged.
Qed.

(** X19.  A change that comes less than 100 ms after the last applied
    one leaves the current parameters alone and rebuilds nothing; a
    later change that is applied rebuilds once, with parameters that
    carry the dropped change as well (the later change winning where
    both set a name), and leaves nothing pending. *)
Theorem X19_dropped_change_is_applied_later (t1 t2 : R)
    (p1 p2 : gmap string pyval) (self : MainAppState) :
  (t1 - _last_parameter_update_time self < PARAMETER_UPDATE_DEBOUNCE / 1000)%R ->
  ~ (t2 - _last_parameter_update_time self < PARAMETER_UPDATE_DEBOUNCE / 1000)%R ->
  let '(self1, build1) := _on_parameters_change t1 p1 self in
  let '(self2, build2) := _on_parameters_change t2 p2 self1 in
  build1 = None
  /\ current_params self1 = current_params self
  /\ build2 = Some (current_params self2)
  /\ current_params self2
     = p2 ∪ (p1 ∪ (_pending_parameter_updates self ∪ current_params self))
  /\ _pending_parameter_updates self2 = ∅
  /\ _last_parameter_update_time self2 = t2.
Proof.
  intros Hlt Hge. unfold _on_parameters_change.
  destruct (Rlt_dec _ _) as [_ | N]; [| contradiction]. simpl.
  destruct (Rlt_dec _ _) as [H | _]; [contradiction |].
  repeat split; try reflexivity.
  now rewrite !(assoc_L (∪)).
Qed.

Lemma X19_witness :
  let '(self1, build1) :=
    _on_parameters_change (1 / 20) {["Object Width" := PFloat 3]}
      MainApp_init in
  let '(self2, build2) :=
    _on_parameters_change 1 {["Twist Angle" := PFloat 40]} self1 in
  build1 = None
  /\ current_params self1 = current_params MainApp_init
  /\ build2 = Some (current_params self2)
  /\ current_params self2
     = {["Twist Angle" := PFloat 40]}
       ∪ ({["Object Width" := PFloat 3]}
          ∪ (_pending_parameter_updates MainApp_init
             ∪ current_params MainApp_init))
  /\ _pending_parameter_updates self2 = ∅
  /\ _last_parameter_update_time self2 = 1%R.
Proof.
  apply (X19_dropped_change_is_applied_later (1 / 20) 1
           {["Object Width" := PFloat 3]} {["Twist Angle" := PFloat 40]}
           MainApp_init).
  - unfold PARAMETER_UPDATE_DEBOUNCE. simpl. lra.
  - unfold PARAMETER_UPDATE_DEBOUNCE. simpl. lra.
Defined.

(** X20.  The favourites row: neighbours are 4 apart, the row is
    symmetric about the origin, the camera target computed for index
    [i] is the position of favourite [i], and a favourite stands exactly
    at the origin (the position [create_object] treats as that of the
    main object) if and only if the number of favourites is odd and it
    is the middle one. *)
Theorem X20_favorites_row (total_favorites i : Z) :
  favorite_target total_favorites i = favorite_position total_favorites i
  /\ (fst (fst (favorite_position total_favorites (i + 1)))
      - fst (fst (favorite_position total_favorites i)) = 4)%R
  /\ (fst (fst (favorite_position total_favorites (total_favorites - 1 - i)))
      = - fst (fst (favorite_position total_favorites i)))%R
  /\ (favorite_position total_favorites i = (0, 0, 0)%R
      <-> 2 * i + 1 = total_favorites).
Proof.
  unfold favorite_target, favorite_position, favorites_start_x,
    favorites_spacing. simpl.
  split; [reflexivity |].
  split; [rewrite plus_IZR; lra |].
  split; [rewrite !minus_IZR; lra |].
  split.
  - intros E. inversion E as [Hx].
    apply eq_IZR. rewrite plus_IZR, mult_IZR. lra.
  - intros E. subst total_favorites. rewrite plus_IZR, mult_IZR.
    f_equal. f_equal. lra.
Qed.

(** X21.  The favourites arrows: with at least one favourite the index
    after [_favorites_prev] or [_favorites_next] is a valid index
    whatever it was before, and from a valid index each arrow undoes the
    other; the last favourite is followed by the first. *)
Theorem X21_favorites_arrows (total_favorites i : Z) :
  0 < total_favorites ->
  0 <= _favorites_next total_favorites i < total_favorites
  /\ 0 <= _favorites_prev total_favorites i < total_favorites
  /\ (0 <= i < total_favorites ->
      _favorites_prev total_favorites (_favorites_next total_favorites i) = i
      /\ _favorites_next total_favorites (_favorites_prev total_favorites i)
         = i)
  /\ _favorites_next total_favorites (total_favorites - 1) = 0
  /\ _favorites_prev total_favorites 0 = total_favorites - 1.
Proof.
  intros Hn. unfold _favorites_next, _favorites_prev.
  assert (E : (total_favorites =? 0) = false) by (apply Z.eqb_neq; lia).
  rewrite E.
  split; [apply Z.mod_pos_bound; lia |].
  split; [apply Z.mod_pos_bound; lia |].
  split; [| split].
  - intros Hi. split.
    + rewrite Zminus_mod_idemp_l.
      replace (i + 1 - 1) with i by lia. apply Z.mod_small. lia.
    + rewrite Zplus_mod_idemp_l.
      replace (i - 1 + 1) with i by lia. apply Z.mod_small. lia.
  - replace (total_favorites - 1 + 1) with (1 * total_favorites) by lia.
    apply Z.mod_mul. lia.
  - replace (0 - 1) with (total_favorites - 1 + (-1) * total_favorites) by lia.
    rewrite Z.mod_add by lia. apply Z.mod_small. lia.
Qed.

Lemma X21_witness :
  0 <= _favorites_next 3 2 < 3
  /\ 0 <= _favorites_prev 3 2 < 3
  /\ (0 <= 2 < 3 ->
      _favorites_prev 3 (_favorites_next 3 2) = 2
      /\ _favorites_next 3 (_favorites_prev 3 2) = 2)
  /\ _favorites_next 3 (3 - 1) = 0
  /\ _favorites_prev 3 0 = 3 - 1.
Proof.
  apply (X21_favorites_arrows 3 2). lia.
Defined.

(** ** The orbit camera *)

Lemma radians_le (a b : R) : (a <= b)%R -> (radians a <= radians b)%R.
Proof.
  intros H. unfold radians. pose proof PI_RGT_0.
  apply Rmult_le_compat_r; [lra |].
  apply Rmult_le_compat_r; lra.
Qed.

Lemma clamp_range (lo hi x : R) :
  (lo <= hi)%R -> (lo <= Rmax lo (Rmin hi x) <= hi)%R.
Proof.
  intros H. split; [apply Rmax_l |].
  apply Rmax_lub; [exact H | apply Rmin_l].
Qed.

Lemma pitch_range (degrees : R) :
  (-85 <= degrees <= 85)%R ->
  (OrbitCamera._min_pitch <= radians degrees <= OrbitCamera._max_pitch)%R.
Proof.
  intros [H1 H2]. unfold OrbitCamera._min_pitch, OrbitCamera._max_pitch.
  split; now apply radians_le.
Qed.

Lemma pitch_bounds_ordered :
  (OrbitCamera._min_pitch <= OrbitCamera._max_pitch)%R.
Proof.
  unfold OrbitCamera._min_pitch, OrbitCamera._max_pitch.
  apply radians_le. lra.
Qed.

Lemma camera_ok_init : camera_ok OrbitCamera.init.
Proof.
  unfold camera_ok, OrbitCamera.init, OrbitCamera._update_camera. simpl.
  split; [unfold OrbitCamera._min_dist, OrbitCamera._max_dist; lra |].
  split; [apply pitch_range; lra | reflexivity].
Qed.

Lemma camera_ok_step (self : OrbitCamera.State) (e : OrbitCamera.Event) :
  camera_ok self -> camera_ok (OrbitCamera.step self e).
Proof.
  intros (Hd & Hp & Hpos). unfold camera_ok.
  assert (Hdist : (OrbitCamera._min_dist <= OrbitCamera._max_dist)%R)
    by (unfold OrbitCamera._min_dist, OrbitCamera._max_dist; lra).
  destruct e as [mouse | | | | mouse | target_pos | h | h d |]; simpl.
  - unfold OrbitCamera._start_drag. destruct mouse; simpl; auto.
  - auto.
  - split; [| split; [exact Hp | reflexivity]].
    split; [apply Rmax_l |]. apply Rmax_lub; [exact Hdist |].
    unfold OrbitCamera._zoom_step, OrbitCamera._min_dist,
      OrbitCamera._max_dist in *. lra.
  - split; [| split; [exact Hp | reflexivity]].
    split; [| apply Rmin_l]. apply Rmin_glb; [exact Hdist |].
    unfold OrbitCamera._zoom_step, OrbitCamera._min_dist,
      OrbitCamera._max_dist in *. lra.
  - unfold OrbitCamera._mouse_task.
    destruct (OrbitCamera._dragging self); [| auto].
    destruct mouse as [[x y] |]; [| auto].
    destruct (OrbitCamera._last_mouse self) as [[last_x last_y] |]; simpl.
    + split; [exact Hd |].
      split; [apply clamp_range, pitch_bounds_ordered | reflexivity].
    + auto.
  - split; [exact Hd |]. split; [exact Hp | reflexivity].
  - split; [apply clamp_range; exact Hdist |].
    split; [exact Hp | reflexivity].
  - unfold OrbitCamera.set_optimal_view.
    destruct (OrbitCamera.diameter_truthy d) as [dv |]; simpl.
    + destruct (float_truthy h); simpl.
      * destruct (Rlt_dec 2 (h / dv)); [| destruct (Rlt_dec (h / dv) 0.5)];
          simpl;
          (split; [apply clamp_range; exact Hdist |]);
          (split; [apply pitch_range; lra | reflexivity]).
      * split; [apply clamp_range; exact Hdist |].
        split; [exact Hp | reflexivity].
    + split; [apply clamp_range; exact Hdist |].
      split; [exact Hp | reflexivity].
  - split; [unfold OrbitCamera._min_dist, OrbitCamera._max_dist; lra |].
    split; [apply pitch_range; lra | reflexivity].
Qed.

(** X22.  Whatever events the orbit camera receives after its creation
    (drags, wheel steps, mouse moves, new targets, optimal or default
    views), its distance stays between 5 and 80, its pitch between -85
    and 85 degrees, and the position given to the camera is the one
    [_update_camera] computes from the current target, distance, yaw
    and pitch: no method changes one of them without moving the
    camera. *)
Theorem X22_orbit_camera_invariant (events : list OrbitCamera.Event) :
  let self := OrbitCamera.run events OrbitCamera.init in
  (5 <= OrbitCamera._distance self <= 80)%R
  /\ (radians (-85) <= OrbitCamera._pitch self <= radians 85)%R
  /\ OrbitCamera.camera_pos self = OrbitCamera.orbit_position self.
Proof.
  cbv zeta.
  assert (Hgen : forall events self,
             camera_ok self -> camera_ok (OrbitCamera.run events self)).
  { clear. induction events as [| e events IH]; intros self Hok; simpl.
    - exact Hok.
    - apply IH. now apply camera_ok_step. }
  exact (Hgen events OrbitCamera.init camera_ok_init).
Qed.

(** X23.  [set_optimal_view] sets the distance to 3.5 times the larger
    of height and diameter (the height alone when no diameter or a zero
    diameter is given), kept between 10 and 80, whatever the distance
    was before: the lower clamp at the minimum distance 5 never acts
    here.  Target and yaw are untouched, and the pitch becomes 30, 15
    or 25 degrees or stays as it was. *)
Theorem X23_optimal_view (object_height : R) (object_diameter : option R)
    (self : OrbitCamera.State) :
  let self' := OrbitCamera.set_optimal_view object_height object_diameter
                 self in
  OrbitCamera._distance self'
  = Rmin 80 (Rmax 10 (OrbitCamera.size_factor object_height object_diameter
                      * 3.5))
  /\ (10 <= OrbitCamera._distance self' <= 80)%R
  /\ OrbitCamera._target self' = OrbitCamera._target self
  /\ OrbitCamera._yaw self' = OrbitCamera._yaw self
  /\ (OrbitCamera._pitch self' = radians 30
      \/ OrbitCamera._pitch self' = radians 15
      \/ OrbitCamera._pitch self' = radians 25
      \/ OrbitCamera._pitch self' = OrbitCamera._pitch self).
Proof.
  cbv zeta.
  assert (Hd : OrbitCamera._distance
                 (OrbitCamera.set_optimal_view object_height object_diameter
                    self)
               = Rmax OrbitCamera._min_dist
                   (Rmin OrbitCamera._max_dist
                      (Rmax 10 (OrbitCamera.size_factor object_height
                                  object_diameter * 3.5)))).
  { unfold OrbitCamera.set_optimal_view.
    destruct (OrbitCamera.diameter_truthy object_diameter) as [dv |];
      [| reflexivity].
    destruct (float_truthy object_height); [| reflexivity].
    destruct (Rlt_dec 2 (object_height / dv));
      [| destruct (Rlt_dec (object_height / dv) 0.5)]; reflexivity. }
  set (opt := Rmax 10 (OrbitCamera.size_factor object_height object_diameter
                       * 3.5)) in *.
  assert (Hopt : (10 <= opt)%R) by apply Rmax_l.
  assert (Hmin : (10 <= Rmin 80 opt <= 80)%R).
  { split; [apply Rmin_glb; lra | apply Rmin_l]. }
  assert (Hd' : OrbitCamera._distance
                  (OrbitCamera.set_optimal_view object_height object_diameter
                     self) = Rmin 80 opt).
  { rewrite Hd. unfold OrbitCamera._min_dist, OrbitCamera._max_dist.
    apply Rmax_right. lra. }
  split; [exact Hd' |]. split; [rewrite Hd'; exact Hmin |].
  unfold OrbitCamera.set_optimal_view.
  destruct (OrbitCamera.diameter_truthy object_diameter) as [dv |];
    [| cbn; auto 6].
  destruct (float_truthy object_height); [| cbn; auto 6].
  destruct (Rlt_dec 2 (object_height / dv));
    [| destruct (Rlt_dec (object_height / dv) 0.5)]; cbn; auto 6.
Qed.

(** ** The performance monitor *)

(** X24.  [end_measurement] after [start_measurement] of the same name
    returns the time between the two readings and forgets the name, so
    that ending it a second time returns 0.0; other names are not
    affected.  A name never started gives 0.0 and changes nothing. *)
Theorem X24_measurement_round_trip (t0 t1 t2 : R) (name other : string)
    (self : PerformanceMonitor) :
  let '(duration, self1) :=
    end_measurement t1 name (start_measurement t0 name self) in
  duration = (t1 - t0)%R
  /\ measurements self1 !! name = None
  /\ end_measurement t2 name self1 = (0%R, self1)
  /\ (other <> name ->
      measurements self1 !! other = measurements self !! other)
  /\ (measurements self !! name = None ->
      end_measurement t1 name self = (0%R, self)).
Proof.
  unfold end_measurement, start_measurement. cbn [measurements].
  rewrite lookup_insert_eq. cbn [measurements].
  rewrite lookup_delete_eq.
  split; [reflexivity |].
  split; [reflexivity |].
  split; [reflexivity |].
  split.
  - intros Hne. rewrite lookup_delete_ne, lookup_insert_ne by congruence.
    reflexivity.
  - intros ->. reflexivity.
Qed.

(** * Vases within the slider ranges *)

(** Both radii stay within the modulation depths of the base radius. *)
Lemma radius_bounds (segment_count : Z)
    (object_width twist_angle twist_groove_depth vertical_wave_freq
     vertical_wave_depth wall_thickness phi length_ratio : R) :
  let m := (0.06 * Rabs twist_groove_depth
            + 0.15 * Rabs vertical_wave_depth)%R in
  (object_width - m
   <= Vase.get_surface_modulation segment_count object_width twist_angle
        twist_groove_depth vertical_wave_freq vertical_wave_depth
        phi length_ratio
   <= object_width + m)%R
  /\ (object_width - wall_thickness - m
      <= Vase.get_inner_surface_modulation segment_count object_width
           twist_angle twist_groove_depth vertical_wave_freq
           vertical_wave_depth wall_thickness phi length_ratio
      <= object_width - wall_thickness + m)%R.
Proof.
  cbv zeta.
  unfold Vase.get_surface_modulation, Vase.get_inner_surface_modulation.
  cbv zeta.
  set (c1 := cos (IZR segment_count
                  * (phi + twist_angle * 0.067 * PI * length_ratio))).
  set (c2 := cos (vertical_wave_freq * length_ratio)).
  assert (H1 : (Rabs (twist_groove_depth * 0.06 * c1)
                <= 0.06 * Rabs twist_groove_depth)%R).
  { replace (twist_groove_depth * 0.06 * c1)%R
      with ((0.06 * twist_groove_depth) * c1)%R by ring.
    destruct (abs_cos_sin_le (0.06 * twist_groove_depth)
                (IZR segment_count
                 * (phi + twist_angle * 0.067 * PI * length_ratio)))
      as [H _].
    fold c1 in H. rewrite (Rabs_mult 0.06) in H.
    rewrite (Rabs_right 0.06) in H by lra. exact H. }
  assert (H2 : (Rabs (vertical_wave_depth * 0.15 * c2)
                <= 0.15 * Rabs vertical_wave_depth)%R).
  { replace (vertical_wave_depth * 0.15 * c2)%R
      with ((0.15 * vertical_wave_depth) * c2)%R by ring.
    destruct (abs_cos_sin_le (0.15 * vertical_wave_depth)
                (vertical_wave_freq * length_ratio)) as [H _].
    fold c2 in H. rewrite (Rabs_mult 0.15) in H.
    rewrite (Rabs_right 0.15) in H by lra. exact H. }
  apply Rabs_le_bounds in H1. apply Rabs_le_bounds in H2.
  split; split; lra.
Qed.

Lemma extent_ge (l : list R) (lo hi : R) :
  In lo l -> In hi l -> (hi - lo <= extent l)%R.
Proof.
  intros Hlo Hhi. unfold extent.
  pose proof (MaxRlist_P1 l hi Hhi). pose proof (MinRlist_P1 l lo Hlo). lra.
Qed.

(** X25.  For every vase the sliders can ask for (width 2 to 3, groove
    depth and wave depth 0 to 5; any segment count, twist and wave
    frequency) the wall is sound at every angle and height, with room
    to spare for rounding: the inner radius is at least 0.4, so
    positive, the outer radius exceeds it by between 0.49 and 0.51, and
    is at most 4.1. *)
Theorem X25_slider_vase_wall (segment_count : Z)
    (object_width twist_angle twist_groove_depth vertical_wave_freq
     vertical_wave_depth phi length_ratio : R) :
  (2 <= object_width <= 3)%R ->
  (0 <= twist_groove_depth <= 5)%R ->
  (0 <= vertical_wave_depth <= 5)%R ->
  let outer :=
    Vase.get_surface_modulation segment_count object_width twist_angle
      twist_groove_depth vertical_wave_freq vertical_wave_depth
      phi length_ratio in
  let inner :=
    Vase.get_inner_surface_modulation segment_count object_width twist_angle
      twist_groove_depth vertical_wave_freq vertical_wave_depth
      Vase.wall_thickness_default phi length_ratio in
  (0.4 <= inner)%R /\ (0.49 <= outer - inner <= 0.51)%R /\ (outer <= 4.1)%R.
Proof.
  intros Hw Hg Hd. cbv zeta.
  pose proof (radius_bounds segment_count object_width twist_angle
                twist_groove_depth vertical_wave_freq vertical_wave_depth
                Vase.wall_thickness_default phi length_ratio) as H.
  cbv zeta in H. rewrite !Rabs_right in H by lra.
  unfold Vase.wall_thickness_default in *.
  destruct H as [Ho Hi].
  split; [lra |]. split; [| lra].
  unfold Vase.get_surface_modulation, Vase.get_inner_surface_modulation.
  cbv zeta. lra.
Qed.

Lemma X25_witness :
  let outer := Vase.get_surface_modulation 5 2.5 20 1 3 1 0 1 in
  let inner :=
    Vase.get_inner_surface_modulation 5 2.5 20 1 3 1
      Vase.wall_thickness_default 0 1 in
  (0.4 <= inner)%R /\ (0.49 <= outer - inner <= 0.51)%R /\ (outer <= 4.1)%R.
Proof.
  apply (X25_slider_vase_wall 5 2.5 20 1 3 1 0 1); lra.
Defined.

(** X26.  From the sliders to the camera: for every vase the sliders
    can ask for, the provider's result has height 7 and a diameter
    between 1.9 and 8.1, and [set_optimal_view] called with them, as the
    display manager does, puts the camera at a distance between 24.5 and
    28.35, well inside the zoom range, with a pitch of 25 or 30
    degrees. *)
Theorem X26_slider_vase_camera (segment_count : Z)
    (object_width twist_angle twist_groove_depth vertical_wave_freq
     vertical_wave_depth : R) (camera : OrbitCamera.State) :
  (2 <= object_width <= 3)%R ->
  (0 <= twist_groove_depth <= 5)%R ->
  (0 <= vertical_wave_depth <= 5)%R ->
  exists gr d,
    built_vase_result segment_count object_width twist_angle
      twist_groove_depth vertical_wave_freq vertical_wave_depth = Ok gr
    /\ height gr = 7%R
    /\ diameter gr = Some (Fin d)
    /\ (1.9 <= d <= 8.1)%R
    /\ let camera' :=
         OrbitCamera.set_optimal_view (height gr) (Some d) camera in
       (24.5 <= OrbitCamera._distance camera' <= 28.35)%R
       /\ (OrbitCamera._pitch camera' = radians 25
           \/ OrbitCamera._pitch camera' = radians 30).
Proof.
  intros Hw Hg Hd.
  destruct (vaseGeometry_extents segment_count object_width twist_angle
              twist_groove_depth vertical_wave_freq vertical_wave_depth
              Vase.wall_thickness_default)
    as (geom & E & _ & Hshape & Hrows).
  set (d := extent (map vx (geom_vdata geom))).
  exists (_extract_result
            (Tuple4 Vase.ObjectType geom Vase.height (Fin d)) "Vace"), d.
  assert (Hrange : (1.9 <= d <= 8.1)%R).
  { rewrite List.Forall_forall in Hshape.
    assert (Hw' : (0.25 <= object_width)%R) by lra.
    assert (Hall : forall x, In x (map vx (geom_vdata geom)) ->
                             (- 4.05 <= x <= 4.05)%R).
    { intros x Hx. apply in_map_iff in Hx. destruct Hx as [v [<- Hv]].
      pose proof (emitted_reach segment_count object_width twist_angle
                    twist_groove_depth vertical_wave_freq vertical_wave_depth
                    v Hw' (Hshape v Hv)) as [Hx _].
      rewrite !Rabs_right in Hx by lra. lra. }
    assert (H0 : 0 <= 0 < Vase.segments) by (unfold Vase.segments; lia).
    assert (H20 : 0 <= 20 < Vase.segments) by (unfold Vase.segments; lia).
    pose proof (in_map vx _ _ (Hrows 0 H0)) as Hin0.
    pose proof (in_map vx _ _ (Hrows 20 H20)) as Hin20.
    assert (Hne : map vx (geom_vdata geom) <> []).
    { intros Hnil. rewrite Hnil in Hin0. destruct Hin0. }
    pose proof (extent_bounds _ _ _ Hne Hall) as Hub.
    pose proof (extent_ge _ _ _ Hin20 Hin0) as Hlb.
    fold d in Hub, Hlb.
    assert (E0 : (0.95 <= vx (VaseInvariant.top_outer_row segment_count
                                object_width twist_angle twist_groove_depth
                                vertical_wave_freq vertical_wave_depth 0))%R).
    { unfold VaseInvariant.top_outer_row, VaseInvariant.outer_radius.
      cbv zeta. cbn [vx].
      unfold VaseInvariant.angle_of, Vase.segments.
      replace (2 * PI * 0 / 40)%R with 0%R by lra. rewrite cos_0.
      pose proof (radius_bounds segment_count object_width twist_angle
                    twist_groove_depth vertical_wave_freq vertical_wave_depth
                    0 0 1) as [Hr _].
      rewrite !Rabs_right in Hr by lra. lra. }
    assert (E20 : (vx (VaseInvariant.top_outer_row segment_count
                         object_width twist_angle twist_groove_depth
                         vertical_wave_freq vertical_wave_depth 20)
                   <= - 0.95)%R).
    { unfold VaseInvariant.top_outer_row, VaseInvariant.outer_radius.
      cbv zeta. cbn [vx].
      unfold VaseInvariant.angle_of, Vase.segments.
      replace (2 * PI * 20 / 40)%R with PI by lra. rewrite cos_PI.
      pose proof (radius_bounds segment_count object_width twist_angle
                    twist_groove_depth vertical_wave_freq vertical_wave_depth
                    0 PI 1) as [Hr _].
      rewrite !Rabs_right in Hr by lra. lra. }
    lra. }
  split; [unfold built_vase_result, vase_builder; now rewrite E |].
  split; [reflexivity |]. split; [reflexivity |]. split; [exact Hrange |].
  cbn [height _extract_result]. unfold Vase.height.
  unfold OrbitCamera.set_optimal_view, OrbitCamera.size_factor,
    OrbitCamera.diameter_truthy, float_truthy.
  destruct (decide (d = 0%R)) as [Hz | _]; [lra |].
  destruct (decide (7 = 0)%R) as [Hz | _]; [lra |].
  assert (Hdist :
    (24.5 <= Rmax OrbitCamera._min_dist
               (Rmin OrbitCamera._max_dist (Rmax 10 (Rmax 7 d * 3.5)))
     <= 28.35)%R).
  { unfold OrbitCamera._min_dist, OrbitCamera._max_dist, Rmax, Rmin.
    repeat destruct (Rle_dec _ _); lra. }
  assert (Haspect : ~ (7 / d < 0.5)%R).
  { intros Hlt. apply (Rmult_lt_compat_r d) in Hlt; [| lra].
    unfold Rdiv in Hlt. rewrite Rmult_assoc, Rinv_l in Hlt by lra. lra. }
  destruct (Rlt_dec 2 (7 / d));
    [| destruct (Rlt_dec (7 / d) 0.5); [contradiction |]];
    cbn; (split; [exact Hdist | auto]).
Qed.

Lemma X26_witness :
  exists gr d,
    built_vase_result 5 2.5 20 1 3 1 = Ok gr
    /\ height gr = 7%R
    /\ diameter gr = Some (Fin d)
    /\ (1.9 <= d <= 8.1)%R
    /\ let camera' :=
         OrbitCamera.set_optimal_view (height gr) (Some d) OrbitCamera.init in
       (24.5 <= OrbitCamera._distance camera' <= 28.35)%R
       /\ (OrbitCamera._pitch camera' = radians 25
           \/ OrbitCamera._pitch camera' = radians 30).
Proof.
  apply (X26_slider_vase_camera 5 2.5 20 1 3 1 OrbitCamera.init); lra.
Defined.

(** * The height of the table mesh *)

Section TablePreservation.
Import Table.

Variable segment_count : Z.
Variables object_width twist_angle twist_groove_depth
          vertical_wave_freq vertical_wave_depth : R.

Variable I : State -> Prop.
Variable ok : Vertex -> Prop.
Hypothesis I_add : forall x y z nx ny nz,
  ok (mkVertex x y z nx ny nz) -> preserves I (add_vertex x y z nx ny nz).
Hypothesis I_extend : forall ts, preserves I (extend ts).
Hypothesis ok_z : forall x y z nx ny nz,
  (- half_height <= z <= half_height)%R -> ok (mkVertex x y z nx ny nz).

Lemma table_half_height_range :
  (- half_height <= half_height <= half_height)%R
  /\ (- half_height <= - half_height <= half_height)%R.
Proof. unfold half_height, height. lra. Qed.

Lemma table_band_height_range (k : Z) :
  0 <= k <= height_segments ->
  (- half_height <= half_height - (height * IZR k) / IZR height_segments
   <= half_height)%R.
Proof.
  intros [H0 H1]. apply IZR_le in H0, H1.
  unfold half_height, height, height_segments in *. lra.
Qed.

Ltac keep_table :=
  repeat first
    [ apply preserves_ret
    | apply preserves_getitem
    | apply I_extend
    | apply preserves_bind; [| intros ?] ].

Lemma table_cap_vertices_preserves :
  preserves I
    (cap_vertices segment_count object_width twist_angle twist_groove_depth
       vertical_wave_freq vertical_wave_depth).
Proof.
  destruct table_half_height_range as [Htop Hbottom].
  unfold cap_vertices. apply preserves_for_loop.
  intros i [l1 l2] Hi. keep_table; apply I_add; apply ok_z; assumption.
Qed.

Lemma table_fans_preserve (c : Z) (l : list Z) :
  preserves I (top_fan c l) /\ preserves I (bottom_fan c l).
Proof.
  split; (apply preserves_for_loop; intros i [] Hi; keep_table).
Qed.

Lemma table_side_wall_preserves :
  preserves I
    (side_wall segment_count object_width twist_angle twist_groove_depth
       vertical_wave_freq vertical_wave_depth).
Proof.
  unfold side_wall. apply preserves_for_loop.
  intros h [] Hh. apply range_In in Hh.
  assert (Hz1 := table_band_height_range h ltac:(lia)).
  assert (Hz2 := table_band_height_range (h + 1) ltac:(lia)).
  apply preserves_for_loop. intros i [] Hi.
  keep_table; apply I_add; apply ok_z; assumption.
Qed.

(** What [build] runs after the two centre rows. *)
Lemma table_rest_preserves (top_center bottom_center : Z) :
  preserves I
    (bind (cap_vertices segment_count object_width twist_angle
             twist_groove_depth vertical_wave_freq vertical_wave_depth)
       (fun rims =>
          let '(top_vertices, bottom_vertices) := rims in
          bind (top_fan top_center top_vertices) (fun _ =>
          bind (bottom_fan bottom_center bottom_vertices) (fun _ =>
          side_wall segment_count object_width twist_angle
            twist_groove_depth vertical_wave_freq vertical_wave_depth)))).
Proof.
  apply preserves_bind; [apply table_cap_vertices_preserves |].
  intros [l1 l2].
  apply preserves_bind;
    [exact (proj1 (table_fans_preserve top_center l1)) |].
  intros _.
  apply preserves_bind;
    [exact (proj2 (table_fans_preserve bottom_center l2)) |].
  intros _. apply table_side_wall_preserves.
Qed.

Lemma table_build_preserves :
  preserves I
    (build segment_count object_width twist_angle twist_groove_depth
       vertical_wave_freq vertical_wave_depth).
Proof.
  destruct table_half_height_range as [Htop Hbottom].
  unfold build.
  apply preserves_bind; [apply I_add, ok_z, Htop |]. intros top_center.
  apply preserves_bind; [apply I_add, ok_z, Hbottom |]. intros bottom_center.
  apply table_rest_preserves.
Qed.

End TablePreservation.

Lemma table_add_vertex_vdata (x y z nx ny nz : R) (s s' : Table.State)
    (a : Z) :
  Table.add_vertex x y z nx ny nz s = Some (a, s') ->
  Table.vdata s' = mkVertex x y z nx ny nz :: Table.vdata s.
Proof. intros E. inversion E; subst. reflexivity. Qed.

Lemma table_written_add (v : Vertex) (x y z nx ny nz : R) :
  preserves (fun s => In v (Table.vdata s)) (Table.add_vertex x y z nx ny nz).
Proof.
  intros s a s' Hs E. rewrite (table_add_vertex_vdata _ _ _ _ _ _ _ _ _ E).
  now right.
Qed.

Lemma table_written_extend (v : Vertex) (ts : list Triangle) :
  preserves (fun s => In v (Table.vdata s)) (Table.extend ts).
Proof. intros s a s' Hs E. inversion E; subst. exact Hs. Qed.

Lemma table_shape_add (P : Vertex -> Prop) (x y z nx ny nz : R) :
  P (mkVertex x y z nx ny nz) ->
  preserves (fun s => Forall P (Table.vdata s))
    (Table.add_vertex x y z nx ny nz).
Proof.
  intros Hv s a s' Hs E. rewrite (table_add_vertex_vdata _ _ _ _ _ _ _ _ _ E).
  now constructor.
Qed.

Lemma table_shape_extend (P : Vertex -> Prop) (ts : list Triangle) :
  preserves (fun s => Forall P (Table.vdata s)) (Table.extend ts).
Proof. intros s a s' Hs E. inversion E; subst. exact Hs. Qed.

Section TableRun.
Import Table.

Variable segment_count : Z.
Variables object_width twist_angle twist_groove_depth
          vertical_wave_freq vertical_wave_depth : R.

Let run := build segment_count object_width twist_angle twist_groove_depth
             vertical_wave_freq vertical_wave_depth.
Let between (v : Vertex) : Prop :=
  (- half_height <= vz v <= half_height)%R.

Lemma table_build_between (s : State) :
  run initial = Some (tt, s) -> Forall between (vdata s).
Proof.
  apply (table_build_preserves segment_count object_width twist_angle
           twist_groove_depth vertical_wave_freq vertical_wave_depth
           (fun s => Forall between (vdata s)) between
           (table_shape_add between) (table_shape_extend between)
           (fun x y z nx ny nz H => H)).
  constructor.
Qed.

Lemma table_build_writes_centres :
  ensures (fun s => In (mkVertex 0 0 half_height 0 0 1) (vdata s)
                    /\ In (mkVertex 0 0 (- half_height) 0 0 (-1)) (vdata s))
          run.
Proof.
  unfold run, build.
  intros s a s' E.
  apply bind_Some in E. destruct E as (tc & s1 & E1 & E).
  apply bind_Some in E. destruct E as (bc & s2 & E2 & E).
  assert (Htop : In (mkVertex 0 0 half_height 0 0 1) (vdata s2)).
  { rewrite (table_add_vertex_vdata _ _ _ _ _ _ _ _ _ E2),
      (table_add_vertex_vdata _ _ _ _ _ _ _ _ _ E1). right. now left. }
  assert (Hbottom : In (mkVertex 0 0 (- half_height) 0 0 (-1)) (vdata s2)).
  { rewrite (table_add_vertex_vdata _ _ _ _ _ _ _ _ _ E2). now left. }
  split.
  - exact (table_rest_preserves segment_count object_width twist_angle
             twist_groove_depth vertical_wave_freq vertical_wave_depth
             (fun s => In (mkVertex 0 0 half_height 0 0 1) (vdata s))
             (fun _ => True)
             (fun x y z nx ny nz _ => table_written_add _ x y z nx ny nz)
             (table_written_extend _) (fun _ _ _ _ _ _ _ => Logic.I)
             tc bc s2 a s' Htop E).
  - exact (table_rest_preserves segment_count object_width twist_angle
             twist_groove_depth vertical_wave_freq vertical_wave_depth
             (fun s => In (mkVertex 0 0 (- half_height) 0 0 (-1)) (vdata s))
             (fun _ => True)
             (fun x y z nx ny nz _ => table_written_add _ x y z nx ny nz)
             (table_written_extend _) (fun _ _ _ _ _ _ _ => Logic.I)
             tc bc s2 a s' Hbottom E).
Qed.

Lemma tableGeometry_state (ty : string) (geom : Geom) :
  tableGeometry segment_count object_width twist_angle twist_groove_depth
    vertical_wave_freq vertical_wave_depth = Some (ty, geom) ->
  exists s,
    run initial = Some (tt, s)
    /\ ty = ObjectType
    /\ geom = {| geom_vdata := rev_append (vdata s) [];
                 geom_triangles := indices s |}.
Proof.
  unfold tableGeometry, run.
  destruct (build _ _ _ _ _ _ initial) as [[[] s] |]; simpl;
    intros E; inversion E. exists s. auto.
Qed.

End TableRun.

(** X27.  The table mesh is exactly as high as the application takes
    it to be: every vertex row of [tableGeometry] lies between z = -1
    and z = 1, both are reached (by the two cap centres, which lie on
    the axis), and so the z extent of the mesh is the height 2.0 that
    [_extract_result] gives a result that carries no height. *)
Theorem X27_table_height (segment_count : Z)
    (object_width twist_angle twist_groove_depth vertical_wave_freq
     vertical_wave_depth : R) :
  exists geom,
    Table.tableGeometry segment_count object_width twist_angle
      twist_groove_depth vertical_wave_freq vertical_wave_depth
    = Some (Table.ObjectType, geom)
    /\ Forall (fun v => -1 <= vz v <= 1)%R (geom_vdata geom)
    /\ In (mkVertex 0 0 1 0 0 1) (geom_vdata geom)
    /\ In (mkVertex 0 0 (-1) 0 0 (-1)) (geom_vdata geom)
    /\ extent (map vz (geom_vdata geom))
       = height (_extract_result (Tuple2 Table.ObjectType geom) "Table").
Proof.
  pose proof (tableGeometry_vertex_count segment_count object_width
                twist_angle twist_groove_depth vertical_wave_freq
                vertical_wave_depth) as Hcount.
  destruct (Table.tableGeometry segment_count object_width twist_angle
              twist_groove_depth vertical_wave_freq vertical_wave_depth)
    as [[ty geom] |] eqn:E; [| discriminate].
  clear Hcount.
  destruct (tableGeometry_state _ _ _ _ _ _ _ _ E) as (s & Hrun & -> & ->).
  pose proof (table_build_between _ _ _ _ _ _ s Hrun) as Hbetween.
  destruct (table_build_writes_centres _ _ _ _ _ _ _ _ _ Hrun)
    as [Htop Hbottom].
  unfold Table.half_height, Table.height in Hbetween, Htop, Hbottom.
  replace (2 / 2)%R with 1%R in Hbetween, Htop, Hbottom by lra.
  eexists. split; [reflexivity |].
  cbn [geom_vdata]. rewrite rev_append_rev, app_nil_r.
  assert (Hall : Forall (fun v => -1 <= vz v <= 1)%R (rev (Table.vdata s))).
  { apply List.Forall_rev. exact Hbetween. }
  assert (Ht : In (mkVertex 0 0 1 0 0 1) (rev (Table.vdata s)))
    by (apply -> in_rev; exact Htop).
  assert (Hb : In (mkVertex 0 0 (-1) 0 0 (-1)) (rev (Table.vdata s)))
    by (apply -> in_rev; exact Hbottom).
  split; [exact Hall |]. split; [exact Ht |]. split; [exact Hb |].
  cbn [height _extract_result].
  rewrite (extent_attained _ (-1) 1).
  - lra.
  - exact (in_map vz _ _ Hb).
  - exact (in_map vz _ _ Ht).
  - intros z Hz. apply in_map_iff in Hz. destruct Hz as [v [<- Hv]].
    rewrite List.Forall_forall in Hall. exact (Hall v Hv).
Qed.
